(** * The AI trading simulation engine of finance_rag_bot

    A shallow embedding of [backend/app/services/trading/engine.py]
    (class [TradingEngine]), of the lifecycle endpoints of
    [backend/app/api/v1/trading.py] and of the Celery task of
    [backend/app/workers/trading_tasks.py], followed by the properties
    of the ledger, of the simulation loop and of the lifecycle state
    machine.

    Money and share amounts are Python [Decimal]s.  Their arithmetic is
    modelled by value: a [Decimal] is the rational number it denotes and
    every operation of the default context returns the exact result
    rounded to 28 significant digits, ties to even.  The numbers are
    finite and their exponents stay within the context's range: no NaN,
    no infinity, no overflow.

    The store keeps a number at the scale of its [Numeric] column,
    rounding half away from zero as PostgreSQL does, and gives it back
    so at the next [db.refresh]; values stay within the precision of
    their columns, so that the store accepts every row.  The session
    keeps the objects it holds as they are.

    What lies outside the three files is an input of the model: the
    series the market data source returns, the answer of the language
    model to each day's prompt, once parsed, and the status each
    [db.refresh] reads back from the store.  Texts (log lines, the
    summary, error messages) are kept as the values they are formatted
    from. *)

From Stdlib Require Import ZArith QArith Qround Qabs Qpower Qreduction.
From Stdlib Require Import List String Ascii Bool Lia Lqa.
Import ListNotations.

Local Open Scope Q_scope.

(** ** Decimal arithmetic of the default context *)

Module Decimal.

(** [decimal.getcontext().prec] *)
Definition prec : Z := 28.

(** Rounding of a rational to an integer, ties to even
    ([ROUND_HALF_EVEN]). *)
Definition round_half_even (y : Q) : Z :=
  let f := Qfloor y in
  match Qcompare (y - inject_Z f) (1 # 2) with
  | Lt => f
  | Gt => (f + 1)%Z
  | Eq => if Z.even f then f else (f + 1)%Z
  end.

(** Search, downwards from [e], of the exponent of the last kept digit:
    the largest [e] with [10 ^ (e + prec - 1) <= a]. *)
Fixpoint lower_exp (fuel : nat) (a : Q) (e : Z) : Z :=
  match fuel with
  | O => e
  | S k => if Qle_bool (10 ^ (e + (prec - 1))) a then e
           else lower_exp k a (e - 1)
  end.

(** Exponent of the last of the [prec] significant digits of [a > 0]. *)
Definition exponent (a : Q) : Z :=
  let n := Z.log2 (Qnum a) in
  let d := Z.log2 (Zpos (Qden a)) in
  lower_exp (Z.to_nat (n + d + 2)) a (n + 1 - prec).

(** The context's rounding: the nearest number with at most [prec]
    significant digits. *)
Definition rnd (x : Q) : Q :=
  let x := Qred x in
  if Qeq_bool x 0 then 0
  else
    let e := exponent (Qabs x) in
    Qred (inject_Z (round_half_even (x * 10 ^ (- e))) * 10 ^ e).

Definition add (a b : Q) : Q := rnd (a + b).
Definition sub (a b : Q) : Q := rnd (a - b).
Definition mul (a b : Q) : Q := rnd (a * b).

(** [a / b]; [None] stands for the [DivisionByZero] or
    [InvalidOperation] signal, which the default context traps. *)
Definition div (a b : Q) : option Q :=
  if Qeq_bool b 0 then None else Some (rnd (a / b)).

(** Comparisons of [Decimal]s are comparisons of their values. *)
Definition leb (a b : Q) : bool := Qle_bool a b.
Definition ltb (a b : Q) : bool := negb (Qle_bool b a).
Definition gtb (a b : Q) : bool := negb (Qle_bool a b).

(** Truth value of a [Decimal]: zero is falsy. *)
Definition truthy (a : Q) : bool := negb (Qeq_bool a 0).

(** Relative error of one rounding: half a unit in the last place. *)
Definition eps : Q := 1 # (2 * 10 ^ 27).

End Decimal.

(** ** Numbers as the store keeps them *)

Module Numeric.

(** Rounding of a rational to an integer, ties away from zero: the
    rounding of PostgreSQL's [numeric]. *)
Definition round_half_away (y : Q) : Z :=
  if Qle_bool 0 y then Qfloor (y + (1 # 2))
  else (- Qfloor (- y + (1 # 2)))%Z.

(** What a column [Numeric(_, scale)] holds of [x]. *)
Definition quantize (scale : Z) (x : Q) : Q :=
  Qred (inject_Z (round_half_away (x * inject_Z (10 ^ scale)))
        / inject_Z (10 ^ scale)).

End Numeric.

(** ** Data model ([app/models/trading.py], [app/schemas/market.py]) *)

(** The values the [status] column takes. *)
Inductive Status : Type :=
  Pending | Running | Paused | Stopped | Completed | Failed.

Definition Status_eqb (a b : Status) : bool :=
  match a, b with
  | Pending, Pending | Running, Running | Paused, Paused
  | Stopped, Stopped | Completed, Completed | Failed, Failed => true
  | _, _ => false
  end.

(** A timezone-aware [datetime], normalised to UTC. *)
Record DateTime : Type := mkDateTime {
  dt_year : Z; dt_month : Z; dt_day : Z;
  dt_hour : Z; dt_minute : Z; dt_second : Z
}.

Definition DateTime_key (d : DateTime) : list Z :=
  [dt_year d; dt_month d; dt_day d; dt_hour d; dt_minute d; dt_second d].

Fixpoint lex_leb (a b : list Z) : bool :=
  match a, b with
  | x :: a', y :: b' =>
      if (x <? y)%Z then true
      else if (y <? x)%Z then false
      else lex_leb a' b'
  | _, _ => true
  end.

(** [a <= b] on aware datetimes. *)
Definition DateTime_leb (a b : DateTime) : bool :=
  lex_leb (DateTime_key a) (DateTime_key b).

(** [KlinePoint].  [datetime] holds what
    [datetime.fromisoformat(k.datetime.replace("Z", "+00:00"))] returns,
    made aware and normalised to UTC; [None] when it raises
    [ValueError].  Prices are the decimal values [Decimal(str(x))] of
    the floats. *)
Module KlinePoint.
Record t : Type := mk {
  datetime : option DateTime;
  open : Q;
  high : Q;
  low : Q;
  close : Q;
  volume : option Z
}.
End KlinePoint.

Inductive Action : Type := Buy | Sell.

(** What an exception caught by [run_simulation] was. *)
Inductive Exn : Type :=
| InsufficientData      (* ValueError("Insufficient historical data for simulation") *)
| MarketDataError       (* market_data.get_kline raised *)
| DecimalError          (* decimal.DivisionByZero / InvalidOperation *)
| InvalidIsoformat      (* datetime.fromisoformat raised ValueError *)
| NotSubscriptable.     (* TypeError: decision['reasoning'][:100] *)

Inductive Level : Type := info | warning | error | success.

(** The messages of [_add_log], one constructor per call site, with the
    values the f-string formats. *)
Inductive Message : Type :=
| MsgStart (agent_name : string)
| MsgSymbol (symbol market : string)
| MsgInitialBalance (balance : Q) (currency : string)
| MsgFetching
| MsgInsufficient
| MsgFetched (n : nat)
| MsgFallback (n : nat)
| MsgBacktest (n : nat)
| MsgRule
| MsgStopped
| MsgPaused
| MsgDay (i n : nat) (date : option DateTime)
| MsgPrices (close open high low : Q)
| MsgPortfolio (shares position_value cash total_value : Q)
| MsgAnalyzing
| MsgDecision (action : Action) (quantity confidence : Q)
| MsgReasoning (reasoning : string)
| MsgHold
| MsgDash
| MsgBought (quantity price commission total_cost : Q)
| MsgSold (quantity price commission net_proceeds : Q)
| MsgRealized (realized_pnl cost_basis : Q)
| MsgAfterTrade (shares cash : Q)
| MsgMetrics
| MsgDone
| MsgTotalTrades (n : Z)
| MsgTotalPnl (pnl : Q)
| MsgRoi (roi : Q)
| MsgFailure (e : Exn).

Record LogEntry : Type := mkLog { level : Level; message : Message }.

(** [summary]: the report of [_generate_summary], or the fixed text the
    stop endpoint writes. *)
Inductive Summary : Type :=
| SummaryReport (total winning losing : Z) (final_value pnl : Q)
| SummaryManualStop.

Definition Config : Type := list (string * string).

(** [TradingSimulation].  [sharpe_ratio] is computed in binary floating
    point and is left out of the model. *)
Module TradingSimulation.
Record t : Type := mk {
  id : Z;
  user_id : Z;
  symbol : string;
  market : string;
  agent_name : string;
  llm_model : string;
  initial_balance : Q;
  current_balance : Q;
  currency : string;
  start_date : DateTime;
  end_date : DateTime;
  status : Status;
  current_shares : Q;
  average_cost : option Q;
  total_trades : Z;
  winning_trades : Z;
  losing_trades : Z;
  total_profit_loss : Q;
  max_drawdown : option Q;
  config : Config;
  total_tokens_used : Z;
  total_llm_cost : Q;
  summary : option Summary;
  error_message : option Exn;
  execution_logs : option (list LogEntry)
}.

Definition set_status (v : Status) (x : t) : t :=
  mk (id x) (user_id x) (symbol x) (market x) (agent_name x) (llm_model x)
     (initial_balance x) (current_balance x) (currency x) (start_date x)
     (end_date x) v (current_shares x) (average_cost x) (total_trades x)
     (winning_trades x) (losing_trades x) (total_profit_loss x)
     (max_drawdown x) (config x) (total_tokens_used x) (total_llm_cost x)
     (summary x) (error_message x) (execution_logs x).

Definition set_current_balance (v : Q) (x : t) : t :=
  mk (id x) (user_id x) (symbol x) (market x) (agent_name x) (llm_model x)
     (initial_balance x) v (currency x) (start_date x) (end_date x)
     (status x) (current_shares x) (average_cost x) (total_trades x)
     (winning_trades x) (losing_trades x) (total_profit_loss x)
     (max_drawdown x) (config x) (total_tokens_used x) (total_llm_cost x)
     (summary x) (error_message x) (execution_logs x).

Definition set_current_shares (v : Q) (x : t) : t :=
  mk (id x) (user_id x) (symbol x) (market x) (agent_name x) (llm_model x)
     (initial_balance x) (current_balance x) (currency x) (start_date x)
     (end_date x) (status x) v (average_cost x) (total_trades x)
     (winning_trades x) (losing_trades x) (total_profit_loss x)
     (max_drawdown x) (config x) (total_tokens_used x) (total_llm_cost x)
     (summary x) (error_message x) (execution_logs x).

Definition set_average_cost (v : option Q) (x : t) : t :=
  mk (id x) (user_id x) (symbol x) (market x) (agent_name x) (llm_model x)
     (initial_balance x) (current_balance x) (currency x) (start_date x)
     (end_date x) (status x) (current_shares x) v (total_trades x)
     (winning_trades x) (losing_trades x) (total_profit_loss x)
     (max_drawdown x) (config x) (total_tokens_used x) (total_llm_cost x)
     (summary x) (error_message x) (execution_logs x).

Definition set_total_trades (v : Z) (x : t) : t :=
  mk (id x) (user_id x) (symbol x) (market x) (agent_name x) (llm_model x)
     (initial_balance x) (current_balance x) (currency x) (start_date x)
     (end_date x) (status x) (current_shares x) (average_cost x) v
     (winning_trades x) (losing_trades x) (total_profit_loss x)
     (max_drawdown x) (config x) (total_tokens_used x) (total_llm_cost x)
     (summary x) (error_message x) (execution_logs x).

Definition set_winning_trades (v : Z) (x : t) : t :=
  mk (id x) (user_id x) (symbol x) (market x) (agent_name x) (llm_model x)
     (initial_balance x) (current_balance x) (currency x) (start_date x)
     (end_date x) (status x) (current_shares x) (average_cost x)
     (total_trades x) v (losing_trades x) (total_profit_loss x)
     (max_drawdown x) (config x) (total_tokens_used x) (total_llm_cost x)
     (summary x) (error_message x) (execution_logs x).

Definition set_losing_trades (v : Z) (x : t) : t :=
  mk (id x) (user_id x) (symbol x) (market x) (agent_name x) (llm_model x)
     (initial_balance x) (current_balance x) (currency x) (start_date x)
     (end_date x) (status x) (current_shares x) (average_cost x)
     (total_trades x) (winning_trades x) v (total_profit_loss x)
     (max_drawdown x) (config x) (total_tokens_used x) (total_llm_cost x)
     (summary x) (error_message x) (execution_logs x).

Definition set_total_profit_loss (v : Q) (x : t) : t :=
  mk (id x) (user_id x) (symbol x) (market x) (agent_name x) (llm_model x)
     (initial_balance x) (current_balance x) (currency x) (start_date x)
     (end_date x) (status x) (current_shares x) (average_cost x)
     (total_trades x) (winning_trades x) (losing_trades x) v (max_drawdown
     x) (config x) (total_tokens_used x) (total_llm_cost x) (summary x)
     (error_message x) (execution_logs x).

Definition set_max_drawdown (v : option Q) (x : t) : t :=
  mk (id x) (user_id x) (symbol x) (market x) (agent_name x) (llm_model x)
     (initial_balance x) (current_balance x) (currency x) (start_date x)
     (end_date x) (status x) (current_shares x) (average_cost x)
     (total_trades x) (winning_trades x) (losing_trades x)
     (total_profit_loss x) v (config x) (total_tokens_used x)
     (total_llm_cost x) (summary x) (error_message x) (execution_logs x).

Definition set_total_tokens_used (v : Z) (x : t) : t :=
  mk (id x) (user_id x) (symbol x) (market x) (agent_name x) (llm_model x)
     (initial_balance x) (current_balance x) (currency x) (start_date x)
     (end_date x) (status x) (current_shares x) (average_cost x)
     (total_trades x) (winning_trades x) (losing_trades x)
     (total_profit_loss x) (max_drawdown x) (config x) v (total_llm_cost
     x) (summary x) (error_message x) (execution_logs x).

Definition set_total_llm_cost (v : Q) (x : t) : t :=
  mk (id x) (user_id x) (symbol x) (market x) (agent_name x) (llm_model x)
     (initial_balance x) (current_balance x) (currency x) (start_date x)
     (end_date x) (status x) (current_shares x) (average_cost x)
     (total_trades x) (winning_trades x) (losing_trades x)
     (total_profit_loss x) (max_drawdown x) (config x) (total_tokens_used
     x) v (summary x) (error_message x) (execution_logs x).

Definition set_summary (v : option Summary) (x : t) : t :=
  mk (id x) (user_id x) (symbol x) (market x) (agent_name x) (llm_model x)
     (initial_balance x) (current_balance x) (currency x) (start_date x)
     (end_date x) (status x) (current_shares x) (average_cost x)
     (total_trades x) (winning_trades x) (losing_trades x)
     (total_profit_loss x) (max_drawdown x) (config x) (total_tokens_used
     x) (total_llm_cost x) v (error_message x) (execution_logs x).

Definition set_error_message (v : option Exn) (x : t) : t :=
  mk (id x) (user_id x) (symbol x) (market x) (agent_name x) (llm_model x)
     (initial_balance x) (current_balance x) (currency x) (start_date x)
     (end_date x) (status x) (current_shares x) (average_cost x)
     (total_trades x) (winning_trades x) (losing_trades x)
     (total_profit_loss x) (max_drawdown x) (config x) (total_tokens_used
     x) (total_llm_cost x) (summary x) v (execution_logs x).

Definition set_execution_logs (v : option (list LogEntry)) (x : t) : t :=
  mk (id x) (user_id x) (symbol x) (market x) (agent_name x) (llm_model x)
     (initial_balance x) (current_balance x) (currency x) (start_date x)
     (end_date x) (status x) (current_shares x) (average_cost x)
     (total_trades x) (winning_trades x) (losing_trades x)
     (total_profit_loss x) (max_drawdown x) (config x) (total_tokens_used
     x) (total_llm_cost x) (summary x) (error_message x) v.
End TradingSimulation.

Definition Simulation : Type := TradingSimulation.t.

(** The dict a trade keeps of its day, a JSONB column. *)
Module MarketData.
Record t : Type := mk {
  price : Q;
  open : Q;
  high : Q;
  low : Q;
  close : Q;
  volume : option Z
}.
End MarketData.

Module Trade.
Record t : Type := mk {
  simulation_id : Z;
  trade_date : DateTime;
  action : Action;
  symbol : string;
  quantity : Q;
  price : Q;
  total_amount : Q;
  commission : Q;
  shares_before : Q;
  shares_after : Q;
  cash_before : Q;
  cash_after : Q;
  realized_pnl : option Q;
  llm_reasoning : string;
  confidence_score : Q;
  market_data : MarketData.t;
  tokens_used : Z;
  llm_cost : Q
}.
End Trade.

(** The JSON value under ["reasoning"]: a string, or one of the values
    that cannot be sliced.  Arrays and objects are left out. *)
Inductive Json : Type :=
| JNull
| JBool (b : bool)
| JNumber (q : Q)
| JString (s : string).

(** The dict of a decision.  [R] is what its ["reasoning"] holds: any
    JSON value in the dict [_make_trading_decision] returns, a string
    in the dict [_execute_trade] is given, the loop having sliced it. *)
Record Decision_of (R : Type) : Type := mkDecision {
  d_action : Action;
  d_quantity : Q;
  d_confidence : Q;
  d_reasoning : R;
  d_tokens_used : Z;
  d_llm_cost : Q
}.

Arguments mkDecision {R} _ _ _ _ _ _.
Arguments d_action {R} _.
Arguments d_quantity {R} _.
Arguments d_confidence {R} _.
Arguments d_reasoning {R} _.
Arguments d_tokens_used {R} _.
Arguments d_llm_cost {R} _.

Definition Decision : Type := Decision_of string.

(** The JSON object of the model's answer; a missing key is [None].
    [action] is a string and the two numbers are what
    [Decimal(str(...))] reads; [reasoning] is whatever the answer
    holds. *)
Record JsonDecision : Type := mkJson {
  j_action : option string;
  j_quantity_shares : option Q;
  j_confidence : option Q;
  j_reasoning : option Json
}.

(** What one call of [llm_provider.chat] followed by [json.loads]
    comes to. *)
Inductive LLMReply : Type :=
| ChatRaises
    (* the call raised, or the content is not JSON: nothing is accounted *)
| ChatJson (tokens_used : Z) (cost_usd : Q) (decision : option JsonDecision).
    (* [None]: the JSON is not an object, its [action] is not a string,
       or [Decimal] refuses one of its two numbers; the exception comes
       after the accounting *)

Inductive KlineFetch : Type :=
| KlineError
| Klines (l : list KlinePoint.t).

(** The collaborators of one execution attempt: the market data source,
    the status another session has committed by the [n]-th
    [db.refresh], and the oracle's answer to the [n]-th day's prompt. *)
Record Env : Type := mkEnv {
  get_kline : KlineFetch;
  db_status : nat -> Status;
  llm_chat : nat -> Simulation -> KlinePoint.t -> list KlinePoint.t -> LLMReply
}.

(** ** The session *)

(** The simulation object, the [Trade] objects (those of the table,
    then those added), the row the store holds of the simulation, and
    whether [execution_logs] was assigned since the last flush: the
    entries appended in place to its list are not seen by the session. *)
Record Session : Type := mkSession {
  simulation : Simulation;
  trades : list Trade.t;
  stored : Simulation;
  logs_assigned : bool
}.

(** A computation on the session either returns or raises; what it
    changed before raising stays changed. *)
Inductive Result (A : Type) : Type :=
| Return (a : A) (s : Session)
| Raised (e : Exn) (s : Session).

Arguments Return {A} a s.
Arguments Raised {A} e s.

Definition M (A : Type) : Type := Session -> Result A.

Definition ret {A : Type} (a : A) : M A := fun s => Return a s.

Definition bind {A B : Type} (m : M A) (k : A -> M B) : M B :=
  fun s =>
    match m s with
    | Return a s' => k a s'
    | Raised e s' => Raised e s'
    end.

Definition raise {A : Type} (e : Exn) : M A := fun s => Raised e s.

Definition get_simulation : M Simulation :=
  fun s => Return (simulation s) s.

(** An assignment to a column other than [execution_logs]. *)
Definition update (f : Simulation -> Simulation) : M unit :=
  fun s =>
    Return tt (mkSession (f (simulation s)) (trades s) (stored s)
                 (logs_assigned s)).

Definition db_add (t : Trade.t) : M unit :=
  fun s =>
    Return tt (mkSession (simulation s) (trades s ++ [t]) (stored s)
                 (logs_assigned s)).

Definition final {A : Type} (r : Result A) : Session :=
  match r with
  | Return _ s => s
  | Raised _ s => s
  end.

Declare Scope monad_scope.
Delimit Scope monad_scope with monad.
Notation "x <- m ;; k" := (bind m (fun x => k))
  (at level 61, m at next level, right associativity) : monad_scope.
Notation "' pat <- m ;; k" := (bind m (fun x => match x with pat => k end))
  (at level 61, pat pattern, m at next level, right associativity)
  : monad_scope.
Notation "m ;; k" := (bind m (fun _ => k))
  (at level 61, right associativity) : monad_scope.
Local Open Scope monad_scope.

(** A [Decimal] division inside a computation. *)
Definition divide (a b : Q) : M Q :=
  match Decimal.div a b with
  | Some q => ret q
  | None => raise DecimalError
  end.

(** ** [TradingEngine] ([app/services/trading/engine.py]) *)

Import TradingSimulation.

Definition commission_rate : Q := 1 # 1000.

Definition add_entry (l : Level) (m : Message) (x : Simulation) : Simulation :=
  let logs := match execution_logs x with
              | None => []
              | Some logs => logs
              end in
  set_execution_logs (Some (logs ++ [mkLog l m])) x.

(** [_add_log]: [execution_logs] is assigned when it is [None]; the
    entry is then appended in place. *)
Definition _add_log (l : Level) (m : Message) : M unit :=
  fun s =>
    let assigned :=
      match execution_logs (simulation s) with
      | None => true
      | Some _ => logs_assigned s
      end in
    Return tt (mkSession (add_entry l m (simulation s)) (trades s)
                 (stored s) assigned).

(** The row once the object is flushed over it.  The columns the
    engine assigns are written, the numbers at the scale of their
    columns; [execution_logs] is written when it was assigned.  (A row
    holds its numbers at scale: to write a column that was read from it
    and not assigned changes nothing.  The status other sessions write
    is what [db_status] gives at the next refresh.) *)
Definition flushed (assigned : bool) (x row : Simulation) : Simulation :=
  TradingSimulation.mk (id row) (user_id row) (symbol row) (market row)
    (agent_name row) (llm_model row) (initial_balance row)
    (Numeric.quantize 2 (current_balance x)) (currency row)
    (start_date row) (end_date row) (status x)
    (Numeric.quantize 6 (current_shares x))
    (option_map (Numeric.quantize 2) (average_cost x))
    (total_trades x) (winning_trades x) (losing_trades x)
    (Numeric.quantize 2 (total_profit_loss x))
    (option_map (Numeric.quantize 2) (max_drawdown x))
    (config row) (total_tokens_used x)
    (Numeric.quantize 4 (total_llm_cost x))
    (summary x) (error_message x)
    (if assigned then execution_logs x else execution_logs row).

(** [await db.flush()] *)
Definition db_flush : M unit :=
  fun s =>
    Return tt
      (mkSession (simulation s) (trades s)
         (flushed (logs_assigned s) (simulation s) (stored s)) false).

Definition get_initial_balance (market : string) : Q * string :=
  if String.eqb market "cn" then (50000, "CNY"%string)
  else (50000, "USD"%string).

Definition model_mapping : list (string * string) :=
  [("deepseek", "deepseek"); ("minimax", "minimax");
   ("claude", "claude"); ("openai", "openai")]%string.

Fixpoint dict_get (d : list (string * string)) (k default : string) : string :=
  match d with
  | [] => default
  | (k', v) :: d' => if String.eqb k k' then v else dict_get d' k default
  end.

(** The row as [db.flush()] inserts it: the columns the constructor
    leaves out take their defaults.  [new_id] is the generated key. *)
Definition create_simulation (new_id user : Z) (symbol market agent_name : string)
    (config : option Config) : Simulation :=
  let '(initial_balance, currency) := get_initial_balance market in
  let start_date := mkDateTime 2026 2 1 0 0 0 in
  let end_date := mkDateTime 2026 4 30 23 59 59 in
  let llm_model := dict_get model_mapping agent_name "deepseek" in
  TradingSimulation.mk new_id user symbol market agent_name llm_model
    initial_balance initial_balance currency start_date end_date
    Pending 0 None 0%Z 0%Z 0%Z 0 None
    (match config with Some c => c | None => [] end)
    0%Z 0 None None None.

(** [simulation.average_cost or price] *)
Definition or_price (average_cost : option Q) (price : Q) : Q :=
  match average_cost with
  | Some a => if Decimal.truthy a then a else price
  | None => price
  end.

Definition level_of_pnl (realized_pnl : Q) (otherwise : Level) : Level :=
  if Decimal.gtb realized_pnl 0 then success
  else if Decimal.ltb realized_pnl 0 then warning
  else otherwise.

(** The [market_data] dict of a trade. *)
Definition market_data_dict (price : Q) (market_data : KlinePoint.t)
    : MarketData.t :=
  MarketData.mk price (KlinePoint.open market_data)
    (KlinePoint.high market_data) (KlinePoint.low market_data)
    (KlinePoint.close market_data) (KlinePoint.volume market_data).

Definition buy (decision : Decision) (price : Q) (trade_date : DateTime)
    (market_data : KlinePoint.t) (quantity : Q) : M unit :=
  sim <- get_simulation ;;
  let cost := Decimal.mul quantity price in
  let commission := Decimal.mul cost commission_rate in
  let total_cost := Decimal.add cost commission in
  '(quantity, cost, commission, total_cost) <-
    (if Decimal.gtb total_cost (current_balance sim) then
       (* Can't afford, reduce quantity *)
       quantity <- divide (Decimal.mul (current_balance sim) (99 # 100))
                     (Decimal.mul price (Decimal.add 1 commission_rate)) ;;
       let cost := Decimal.mul quantity price in
       let commission := Decimal.mul cost commission_rate in
       ret (quantity, cost, commission, Decimal.add cost commission)
     else ret (quantity, cost, commission, total_cost)) ;;
  if Decimal.leb quantity 0 then ret tt
  else
    let shares_before := current_shares sim in
    let cash_before := current_balance sim in
    let shares_after := Decimal.add shares_before quantity in
    let cash_after := Decimal.sub cash_before total_cost in
    update (set_current_shares shares_after) ;;
    update (set_current_balance cash_after) ;;
    (* Update average cost *)
    (if Decimal.gtb shares_before 0 then
       let total_cost_basis :=
         Decimal.add
           (Decimal.mul shares_before (or_price (average_cost sim) price))
           cost in
       a <- divide total_cost_basis shares_after ;;
       update (set_average_cost (Some a))
     else update (set_average_cost (Some price))) ;;
    _add_log success (MsgBought quantity price commission total_cost) ;;
    _add_log info (MsgAfterTrade shares_after cash_after) ;;
    let trade :=
      Trade.mk (id sim) trade_date Buy (symbol sim) quantity price total_cost
        commission shares_before shares_after cash_before cash_after None
        (d_reasoning decision) (d_confidence decision)
        (market_data_dict price market_data)
        (d_tokens_used decision) (d_llm_cost decision) in
    update (fun x => set_total_trades (total_trades x + 1)%Z x) ;;
    db_add trade ;;
    db_flush.

Definition sell (decision : Decision) (price : Q) (trade_date : DateTime)
    (market_data : KlinePoint.t) (quantity : Q) : M unit :=
  sim <- get_simulation ;;
  let quantity :=
    if Decimal.gtb quantity (current_shares sim) then current_shares sim
    else quantity in
  if Decimal.leb quantity 0 then ret tt
  else
    let proceeds := Decimal.mul quantity price in
    let commission := Decimal.mul proceeds commission_rate in
    let net_proceeds := Decimal.sub proceeds commission in
    let shares_before := current_shares sim in
    let cash_before := current_balance sim in
    (* Calculate realized P&L *)
    let cost_basis := Decimal.mul quantity (or_price (average_cost sim) price) in
    let realized_pnl := Decimal.sub net_proceeds cost_basis in
    let shares_after := Decimal.sub shares_before quantity in
    let cash_after := Decimal.add cash_before net_proceeds in
    update (set_current_shares shares_after) ;;
    update (set_current_balance cash_after) ;;
    (* Track wins/losses *)
    (if Decimal.gtb realized_pnl 0 then
       update (fun x => set_winning_trades (winning_trades x + 1)%Z x)
     else if Decimal.ltb realized_pnl 0 then
       update (fun x => set_losing_trades (losing_trades x + 1)%Z x)
     else ret tt) ;;
    _add_log (level_of_pnl realized_pnl info)
      (MsgSold quantity price commission net_proceeds) ;;
    _add_log (level_of_pnl realized_pnl warning)
      (MsgRealized realized_pnl cost_basis) ;;
    _add_log info (MsgAfterTrade shares_after cash_after) ;;
    let trade :=
      Trade.mk (id sim) trade_date Sell (symbol sim) quantity price
        net_proceeds commission shares_before shares_after cash_before
        cash_after (Some realized_pnl)
        (d_reasoning decision) (d_confidence decision)
        (market_data_dict price market_data)
        (d_tokens_used decision) (d_llm_cost decision) in
    update (fun x => set_total_trades (total_trades x + 1)%Z x) ;;
    db_add trade ;;
    db_flush.

(** [_execute_trade]: the two branches of [if action == "buy": ...
    elif action == "sell": ...] are [buy] and [sell] above. *)
Definition _execute_trade (decision : Decision) (current_price : Q)
    (trade_date : DateTime) (market_data : KlinePoint.t) : M unit :=
  let action := d_action decision in
  let quantity := d_quantity decision in
  let price := current_price in
  if Decimal.leb quantity 0 then ret tt
  else
    match action with
    | Buy => buy decision price trade_date market_data quantity
    | Sell => sell decision price trade_date market_data quantity
    end.

(** [str.lower] on the ASCII letters. *)
Definition lower_ascii (c : ascii) : ascii :=
  let n := nat_of_ascii c in
  if (65 <=? n)%nat && (n <=? 90)%nat then ascii_of_nat (n + 32) else c.

Fixpoint lower (s : string) : string :=
  match s with
  | EmptyString => EmptyString
  | String c s' => String (lower_ascii c) (lower s')
  end.

(** [l[-n:]] for [n > 0] *)
Definition last_n {A : Type} (n : nat) (l : list A) : list A :=
  skipn (List.length l - n) l.

(** [l[i:j]] for [0 <= i] *)
Definition slice {A : Type} (i j : nat) (l : list A) : list A :=
  firstn (j - i) (skipn i l).

Definition get_or {A : Type} (o : option A) (default : A) : A :=
  match o with
  | Some a => a
  | None => default
  end.

(** [_make_trading_decision]: [None] is a hold. *)
Definition _make_trading_decision (env : Env) (idx : nat)
    (current_kline : KlinePoint.t) (price_history : list KlinePoint.t)
    : M (option (Decision_of Json)) :=
  sim <- get_simulation ;;
  match llm_chat env idx sim current_kline (last_n 10 price_history) with
  | ChatRaises => ret None
  | ChatJson tokens cost parsed =>
      (* Update simulation metrics *)
      update (fun x => set_total_tokens_used (total_tokens_used x + tokens)%Z x) ;;
      update (fun x => set_total_llm_cost (Decimal.add (total_llm_cost x) cost) x) ;;
      match parsed with
      | None => ret None
      | Some decision =>
          (* Validate decision *)
          let action := lower (get_or (j_action decision) "hold"%string) in
          let action :=
            if String.eqb action "buy"%string || String.eqb action "sell"%string
               || String.eqb action "hold"%string
            then action else "hold"%string in
          if String.eqb action "hold"%string then ret None
          else
            ret (Some
              (mkDecision
                 (if String.eqb action "buy"%string then Buy else Sell)
                 (get_or (j_quantity_shares decision) 0)
                 (get_or (j_confidence decision) (1 # 2))
                 (get_or (j_reasoning decision)
                    (JString "No reasoning provided"))
                 tokens cost))
      end
  end.

(** [select(Trade).where(Trade.simulation_id == simulation.id)
    .order_by(Trade.trade_date)]; rows of equal date are taken in the
    order of insertion.  The session gives back the objects it holds:
    a trade added in this session has the values it was made with, a
    trade of an earlier session those of its row.  (The query flushes
    the session first; nothing is read back before the flush that ends
    the attempt writes the same again.) *)
Fixpoint insert_by_date (t : Trade.t) (l : list Trade.t) : list Trade.t :=
  match l with
  | [] => [t]
  | u :: l' =>
      if DateTime_leb (Trade.trade_date u) (Trade.trade_date t)
      then u :: insert_by_date t l'
      else t :: l
  end.

Definition order_by_trade_date (l : list Trade.t) : list Trade.t :=
  fold_left (fun acc t => insert_by_date t acc) l [].

Definition select_trades : M (list Trade.t) :=
  fun s =>
    Return
      (order_by_trade_date
         (filter (fun t => (Trade.simulation_id t =? id (simulation s))%Z)
            (trades s)))
      s.

(** The drawdown loop over [portfolio_values]. *)
Fixpoint drawdown (values : list Q) (peak max_dd : Q) : M Q :=
  match values with
  | [] => ret max_dd
  | value :: rest =>
      let peak := if Decimal.gtb value peak then value else peak in
      dd <- (if Decimal.gtb peak 0
             then divide (Decimal.sub peak value) peak
             else ret 0) ;;
      let max_dd := if Decimal.gtb dd max_dd then dd else max_dd in
      drawdown rest peak max_dd
  end.

(** [sum(t.realized_pnl or Decimal("0") for t in trades)] *)
Definition sum_realized (l : list Trade.t) : Q :=
  fold_left
    (fun acc t => Decimal.add acc (or_price (Trade.realized_pnl t) 0))
    l 0.

(** [_calculate_metrics]; the Sharpe ratio, computed on floats, is not
    modelled. *)
Definition _calculate_metrics : M unit :=
  trades <- select_trades ;;
  match trades with
  | [] => ret tt
  | first :: _ =>
      sim <- get_simulation ;;
      (* Calculate total P&L (realized + unrealized) *)
      let realized_pnl := sum_realized trades in
      let unrealized_pnl :=
        if Decimal.gtb (current_shares sim) 0 then
          let last_price := Trade.price (last trades first) in
          Decimal.sub
            (Decimal.mul (current_shares sim) last_price)
            (Decimal.mul (current_shares sim)
               (or_price (average_cost sim) last_price))
        else 0 in
      update (set_total_profit_loss (Decimal.add realized_pnl unrealized_pnl)) ;;
      (* Calculate max drawdown and portfolio value trajectory *)
      let portfolio_values :=
        map (fun t =>
               Decimal.add (Trade.cash_after t)
                 (Decimal.mul (Trade.shares_after t) (Trade.price t)))
            trades in
      max_dd <- drawdown portfolio_values (hd 0 portfolio_values) 0 ;;
      update (set_max_drawdown (Some max_dd))
  end.

Definition _generate_summary (x : Simulation) : Summary :=
  let final_value :=
    Decimal.add (current_balance x)
      (Decimal.mul (current_shares x) (or_price (average_cost x) 0)) in
  SummaryReport (total_trades x) (winning_trades x) (losing_trades x)
    final_value (total_profit_loss x).

(** [await db.refresh(simulation)]: every column of the object is
    read again from the row, whose [status] is what the lifecycle
    endpoints have made it in other sessions.  What the object held
    and was not flushed is lost. *)
Definition db_refresh (env : Env) (n : nat) : M unit :=
  fun s =>
    let row := set_status (db_status env n) (stored s) in
    Return tt (mkSession row (trades s) row false).

(** The body of [for idx, kline in enumerate(sim_klines)], from
    position [idx] on; a [break] ends the loop. *)
Fixpoint trading_loop (env : Env) (sim_klines : list KlinePoint.t)
    (idx : nat) (rest : list KlinePoint.t) : M unit :=
  match rest with
  | [] => ret tt
  | kline :: rest' =>
      (* Check if simulation was stopped or paused *)
      db_refresh env idx ;;
      sim <- get_simulation ;;
      if Status_eqb (status sim) Stopped then _add_log warning MsgStopped
      else if Status_eqb (status sim) Paused then _add_log warning MsgPaused
      else
        (* Provide market context (recent price history) *)
        let lookback := slice (idx - 20) (idx + 1) sim_klines in
        _add_log info
          (MsgDay (idx + 1) (List.length sim_klines) (KlinePoint.datetime kline)) ;;
        _add_log info
          (MsgPrices (KlinePoint.close kline) (KlinePoint.open kline)
             (KlinePoint.high kline) (KlinePoint.low kline)) ;;
        (* Calculate current portfolio value *)
        let position_value :=
          Decimal.mul (current_shares sim) (KlinePoint.close kline) in
        let total_value := Decimal.add (current_balance sim) position_value in
        _add_log info
          (MsgPortfolio (current_shares sim) position_value
             (current_balance sim) total_value) ;;
        _add_log info MsgAnalyzing ;;
        decision <- _make_trading_decision env idx kline lookback ;;
        (match decision with
         | Some d =>
             _add_log info
               (MsgDecision (d_action d) (d_quantity d) (d_confidence d)) ;;
             match d_reasoning d with
             | JString reasoning =>
                 _add_log info (MsgReasoning reasoning) ;;
                 match KlinePoint.datetime kline with
                 | None => raise InvalidIsoformat
                 | Some trade_date =>
                     _execute_trade
                       (mkDecision (d_action d) (d_quantity d)
                          (d_confidence d) reasoning (d_tokens_used d)
                          (d_llm_cost d))
                       (KlinePoint.close kline) trade_date kline
                 end
             | _ => raise NotSubscriptable
             end
         | None => _add_log info MsgHold
         end) ;;
        _add_log info MsgDash ;;
        trading_loop env sim_klines (idx + 1) rest'
  end.

(** [sim_start <= k_dt <= sim_end]; a point whose date does not parse
    is skipped. *)
Definition in_period (x : Simulation) (k : KlinePoint.t) : bool :=
  match KlinePoint.datetime k with
  | Some k_dt => DateTime_leb (start_date x) k_dt && DateTime_leb k_dt (end_date x)
  | None => false
  end.

(** The days the loop runs over, and whether they are the fallback. *)
Definition select_klines (x : Simulation) (klines : list KlinePoint.t)
    : list KlinePoint.t * bool :=
  let sim_klines := filter (in_period x) klines in
  if (List.length sim_klines <? 10)%nat then
    (* If no data in Feb-Apr 2026 (future), use last 60 days for simulation *)
    (if (60 <=? List.length klines)%nat then last_n 60 klines else klines, true)
  else (sim_klines, false).

(** The [try] block of [run_simulation], in its three parts: up to the
    choice of the trading days, the loop, and what follows the loop. *)
Definition fetch_and_select (env : Env) : M (list KlinePoint.t) :=
  update (set_status Running) ;;
  sim <- get_simulation ;;
  _add_log info (MsgStart (agent_name sim)) ;;
  _add_log info (MsgSymbol (symbol sim) (market sim)) ;;
  _add_log info (MsgInitialBalance (initial_balance sim) (currency sim)) ;;
  db_flush ;;
  (* Fetch historical data for the simulation period *)
  _add_log info MsgFetching ;;
  klines <- (match get_kline env with
             | KlineError => raise MarketDataError
             | Klines l => ret l
             end) ;;
  if (List.length klines <? 20)%nat then
    _add_log error MsgInsufficient ;;
    raise InsufficientData
  else
    _add_log info (MsgFetched (List.length klines)) ;;
    (* Filter klines within simulation period *)
    let '(sim_klines, fallback) := select_klines sim klines in
    (if fallback then _add_log info (MsgFallback (List.length sim_klines))
     else ret tt) ;;
    _add_log info (MsgBacktest (List.length sim_klines)) ;;
    _add_log info MsgRule ;;
    ret sim_klines.

Definition finish : M unit :=
  (* Calculate final metrics *)
  _add_log info MsgMetrics ;;
  _calculate_metrics ;;
  _add_log success MsgDone ;;
  sim <- get_simulation ;;
  _add_log info (MsgTotalTrades (total_trades sim)) ;;
  _add_log info (MsgTotalPnl (total_profit_loss sim)) ;;
  roi <- (if Decimal.gtb (initial_balance sim) 0 then
            r <- divide (total_profit_loss sim) (initial_balance sim) ;;
            ret (Decimal.mul r 100)
          else ret 0) ;;
  _add_log info (MsgRoi roi) ;;
  update (set_status Completed) ;;
  update (fun x => set_summary (Some (_generate_summary x)) x).

Definition run_simulation_try (env : Env) : M unit :=
  sim_klines <- fetch_and_select env ;;
  (* Run trading logic for each day *)
  trading_loop env sim_klines 0 sim_klines ;;
  finish.

(** The [except Exception] handler. *)
Definition handler (e : Exn) : M unit :=
  _add_log error (MsgFailure e) ;;
  update (set_status Failed) ;;
  update (set_error_message (Some e)).

(** [run_simulation]: the handler turns whatever the block raises into
    the [failed] status, and a flush ends the attempt.  The object is
    the one the task has just selected: at the start the store holds
    what the object holds. *)
Definition run_simulation (env : Env) (s : Session) : Session :=
  let loaded := mkSession (simulation s) (trades s) (simulation s) false in
  final
    (db_flush
       match run_simulation_try env loaded with
       | Return _ s' => s'
       | Raised e s' => final (handler e s')
       end).


(** ** Lifecycle endpoints ([app/api/v1/trading.py]) and the Celery task
    ([app/workers/trading_tasks.py]) *)

(** The committed rows of the two tables and the task queue. *)
Record World : Type := mkWorld {
  simulations : list Simulation;
  trades_table : list Trade.t;
  queue : list Z
}.

Inductive Response : Type :=
| OK (x : Simulation)                (* 200 *)
| BadRequest (current : Status)      (* 400: "Cannot ... simulation with status" *)
| NotFound.                          (* 404 *)

(** [select(TradingSimulation).where(id == sim_uuid, user_id == user.id)]
    and [scalar_one_or_none()] *)
Definition find_simulation (sim_uuid user : Z) (w : World) : option Simulation :=
  find (fun x => (id x =? sim_uuid)%Z && (user_id x =? user)%Z) (simulations w).

(** [db.commit()] of the changed row. *)
Definition commit (x : Simulation) (w : World) : World :=
  mkWorld
    (map (fun y => if (id y =? id x)%Z then x else y) (simulations w))
    (trades_table w) (queue w).

(** [run_trading_simulation.delay(str(simulation.id))] *)
Definition delay (simulation_id : Z) (w : World) : World :=
  mkWorld (simulations w) (trades_table w) (queue w ++ [simulation_id]).

Definition start_simulation (simulation_id user : Z) (w : World)
    : Response * World :=
  match find_simulation simulation_id user w with
  | None => (NotFound, w)
  | Some simulation =>
      (* Only start pending simulations *)
      if negb (Status_eqb (status simulation) Pending)
      then (BadRequest (status simulation), w)
      else
        (* Trigger Celery task to run simulation *)
        (OK simulation, delay (id simulation) w)
  end.

Definition pause_simulation (simulation_id user : Z) (w : World)
    : Response * World :=
  match find_simulation simulation_id user w with
  | None => (NotFound, w)
  | Some simulation =>
      (* Only pause running simulations *)
      if negb (Status_eqb (status simulation) Running)
      then (BadRequest (status simulation), w)
      else
        let simulation := set_status Paused simulation in
        (OK simulation, commit simulation w)
  end.

Definition resume_simulation (simulation_id user : Z) (w : World)
    : Response * World :=
  match find_simulation simulation_id user w with
  | None => (NotFound, w)
  | Some simulation =>
      (* Only resume paused simulations *)
      if negb (Status_eqb (status simulation) Paused)
      then (BadRequest (status simulation), w)
      else
        (* Change status back to pending and trigger Celery task *)
        let simulation := set_status Pending simulation in
        (OK simulation, delay (id simulation) (commit simulation w))
  end.

Definition stop_simulation (simulation_id user : Z) (w : World)
    : Response * World :=
  match find_simulation simulation_id user w with
  | None => (NotFound, w)
  | Some simulation =>
      (* Can stop pending, running, or paused simulations *)
      if negb (Status_eqb (status simulation) Pending
               || Status_eqb (status simulation) Running
               || Status_eqb (status simulation) Paused)
      then (BadRequest (status simulation), w)
      else
        let simulation := set_status Stopped simulation in
        let simulation := set_summary (Some SummaryManualStop) simulation in
        (OK simulation, commit simulation w)
  end.

Inductive Command : Type := start | pause | resume | stop.

Definition handle (c : Command) (simulation_id user : Z) (w : World)
    : Response * World :=
  match c with
  | start => start_simulation simulation_id user w
  | pause => pause_simulation simulation_id user w
  | resume => resume_simulation simulation_id user w
  | stop => stop_simulation simulation_id user w
  end.

(** A trade as its row holds it. *)
Definition store_trade (t : Trade.t) : Trade.t :=
  Trade.mk (Trade.simulation_id t) (Trade.trade_date t) (Trade.action t)
    (Trade.symbol t)
    (Numeric.quantize 6 (Trade.quantity t))
    (Numeric.quantize 2 (Trade.price t))
    (Numeric.quantize 2 (Trade.total_amount t))
    (Numeric.quantize 2 (Trade.commission t))
    (Numeric.quantize 6 (Trade.shares_before t))
    (Numeric.quantize 6 (Trade.shares_after t))
    (Numeric.quantize 2 (Trade.cash_before t))
    (Numeric.quantize 2 (Trade.cash_after t))
    (option_map (Numeric.quantize 2) (Trade.realized_pnl t))
    (Trade.llm_reasoning t)
    (Numeric.quantize 2 (Trade.confidence_score t))
    (Trade.market_data t) (Trade.tokens_used t)
    (Numeric.quantize 4 (Trade.llm_cost t)).

(** The table once the session is committed: the rows it had, then
    the rows of the trades the session added. *)
Definition stored_trades (table session : list Trade.t) : list Trade.t :=
  table ++ map store_trade (skipn (List.length table) session).

(** The task [run_trading_simulation], taking the first id of the
    queue: it runs the engine only on a [pending] row and commits what
    the engine has flushed. *)
Definition run_trading_simulation (env : Env) (w : World) : World :=
  match queue w with
  | [] => w
  | simulation_id :: rest =>
      let w := mkWorld (simulations w) (trades_table w) rest in
      match find (fun x => (id x =? simulation_id)%Z) (simulations w) with
      | None => w
      | Some row =>
          if negb (Status_eqb (status row) Pending) then w
          else
            let s :=
              run_simulation env (mkSession row (trades_table w) row false) in
            commit (stored s)
              (mkWorld (simulations w)
                 (stored_trades (trades_table w) (trades s)) (queue w))
      end
  end.

(** ** Reasoning on computations *)

(** [hoare P m Q E]: from a session satisfying [P], [m] returns [a] in a
    session satisfying [Q a] or raises [e] in a session satisfying
    [E e]. *)
Definition hoare {A : Type} (P : Session -> Prop) (m : M A)
    (Q : A -> Session -> Prop) (E : Exn -> Session -> Prop) : Prop :=
  forall s, P s ->
    match m s with
    | Return a s' => Q a s'
    | Raised e s' => E e s'
    end.

(** [I] holds after [m] whenever it holds before, however [m] ends. *)
Definition preserves {A : Type} (I : Session -> Prop) (m : M A) : Prop :=
  hoare I m (fun _ => I) (fun _ => I).

(** ** The execution log *)

Definition logs (x : Simulation) : list LogEntry :=
  match execution_logs x with
  | None => []
  | Some l => l
  end.

Definition logged (e : LogEntry) (s : Session) : Prop :=
  In e (logs (simulation s)).

(** ** The lifecycle as the commands allow it *)


(** ** Example data *)

(** A February 2026 day on which the instrument trades at one price. *)
Definition day (d : Z) (price : Q) : KlinePoint.t :=
  KlinePoint.mk (Some (mkDateTime 2026 2 d 0 0 0)) price price price price None.

Definition answer (action : string) (quantity : Q) : LLMReply :=
  ChatJson 0 0 (Some (mkJson (Some action) (Some quantity) None None)).

(** A simulation as created, in the session that has just loaded it. *)
Definition fresh : Session :=
  let x := create_simulation 1 1 "AAPL" "us" "deepseek" None in
  mkSession x [] x false.

(** The example of the specification: four days, a purchase of 100 on
    the first and a sale of 50 on the third. *)
Definition example_klines : list KlinePoint.t :=
  [day 2 100; day 3 105; day 4 95; day 5 110].

Definition example_oracle (n : nat) (_ : Simulation) (_ : KlinePoint.t)
    (_ : list KlinePoint.t) : LLMReply :=
  match n with
  | 0%nat => answer "buy" 100
  | 2%nat => answer "sell" 50
  | _ => answer "hold" 0
  end.

Definition example_env : Env :=
  mkEnv (Klines example_klines) (fun _ => Running) example_oracle.

Definition example_run : Session :=
  final ((trading_loop example_env example_klines 0 example_klines ;;
          _calculate_metrics) fresh).


(** The example inside a whole attempt: sixteen idle days of January
    come before its four days, to make the twenty an attempt asks for. *)
Definition padded_klines : list KlinePoint.t :=
  map (fun d => KlinePoint.mk (Some (mkDateTime 2026 1 d 0 0 0)) 100 100 100 100 None)
    [5; 6; 7; 8; 9; 12; 13; 14; 15; 16; 19; 20; 21; 22; 23; 26]%Z
  ++ example_klines.

Definition padded_oracle (n : nat) (x : Simulation) (k : KlinePoint.t)
    (h : list KlinePoint.t) : LLMReply :=
  if (n <? 16)%nat then answer "hold" 0 else example_oracle (n - 16) x k h.

Definition padded_env : Env :=
  mkEnv (Klines padded_klines) (fun _ => Running) padded_oracle.

(** Twenty days at a flat price, the least an attempt accepts. *)
Definition flat_klines : list KlinePoint.t :=
  map (fun d => day d 100) [1; 2; 3; 4; 5; 6; 7; 8; 9; 10; 11; 12; 13; 14; 15; 16;
                            17; 18; 19; 20]%Z.

Definition eager_oracle (_ : nat) (_ : Simulation) (_ : KlinePoint.t)
    (_ : list KlinePoint.t) : LLMReply :=
  answer "buy" 10.

(** The user stops the simulation as the task begins. *)
Definition stopped_env : Env :=
  mkEnv (Klines flat_klines) (fun _ => Stopped) eager_oracle.

(** The user pauses it after two days. *)
Definition paused_env : Env :=
  mkEnv (Klines flat_klines)
    (fun n => if (n <? 2)%nat then Running else Paused) eager_oracle.

Definition silent_env : Env :=
  mkEnv (Klines flat_klines) (fun _ => Running) (fun _ _ _ _ => ChatRaises).

(** A free share sold on: a first day at price 0, then a day at 10. *)
Definition free_share : Session :=
  final (_execute_trade (mkDecision Buy 10 (1 # 2) EmptyString 0 0) 0
           (mkDateTime 2026 2 2 0 0 0) (day 2 0) fresh).

Definition sale_of_free_share : Session :=
  final (_execute_trade (mkDecision Sell 10 (1 # 2) EmptyString 0 0) 10
           (mkDateTime 2026 2 3 0 0 0) (day 3 10) free_share).

(** Ten more shares bought at 10 while the free ones are held. *)
Definition second_purchase : Session :=
  final (_execute_trade (mkDecision Buy 10 (1 # 2) EmptyString 0 0) 10
           (mkDateTime 2026 2 3 0 0 0) (day 3 10) free_share).

(** One pending simulation and an empty queue. *)
Definition one_pending : World :=
  mkWorld [simulation fresh] [] [].

(** Twenty days of November 2025, before the simulated period. *)
Definition past_klines : list KlinePoint.t :=
  map (fun d => KlinePoint.mk (Some (mkDateTime 2025 11 d 0 0 0)) 100 100 100 100 None)
    [1; 2; 3; 4; 5; 6; 7; 8; 9; 10; 11; 12; 13; 14; 15; 16; 17; 18; 19; 20]%Z.

Definition past_env : Env :=
  mkEnv (Klines past_klines) (fun _ => Running) eager_oracle.

(** The three entries [run_simulation] flushes at its start. *)
Definition start_entries (x : Simulation) : list LogEntry :=
  [mkLog info (MsgStart (agent_name x));
   mkLog info (MsgSymbol (symbol x) (market x));
   mkLog info (MsgInitialBalance (initial_balance x) (currency x))].

(** Twenty days at 105, a price whose commission has half a cent, and
    an oracle that buys one share on the first. *)
Definition odd_cent_klines : list KlinePoint.t :=
  map (fun d => day d 105) [1; 2; 3; 4; 5; 6; 7; 8; 9; 10; 11; 12; 13; 14; 15; 16;
                            17; 18; 19; 20]%Z.

Definition one_share_oracle (n : nat) (_ : Simulation) (_ : KlinePoint.t)
    (_ : list KlinePoint.t) : LLMReply :=
  match n with
  | 0%nat => answer "buy" 1
  | _ => answer "hold" 0
  end.

Definition odd_cent_env : Env :=
  mkEnv (Klines odd_cent_klines) (fun _ => Running) one_share_oracle.

(** The store after the task has run the pending simulation on it. *)
Definition odd_cent_world : World :=
  run_trading_simulation odd_cent_env
    (mkWorld (simulations one_pending) (trades_table one_pending) [1%Z]).

(** An oracle whose answer is a purchase with [null] for its reasoning:
    [{"action": "buy", "quantity_shares": 10, "confidence": 0.5,
    "reasoning": null}]. *)
Definition null_reasoning_oracle (_ : nat) (_ : Simulation) (_ : KlinePoint.t)
    (_ : list KlinePoint.t) : LLMReply :=
  ChatJson 0 0 (Some (mkJson (Some "buy"%string) (Some 10) (Some (1 # 2))
                        (Some JNull))).

Definition null_reasoning_env : Env :=
  mkEnv (Klines flat_klines) (fun _ => Running) null_reasoning_oracle.

(** The start command as the specification has it: a successful start
    leaves the row [running]. *)
Definition start_as_specified (simulation_id user : Z) (w : World) : Prop :=
  forall x w',
    start_simulation simulation_id user w = (OK x, w') ->
    exists y,
      find_simulation simulation_id user w' = Some y /\ status y = Running.

(** ** What an attempt keeps *)

(** A number the context holds as it is, and not negative. *)
Definition held (v : Q) : Prop := 0 <= v /\ Decimal.rnd v == v.

(** The columns a simulation is given when it is created. *)
Definition identity (x : Simulation) :=
  (id x, user_id x, symbol x, market x, agent_name x, llm_model x,
   initial_balance x, currency x, start_date x, end_date x, config x).

(** The object and the row have the identity of [c]. *)
Definition same_identity (c : Simulation) (s : Session) : Prop :=
  identity (simulation s) = identity c /\ identity (stored s) = identity c.

(** The log of the row is [l], no assignment of the log awaits a flush,
    and the object has a log. *)
Definition log_settled (l : list LogEntry) (s : Session) : Prop :=
  execution_logs (stored s) = Some l /\
  logs_assigned s = false /\
  execution_logs (simulation s) <> None.

(** The sign of a trade's realized result, as the counters see it. *)
Definition won (t : Trade.t) : bool :=
  match Trade.realized_pnl t with
  | Some p => Decimal.gtb p 0
  | None => false
  end.

Definition lost (t : Trade.t) : bool :=
  match Trade.realized_pnl t with
  | Some p => Decimal.ltb p 0
  | None => false
  end.

(** What an executed trade [t] and the simulation [x'] it leaves have
    from the decision, the day and the simulation [x] before. *)
Record booked (d : Decision) (price : Q) (date : DateTime)
    (md : KlinePoint.t) (x : Simulation) (t : Trade.t) (x' : Simulation)
    : Prop := mkBooked {
  booked_id : Trade.simulation_id t = id x;
  booked_symbol : Trade.symbol t = symbol x;
  booked_date : Trade.trade_date t = date;
  booked_price : Trade.price t = price;
  booked_market_data : Trade.market_data t = market_data_dict price md;
  booked_action : Trade.action t = d_action d;
  booked_quantity : 0 < Trade.quantity t;
  booked_reasoning : Trade.llm_reasoning t = d_reasoning d;
  booked_confidence : Trade.confidence_score t = d_confidence d;
  booked_tokens : Trade.tokens_used t = d_tokens_used d;
  booked_llm_cost : Trade.llm_cost t = d_llm_cost d;
  booked_shares_before : Trade.shares_before t = current_shares x;
  booked_cash_before : Trade.cash_before t = current_balance x;
  booked_shares_after : current_shares x' = Trade.shares_after t;
  booked_cash_after : current_balance x' = Trade.cash_after t;
  booked_identity : identity x' = identity x;
  booked_status : status x' = status x;
  booked_total : total_trades x' = (total_trades x + 1)%Z;
  booked_winning :
    winning_trades x' = (winning_trades x + if won t then 1 else 0)%Z;
  booked_losing :
    losing_trades x' = (losing_trades x + if lost t then 1 else 0)%Z;
  booked_profit : total_profit_loss x' = total_profit_loss x;
  booked_drawdown : max_drawdown x' = max_drawdown x;
  booked_usage :
    total_tokens_used x' = total_tokens_used x /\
    total_llm_cost x' = total_llm_cost x;
  booked_outcome :
    summary x' = summary x /\ error_message x' = error_message x;
  booked_logs : exists entries, logs x' = logs x ++ entries;
  booked_logged : execution_logs x' <> None
}.

(** The updates an attempt makes outside the trade executor. *)
Inductive bookkeeping : (Simulation -> Simulation) -> Prop :=
| bookkeeping_status (v : Status) : bookkeeping (set_status v)
| bookkeeping_tokens (n : Z) :
    bookkeeping (fun x => set_total_tokens_used (total_tokens_used x + n)%Z x)
| bookkeeping_cost (c : Q) :
    bookkeeping
      (fun x => set_total_llm_cost (Decimal.add (total_llm_cost x) c) x)
| bookkeeping_profit (v : Q) : bookkeeping (set_total_profit_loss v)
| bookkeeping_drawdown (v : option Q) : bookkeeping (set_max_drawdown v)
| bookkeeping_summary :
    bookkeeping (fun x => set_summary (Some (_generate_summary x)) x)
| bookkeeping_error (e : option Exn) : bookkeeping (set_error_message e).


(** ** The other endpoints of [app/api/v1/trading.py] *)

(** The answer of an endpoint that returns no simulation: 200 with its
    body, or 404. *)
Inductive Reply (A : Type) : Type :=
| Found (a : A)
| Missing.

Arguments Found {A} a.
Arguments Missing {A}.

(** [db.delete(simulation)] and [db.commit()]: the row goes, and with it
    the trades that reference it, their foreign key being declared
    [ondelete="CASCADE"]. *)
Definition delete_simulation (simulation_id user : Z) (w : World)
    : Reply unit * World :=
  match find_simulation simulation_id user w with
  | None => (Missing, w)
  | Some simulation =>
      (Found tt,
       mkWorld
         (filter (fun y => negb (id y =? id simulation)%Z) (simulations w))
         (filter (fun t => negb (Trade.simulation_id t =? id simulation)%Z)
            (trades_table w))
         (queue w))
  end.

(** The trades of a simulation, for its owner, by [trade_date]. *)
Definition get_simulation_trades (simulation_id user : Z) (w : World)
    : Reply (list Trade.t) :=
  match find_simulation simulation_id user w with
  | None => Missing
  | Some simulation =>
      Found
        (order_by_trade_date
           (filter (fun t => (Trade.simulation_id t =? simulation_id)%Z)
              (trades_table w)))
  end.

(** The text of the [status] column. *)
Definition Status_name (st : Status) : string :=
  match st with
  | Pending => "pending"
  | Running => "running"
  | Paused => "paused"
  | Stopped => "stopped"
  | Completed => "completed"
  | Failed => "failed"
  end.

(** [if symbol:], [if status:]: a parameter that is absent or empty does
    not filter. *)
Definition filters (p : option string) (v : string) : bool :=
  match p with
  | None => true
  | Some EmptyString => true
  | Some q => String.eqb v q
  end.

(** [order_by(desc(created_at))], the column [created_at] being the one
    of the timestamp mixin: the later row first, rows of one instant in
    the order of the table. *)
Fixpoint insert_by_created (created_at : Simulation -> DateTime)
    (x : Simulation) (l : list Simulation) : list Simulation :=
  match l with
  | [] => [x]
  | y :: l' =>
      if DateTime_leb (created_at x) (created_at y)
      then y :: insert_by_created created_at x l'
      else x :: l
  end.

Definition order_by_created_desc (created_at : Simulation -> DateTime)
    (l : list Simulation) : list Simulation :=
  fold_left (fun acc x => insert_by_created created_at x acc) l [].

(** The rows [list_simulations] selects, before the page is cut. *)
Definition all_items (created_at : Simulation -> DateTime)
    (symbol_ status_ : option string) (user : Z) (w : World)
    : list Simulation :=
  order_by_created_desc created_at
    (filter
       (fun x => (user_id x =? user)%Z
                 && filters symbol_ (symbol x)
                 && filters status_ (Status_name (status x)))
       (simulations w)).

(** [list_simulations]: the total and the items of the page; [None] is
    the 422 of a [page] below 1 or a [page_size] outside 1..100. *)
Definition list_simulations (created_at : Simulation -> DateTime)
    (symbol_ status_ : option string) (page page_size : nat) (user : Z)
    (w : World) : option (nat * list Simulation) :=
  if (1 <=? page)%nat && (1 <=? page_size)%nat && (page_size <=? 100)%nat
  then
    let all_items := all_items created_at symbol_ status_ user w in
    let total := List.length all_items in
    (* Paginate *)
    let offset := ((page - 1) * page_size)%nat in
    Some (total, slice offset (offset + page_size) all_items)
  else None.

(** ** Credits ([app/core/credits.py]) *)

Module User.
Record t : Type := mk {
  id : Z;
  credits_balance : Q
}.
End User.

Module CreditTransaction.
Record t : Type := mk {
  user_id : Z;
  type : string;
  amount : Q;
  balance_after : Q;
  description : string;
  reference_type : option string;
  reference_id : option Z
}.
End CreditTransaction.

(** The [users] and [credit_transactions] tables; of a user, the key
    and the balance are kept. *)
Record Accounts : Type := mkAccounts {
  users : list User.t;
  credit_transactions : list CreditTransaction.t
}.

Definition CREDIT_COSTS : list (string * Q) :=
  [("stock_quote"%string, 0);
   ("kline_data"%string, 0);
   ("fundamental_analysis"%string, 1);
   ("ai_chat_deepseek"%string, 1 # 2);
   ("ai_chat_minimax"%string, 1 # 2);
   ("ai_chat_claude"%string, 2);
   ("ai_chat_openai"%string, 2);
   ("report_generation"%string, 5);
   ("markov_prediction"%string, 1);
   ("sentiment_analysis"%string, 2);
   ("trading_simulation"%string, 10)].

(** [d.get(k, default)] *)
Fixpoint costs_get (d : list (string * Q)) (k : string) (default : Q) : Q :=
  match d with
  | [] => default
  | (k', v) :: d' => if String.eqb k k' then v else costs_get d' k default
  end.

Definition get_credit_cost (action : string) (model : option string) : Q :=
  match model with
  | Some m =>
      if String.eqb action "ai_chat" && negb (String.eqb m EmptyString)
      then costs_get CREDIT_COSTS (String.append "ai_chat_" m) 1
      else costs_get CREDIT_COSTS action 1
  | None => costs_get CREDIT_COSTS action 1
  end.

(** [update(User).where(User.id == user_id).values(credits_balance=...)] *)
Definition set_credits_balance (user_id : Z) (new_balance : Q)
    (l : list User.t) : list User.t :=
  map (fun u => if (User.id u =? user_id)%Z
                then User.mk (User.id u) new_balance else u) l.

(** [deduct_credits]: the transaction, or [None] when the user is
    missing or the balance is short. *)
Definition deduct_credits (user_id : Z) (amount : Q) (description : string)
    (reference_type : option string) (reference_id : option Z) (a : Accounts)
    : option CreditTransaction.t * Accounts :=
  match find (fun u => (User.id u =? user_id)%Z) (users a) with
  | None => (None, a)
  | Some user =>
      if Decimal.ltb (User.credits_balance user) amount then (None, a)
      else
        let new_balance := Decimal.sub (User.credits_balance user) amount in
        let transaction :=
          CreditTransaction.mk user_id "consumption" (Decimal.rnd (- amount))
            new_balance description reference_type reference_id in
        (Some transaction,
         mkAccounts (set_credits_balance user_id new_balance (users a))
           (credit_transactions a ++ [transaction]))
  end.

(** [add_credits]; [None] is the [NoResultFound] of [scalar_one] on a
    missing user. *)
Definition add_credits (user_id : Z) (amount : Q) (description : string)
    (a : Accounts) : option (CreditTransaction.t * Accounts) :=
  match find (fun u => (User.id u =? user_id)%Z) (users a) with
  | None => None
  | Some user =>
      let new_balance := Decimal.add (User.credits_balance user) amount in
      let transaction :=
        CreditTransaction.mk user_id "recharge" amount new_balance
          description None None in
      Some (transaction,
            mkAccounts (set_credits_balance user_id new_balance (users a))
              (credit_transactions a ++ [transaction]))
  end.

(** ** The creation endpoint *)

(** The store the creation endpoint works on. *)
Record Backend : Type := mkBackend {
  world : World;
  accounts : Accounts
}.

Inductive Creation : Type :=
| Created (x : Simulation)           (* 200 *)
| PaymentRequired.                   (* 402: "Insufficient credits" *)

Module Endpoint.
(** [POST /simulations]: the credits are taken first, then the row is
    made; nothing is queued. *)
Definition create_simulation (new_id user : Z) (symbol market agent_name : string)
    (config : option Config) (b : Backend) : Creation * Backend :=
  (* Deduct credits *)
  let cost := get_credit_cost "trading_simulation" None in
  match deduct_credits user cost
          (String.append "AI Trading Simulation: " symbol)
          (Some "trading_simulation"%string) None (accounts b) with
  | (None, _) => (PaymentRequired, b)
  | (Some _, accounts') =>
      (* Create simulation (status: pending, won't auto-start) *)
      let simulation :=
        create_simulation new_id user symbol market agent_name config in
      (Created simulation,
       mkBackend
         (mkWorld (simulations (world b) ++ [simulation])
            (trades_table (world b)) (queue (world b)))
         accounts')
  end.
End Endpoint.

(** The last transaction of a user, if any, records the balance the
    user has. *)
Definition last_of (user_id : Z) (l : list CreditTransaction.t)
    : option CreditTransaction.t :=
  fold_left
    (fun acc t => if (CreditTransaction.user_id t =? user_id)%Z
                  then Some t else acc)
    l None.

Definition audited (a : Accounts) : Prop :=
  forall u t,
    In u (users a) ->
    last_of (User.id u) (credit_transactions a) = Some t ->
    CreditTransaction.balance_after t = User.credits_balance u.

(** ** Example stores *)

(** Two simulations of two users. *)
Definition two_owners : World :=
  mkWorld
    [create_simulation 1 1 "AAPL" "us" "deepseek" None;
     create_simulation 2 2 "600519" "cn" "minimax" None]
    [] [].

(** The store after a start sent twice. *)
Definition started_twice : World :=
  snd (start_simulation 1 1 (snd (start_simulation 1 1 one_pending))).

(** The flat series with an oracle that buys every day. *)
Definition eager_env_of_flat : Env :=
  mkEnv (Klines flat_klines) (fun _ => Running) eager_oracle.

(** One user with the balance of a new account. *)
Definition one_user : Accounts := mkAccounts [User.mk 1 100] [].

(** The store of the first user before any simulation. *)
Definition empty_backend : Backend :=
  mkBackend (mkWorld [] [] []) one_user.

(** All rows created at one instant. *)
Definition same_instant (_ : Simulation) : DateTime :=
  mkDateTime 2026 1 1 0 0 0.

(** The items of page [p], counted from 0, of a listing. *)
Definition page_items (created_at : Simulation -> DateTime)
    (symbol_ status_ : option string) (page_size : nat) (user : Z) (w : World)
    (p : nat) : list Simulation :=
  match list_simulations created_at symbol_ status_ (S p) page_size user w with
  | Some (_, items) => items
  | None => []
  end.

(** * Properties *)

(** ** Rounding *)

Module DecimalFacts.
Import Decimal.

Lemma round_half_even_cases (y : Q) :
  round_half_even y = Qfloor y \/ round_half_even y = (Qfloor y + 1)%Z.
Proof.
  unfold round_half_even.
  destruct (Qcompare _ _); [destruct (Z.even _)|..]; auto.
Qed.

Lemma round_half_even_err (y : Q) :
  Qabs (inject_Z (round_half_even y) - y) <= 1 # 2.
Proof.
  pose proof (Qfloor_le y) as Hlo.
  pose proof (Qlt_floor y) as Hhi.
  rewrite inject_Z_plus in Hhi. change (inject_Z 1) with 1 in Hhi.
  apply Qabs_Qle_condition.
  unfold round_half_even.
  destruct (Qcompare (y - inject_Z (Qfloor y)) (1 # 2)) eqn:Hc.
  - apply Qeq_alt in Hc.
    destruct (Z.even (Qfloor y)); rewrite ?inject_Z_plus;
      change (inject_Z 1) with 1; lra.
  - apply Qlt_alt in Hc. lra.
  - apply Qgt_alt in Hc. rewrite inject_Z_plus.
    change (inject_Z 1) with 1. lra.
Qed.

Lemma round_half_even_nonneg (y : Q) : 0 <= y -> (0 <= round_half_even y)%Z.
Proof.
  intros Hy.
  assert (0 <= Qfloor y)%Z.
  { replace 0%Z with (Qfloor 0) by reflexivity. now apply Qfloor_resp_le. }
  destruct (round_half_even_cases y) as [-> | ->]; lia.
Qed.

Lemma round_half_even_nonpos (y : Q) : y <= 0 -> (round_half_even y <= 0)%Z.
Proof.
  intros Hy.
  pose proof (Qfloor_le y) as Hlo.
  assert (Hf : (Qfloor y <= 0)%Z).
  { replace 0%Z with (Qfloor 0) by reflexivity. now apply Qfloor_resp_le. }
  unfold round_half_even.
  destruct (Qcompare (y - inject_Z (Qfloor y)) (1 # 2)) eqn:Hc.
  - apply Qeq_alt in Hc.
    destruct (Z.eq_dec (Qfloor y) 0) as [E | E].
    + rewrite E in Hc. change (inject_Z 0) with 0 in Hc. lra.
    + destruct (Z.even _); lia.
  - lia.
  - apply Qgt_alt in Hc.
    destruct (Z.eq_dec (Qfloor y) 0) as [E | E].
    + rewrite E in Hc. change (inject_Z 0) with 0 in Hc. lra.
    + lia.
Qed.

Lemma pow10_pos (e : Z) : 0 < 10 ^ e.
Proof. now apply Qpower_0_lt. Qed.

Lemma pow10_succ (e : Z) : 10 ^ (e + 1) == 10 ^ e * 10.
Proof. rewrite Qpower_plus by discriminate. reflexivity. Qed.

Lemma pow10_le (n m : Z) : (n <= m)%Z -> 10 ^ n <= 10 ^ m.
Proof. intros H. apply Qpower_le_compat_l; [exact H | discriminate]. Qed.

Lemma lower_exp_spec (fuel : nat) :
  forall (a : Q) (e lo : Z),
    10 ^ (lo + (prec - 1)) <= a ->
    a < 10 ^ (e + prec) ->
    (Z.to_nat (e - lo) < fuel)%nat ->
    10 ^ (lower_exp fuel a e + (prec - 1)) <= a < 10 ^ (lower_exp fuel a e + prec).
Proof.
  induction fuel as [| k IH]; intros a e lo Hlo Hhi Hfuel.
  - lia.
  - cbn [lower_exp]. destruct (Qle_bool (10 ^ (e + (prec - 1))) a) eqn:Hle.
    + apply Qle_bool_iff in Hle. split; assumption.
    + assert (Hlt : a < 10 ^ (e + (prec - 1))).
      { apply Qnot_le_lt. intros H. apply Qle_bool_iff in H. congruence. }
      assert (Hlo_e : (lo < e)%Z).
      { destruct (Z.ltb_spec lo e) as [L | L]; [exact L | exfalso].
        assert (10 ^ (e + (prec - 1)) <= 10 ^ (lo + (prec - 1)))
          by (apply pow10_le; lia).
        lra. }
      apply (IH a (e - 1)%Z lo); [exact Hlo | | lia].
      replace (e - 1 + prec)%Z with (e + (prec - 1))%Z by ring. exact Hlt.
Qed.

Lemma pow2_le_pow10 (k : Z) : (0 <= k)%Z -> inject_Z (2 ^ k) <= 10 ^ k.
Proof.
  intros Hk. change 10 with (inject_Z 10). rewrite <- Zpower_Qpower by exact Hk.
  rewrite <- Zle_Qle. apply Z.pow_le_mono_l. lia.
Qed.

Lemma exponent_spec (a : Q) :
  0 < a ->
  10 ^ (exponent a + (prec - 1)) <= a < 10 ^ (exponent a + prec).
Proof.
  intros Ha. destruct a as [n d]. unfold exponent. cbn [Qnum Qden].
  assert (Hn : (0 < n)%Z).
  { unfold Qlt in Ha. cbn in Ha. lia. }
  pose proof (Z.log2_nonneg n) as Ln.
  pose proof (Z.log2_nonneg (Zpos d)) as Ld.
  destruct (Z.log2_spec n Hn) as [_ Hn2].
  destruct (Z.log2_spec (Zpos d) (Pos2Z.is_pos d)) as [_ Hd2].
  apply (lower_exp_spec _ (n # d) _ (- (Z.log2 (Zpos d) + 1) - (prec - 1))%Z).
  - replace (- (Z.log2 (Z.pos d) + 1) - (prec - 1) + (prec - 1))%Z
      with (- (Z.log2 (Z.pos d) + 1))%Z by ring.
    rewrite Qpower_opp.
    assert (Hd10 : inject_Z (Zpos d) <= 10 ^ (Z.log2 (Z.pos d) + 1)).
    { eapply Qle_trans; [| apply pow2_le_pow10; lia].
      rewrite <- Zle_Qle. unfold Z.succ in Hd2. lia. }
    apply Qle_trans with (/ inject_Z (Zpos d)).
    + apply Qle_shift_inv_l; [reflexivity |].
      rewrite Qmult_comm. apply Qle_shift_div_r; [apply pow10_pos |].
      rewrite Qmult_1_l. exact Hd10.
    + unfold Qle, Qinv, inject_Z. cbn. nia.
  - replace (Z.log2 n + 1 - prec + prec)%Z with (Z.log2 n + 1)%Z by ring.
    apply Qle_lt_trans with (inject_Z n).
    + unfold Qle, inject_Z. cbn. nia.
    + eapply Qlt_le_trans; [| apply pow2_le_pow10; lia].
      rewrite <- Zlt_Qlt. unfold Z.succ in Hn2. lia.
  - unfold prec. lia.
Qed.

Lemma rnd_zero (x : Q) : x == 0 -> rnd x = 0.
Proof.
  intros Hx. unfold rnd.
  assert (H : Qeq_bool (Qred x) 0 = true).
  { apply Qeq_bool_iff. now rewrite Qred_correct. }
  now rewrite H.
Qed.

(** The shape of a rounded number: an integer of [prec] digits times a
    power of ten, within half a unit of the exact value. *)
Lemma rnd_shape (x : Q) :
  ~ x == 0 ->
  exists (e m : Z),
    rnd x == inject_Z m * 10 ^ e /\
    Qabs (inject_Z m - x * 10 ^ (- e)) <= 1 # 2 /\
    10 ^ (e + (prec - 1)) <= Qabs x /\
    (0 <= x -> (0 <= m)%Z) /\ (x <= 0 -> (m <= 0)%Z).
Proof.
  intros Hx. unfold rnd.
  pose proof (Qred_correct x) as Hr.
  assert (H : Qeq_bool (Qred x) 0 = false).
  { destruct (Qeq_bool (Qred x) 0) eqn:E; [| reflexivity].
    apply Qeq_bool_iff in E. rewrite Hr in E. contradiction. }
  rewrite H.
  set (e := exponent (Qabs (Qred x))).
  assert (Hpos : 0 < Qabs (Qred x)).
  { rewrite Hr. destruct (Qlt_le_dec 0 (Qabs x)) as [L | L]; [exact L |].
    exfalso. apply Hx. apply Qabs_Qle_condition in L. lra. }
  destruct (exponent_spec _ Hpos) as [Hlo _]. fold e in Hlo.
  exists e, (round_half_even (Qred x * 10 ^ (- e))).
  split; [apply Qred_correct |].
  assert (Hp : 0 < 10 ^ (- e)) by apply pow10_pos.
  split; [| split; [| split]].
  - rewrite <- Hr at 2. apply round_half_even_err.
  - rewrite <- Hr. exact Hlo.
  - intros Hx0. apply round_half_even_nonneg. rewrite Hr.
    apply Qmult_le_0_compat; lra.
  - intros Hx0. apply round_half_even_nonpos. rewrite Hr.
    setoid_replace (x * 10 ^ (- e)) with (- ((- x) * 10 ^ (- e))) by ring.
    assert (0 <= (- x) * 10 ^ (- e)) by (apply Qmult_le_0_compat; lra).
    lra.
Qed.

Lemma rnd_err (x : Q) : Qabs (rnd x - x) <= Qabs x * eps.
Proof.
  destruct (Qeq_dec x 0) as [Hx | Hx].
  - rewrite (rnd_zero x Hx), Hx. discriminate.
  - destruct (rnd_shape x Hx) as (e & m & Hr & Herr & Hlo & _).
    rewrite Hr.
    assert (Hp : 0 < 10 ^ e) by apply pow10_pos.
    assert (Hinv : 10 ^ (- e) * 10 ^ e == 1).
    { rewrite <- Qpower_plus by discriminate.
      replace (- e + e)%Z with 0%Z by ring. reflexivity. }
    assert (Hu : 10 ^ e * 10 ^ (prec - 1) <= Qabs x).
    { rewrite <- Qpower_plus by discriminate. exact Hlo. }
    setoid_replace (inject_Z m * 10 ^ e - x)
      with ((inject_Z m - x * 10 ^ (- e)) * 10 ^ e)
      by (setoid_replace x with (x * (10 ^ (- e) * 10 ^ e)) at 1
            by (rewrite Hinv; ring); ring).
    rewrite Qabs_Qmult, (Qabs_pos (10 ^ e)) by lra.
    apply Qle_trans with ((1 # 2) * 10 ^ e).
    + apply Qmult_le_compat_r; [exact Herr | lra].
    + change (10 ^ (prec - 1)) with (inject_Z (10 ^ 27)) in Hu.
      unfold eps.
      let v := eval vm_compute in (inject_Z (10 ^ 27)) in
        change (inject_Z (10 ^ 27)) with v in Hu.
      let v := eval vm_compute in (2 * 10 ^ 27)%positive in
        change (2 * 10 ^ 27)%positive with v.
      lra.
Qed.

Lemma rnd_nonneg (x : Q) : 0 <= x -> 0 <= rnd x.
Proof.
  intros H. destruct (Qeq_dec x 0) as [Hx | Hx].
  - rewrite (rnd_zero x Hx). discriminate.
  - destruct (rnd_shape x Hx) as (e & m & Hr & _ & _ & Hm & _).
    rewrite Hr. apply Qmult_le_0_compat.
    + change 0 with (inject_Z 0). rewrite <- Zle_Qle. auto.
    + apply Qlt_le_weak, pow10_pos.
Qed.

Lemma rnd_nonpos (x : Q) : x <= 0 -> rnd x <= 0.
Proof.
  intros H. destruct (Qeq_dec x 0) as [Hx | Hx].
  - rewrite (rnd_zero x Hx). discriminate.
  - destruct (rnd_shape x Hx) as (e & m & Hr & _ & _ & _ & Hm).
    rewrite Hr.
    assert (0 <= inject_Z (- m) * 10 ^ e).
    { apply Qmult_le_0_compat.
      + change 0 with (inject_Z 0). rewrite <- Zle_Qle. specialize (Hm H). lia.
      + apply Qlt_le_weak, pow10_pos. }
    rewrite inject_Z_opp in H0. lra.
Qed.

Lemma eps_small : 0 < eps /\ eps <= 1 # 1000.
Proof. split; reflexivity || discriminate. Qed.

Lemma rnd_upper (x : Q) : 0 <= x -> rnd x <= x * (1 + eps).
Proof.
  intros H. pose proof (rnd_err x) as E.
  rewrite (Qabs_pos x H) in E. apply Qabs_Qle_condition in E. lra.
Qed.

Lemma rnd_lower (x : Q) : 0 <= x -> x * (1 - eps) <= rnd x.
Proof.
  intros H. pose proof (rnd_err x) as E.
  rewrite (Qabs_pos x H) in E. apply Qabs_Qle_condition in E. lra.
Qed.

Lemma rnd_pos (x : Q) : 0 < x -> 0 < rnd x.
Proof.
  intros H. pose proof (rnd_lower x (Qlt_le_weak _ _ H)) as L.
  destruct eps_small as [_ E].
  assert (0 < x * (1 - eps)) by (apply Qmult_lt_0_compat; lra).
  lra.
Qed.

Lemma rnd_neg (x : Q) : x < 0 -> rnd x < 0.
Proof.
  intros H. pose proof (rnd_err x) as E.
  rewrite (Qabs_neg x) in E by lra. apply Qabs_Qle_condition in E.
  destruct eps_small as [_ E'].
  assert (0 < (- x) * (1 - eps)) by (apply Qmult_lt_0_compat; lra).
  lra.
Qed.

Lemma gtb_true (a b : Q) : gtb a b = true <-> b < a.
Proof.
  unfold gtb. rewrite negb_true_iff. split; intros H.
  - apply Qnot_le_lt. intros L. apply Qle_bool_iff in L. congruence.
  - destruct (Qle_bool a b) eqn:E; [| reflexivity].
    apply Qle_bool_iff in E. lra.
Qed.

Lemma gtb_false (a b : Q) : gtb a b = false <-> a <= b.
Proof.
  unfold gtb. rewrite negb_false_iff. apply Qle_bool_iff.
Qed.

Lemma ltb_true (a b : Q) : ltb a b = true <-> a < b.
Proof. apply (gtb_true b a). Qed.

Lemma ltb_false (a b : Q) : ltb a b = false <-> b <= a.
Proof. apply (gtb_false b a). Qed.

Lemma leb_true (a b : Q) : leb a b = true <-> a <= b.
Proof. apply Qle_bool_iff. Qed.

Lemma leb_false (a b : Q) : leb a b = false <-> b < a.
Proof.
  unfold leb. split; intros H.
  - apply Qnot_le_lt. intros L. apply Qle_bool_iff in L. congruence.
  - destruct (Qle_bool a b) eqn:E; [| reflexivity].
    apply Qle_bool_iff in E. lra.
Qed.

Lemma rnd_upper_coarse (x : Q) : 0 <= x -> rnd x <= x * (1001 # 1000).
Proof.
  intros H. pose proof (rnd_upper x H). destruct eps_small as [_ E].
  assert (0 <= x * ((1 # 1000) - eps)) by (apply Qmult_le_0_compat; lra).
  lra.
Qed.

Lemma rnd_lower_coarse (x : Q) : 0 <= x -> x * (999 # 1000) <= rnd x.
Proof.
  intros H. pose proof (rnd_lower x H). destruct eps_small as [_ E].
  assert (0 <= x * ((1 # 1000) - eps)) by (apply Qmult_le_0_compat; lra).
  lra.
Qed.

(** The clamped quantity is affordable: what it costs, commission
    included, stays within 99.6% of the cash it was computed from. *)
Lemma clamp_affordable (cash price : Q) :
  0 < cash -> 0 < price ->
  let quantity := rnd (mul cash (99 # 100) / mul price (1001 # 1000)) in
  let cost := mul quantity price in
  add cost (mul cost (1 # 1000)) <= cash.
Proof.
  intros Hc Hp. unfold mul, add.
  set (a := rnd (cash * (99 # 100))).
  set (b := rnd (price * (1001 # 1000))).
  assert (Ha0 : 0 <= a) by (apply rnd_nonneg; lra).
  assert (Ha : a <= cash * (99 # 100) * (1001 # 1000))
    by (apply rnd_upper_coarse; lra).
  assert (Hb : price * (1001 # 1000) * (999 # 1000) <= b)
    by (apply rnd_lower_coarse; lra).
  assert (Hb0 : 0 < b) by lra.
  set (r := a / b).
  assert (Hrb : r * b == a) by (unfold r; field; lra).
  assert (Hr0 : 0 <= r).
  { unfold r. apply Qle_shift_div_l; [exact Hb0 | lra]. }
  assert (Hrp : r * price * ((1001 # 1000) * (999 # 1000)) <= a).
  { assert (0 <= r * (b - price * (1001 # 1000) * (999 # 1000)))
      by (apply Qmult_le_0_compat; lra).
    lra. }
  set (q := rnd r).
  assert (Hq0 : 0 <= q) by (apply rnd_nonneg; exact Hr0).
  assert (Hq : q <= r * (1001 # 1000)) by (apply rnd_upper_coarse; exact Hr0).
  assert (Hqp : q * price <= r * price * (1001 # 1000)).
  { assert (0 <= (r * (1001 # 1000) - q) * price)
      by (apply Qmult_le_0_compat; lra).
    lra. }
  assert (Hqp0 : 0 <= q * price) by (apply Qmult_le_0_compat; lra).
  set (cost := rnd (q * price)).
  assert (Hc0 : 0 <= cost) by (apply rnd_nonneg; exact Hqp0).
  assert (Hcost : cost <= q * price * (1001 # 1000))
    by (apply rnd_upper_coarse; exact Hqp0).
  set (comm := rnd (cost * (1 # 1000))).
  assert (Hm0 : 0 <= comm) by (apply rnd_nonneg; lra).
  assert (Hm : comm <= cost * (1 # 1000) * (1001 # 1000))
    by (apply rnd_upper_coarse; lra).
  assert (Ht : rnd (cost + comm) <= (cost + comm) * (1001 # 1000))
    by (apply rnd_upper_coarse; lra).
  lra.
Qed.
Lemma round_half_even_Z (k : Z) : round_half_even (inject_Z k) = k.
Proof.
  unfold round_half_even. rewrite Qfloor_Z.
  assert (H : Qcompare (inject_Z k - inject_Z k) (1 # 2) = Lt).
  { apply Qlt_alt. setoid_replace (inject_Z k - inject_Z k) with 0 by ring.
    reflexivity. }
  rewrite H. reflexivity.
Qed.

(** A number of at most [prec] digits is its own rounding: the context
    changes no result it can represent. *)
Lemma rnd_exact (m e : Z) :
  (Z.abs m < 10 ^ prec)%Z -> rnd (inject_Z m * 10 ^ e) == inject_Z m * 10 ^ e.
Proof.
  intros Hm. set (x := inject_Z m * 10 ^ e).
  assert (Hpe : 0 < 10 ^ e) by apply pow10_pos.
  destruct (Z.eq_dec m 0) as [-> | Hm0].
  { rewrite rnd_zero; subst x; ring. }
  assert (Hx : ~ x == 0).
  { subst x. intros H. apply Qmult_integral in H. destruct H as [H | H]; [| lra].
    apply Hm0. unfold Qeq in H. cbn in H. lia. }
  unfold rnd. pose proof (Qred_correct x) as Hr.
  assert (Hb : Qeq_bool (Qred x) 0 = false).
  { destruct (Qeq_bool (Qred x) 0) eqn:E; [| reflexivity].
    apply Qeq_bool_iff in E. rewrite Hr in E. contradiction. }
  rewrite Hb. set (e' := exponent (Qabs (Qred x))).
  assert (Hpos : 0 < Qabs (Qred x)).
  { rewrite Hr. destruct (Qlt_le_dec 0 (Qabs x)) as [L | L]; [exact L |].
    exfalso. apply Hx. apply Qabs_Qle_condition in L. lra. }
  destruct (exponent_spec _ Hpos) as [Hlo _]. fold e' in Hlo.
  rewrite Hr in Hlo.
  assert (Habs : Qabs x < 10 ^ (prec + e)).
  { subst x. rewrite Qabs_Qmult, (Qabs_pos (10 ^ e)) by lra.
    rewrite Qpower_plus by discriminate.
    apply Qmult_lt_compat_r; [exact Hpe |].
    change (10 ^ prec) with (inject_Z (10 ^ prec)).
    change (Qabs (inject_Z m)) with (inject_Z (Z.abs m)).
    rewrite <- Zlt_Qlt. exact Hm. }
  assert (He : (e' <= e)%Z).
  { assert (L : 10 ^ (e' + (prec - 1)) < 10 ^ (prec + e)) by lra.
    apply Qpower_lt_compat_l_inv in L; [lia | reflexivity]. }
  rewrite Qred_correct.
  assert (Hy : Qred x * 10 ^ (- e') == inject_Z (m * 10 ^ (e - e'))).
  { rewrite Hr. subst x. rewrite inject_Z_mult, Zpower_Qpower by lia.
    change (inject_Z 10) with 10.
    replace (e - e')%Z with (e + - e')%Z by ring.
    rewrite (Qpower_plus 10 e (- e')) by discriminate. ring. }
  assert (Hrhe : round_half_even (Qred x * 10 ^ (- e')) = (m * 10 ^ (e - e'))%Z).
  { rewrite <- (round_half_even_Z (m * 10 ^ (e - e'))).
    unfold round_half_even.
    assert (Hfl : Qfloor (Qred x * 10 ^ (- e'))
                  = Qfloor (inject_Z (m * 10 ^ (e - e')))).
    { apply Z.le_antisymm; apply Qfloor_resp_le; rewrite Hy; apply Qle_refl. }
    rewrite Hfl.
    assert (Hcmp : Qcompare (Qred x * 10 ^ (- e')
                             - inject_Z (Qfloor (inject_Z (m * 10 ^ (e - e')))))
                            (1 # 2)
                   = Qcompare (inject_Z (m * 10 ^ (e - e'))
                               - inject_Z (Qfloor (inject_Z (m * 10 ^ (e - e')))))
                              (1 # 2)).
    { apply Qcompare_comp; [rewrite Hy |]; reflexivity. }
    rewrite Hcmp. reflexivity. }
  rewrite Hrhe, inject_Z_mult, Zpower_Qpower by lia.
  change (inject_Z 10) with 10. subst x.
  replace (e - e')%Z with (e + - e')%Z by ring.
  rewrite (Qpower_plus 10 e (- e')) by discriminate.
  rewrite <- !Qmult_assoc.
  assert (Hinv : 10 ^ (- e') * 10 ^ e' == 1).
  { rewrite <- Qpower_plus by discriminate.
    replace (- e' + e')%Z with 0%Z by ring. reflexivity. }
  rewrite Hinv. ring.
Qed.
End DecimalFacts.

Import DecimalFacts.

(** ** Divisions that do not raise *)

Lemma one_plus_rate : Decimal.add 1 commission_rate = 1001 # 1000.
Proof. vm_compute. reflexivity. Qed.

Lemma divide_nonzero (a b : Q) : ~ b == 0 -> divide a b = ret (Decimal.rnd (a / b)).
Proof.
  intros H. unfold divide, Decimal.div.
  destruct (Qeq_bool b 0) eqn:E; [| reflexivity].
  apply Qeq_bool_iff in E. contradiction.
Qed.

(** The division of the average cost does not raise. *)
Lemma blend_divides (shares quantity a : Q) :
  Decimal.gtb shares 0 = true -> Decimal.leb quantity 0 = false ->
  divide a (Decimal.add shares quantity)
  = ret (Decimal.rnd (a / Decimal.add shares quantity)).
Proof.
  intros Hs Hpos. apply divide_nonzero.
  apply leb_false in Hpos. apply gtb_true in Hs.
  assert (0 < Decimal.add shares quantity) by (apply rnd_pos; lra). lra.
Qed.

(** ** Rules for computations *)

Section Hoare.
Context {A B : Type}.

Lemma hoare_ret (a : A) (Q : A -> Session -> Prop) (E : Exn -> Session -> Prop) :
  hoare (Q a) (ret a) Q E.
Proof. intros s H. exact H. Qed.

Lemma hoare_raise (e : Exn) (Q : A -> Session -> Prop) (E : Exn -> Session -> Prop) :
  hoare (E e) (raise e) Q E.
Proof. intros s H. exact H. Qed.

Lemma hoare_bind (P : Session -> Prop) (m : M A) (k : A -> M B)
    (Q : A -> Session -> Prop) (R : B -> Session -> Prop)
    (E : Exn -> Session -> Prop) :
  hoare P m Q E -> (forall a, hoare (Q a) (k a) R E) ->
  hoare P (bind m k) R E.
Proof.
  intros Hm Hk s Hs. unfold bind. specialize (Hm s Hs).
  destruct (m s) as [a s' | e s']; [apply (Hk a s' Hm) | exact Hm].
Qed.

Lemma hoare_weaken (P P' : Session -> Prop) (m : M A)
    (Q Q' : A -> Session -> Prop) (E E' : Exn -> Session -> Prop) :
  hoare P m Q E ->
  (forall s, P' s -> P s) -> (forall a s, Q a s -> Q' a s) ->
  (forall e s, E e s -> E' e s) ->
  hoare P' m Q' E'.
Proof.
  intros H HP HQ HE s Hs. specialize (H s (HP s Hs)).
  destruct (m s); auto.
Qed.
End Hoare.

Lemma hoare_bind_ret {A B : Type} (P : Session -> Prop) (a : A) (k : A -> M B)
    (R : B -> Session -> Prop) (E : Exn -> Session -> Prop) :
  hoare P (k a) R E -> hoare P (bind (ret a) k) R E.
Proof. intros H s Hs. exact (H s Hs). Qed.

Lemma hoare_bind_raise {A B : Type} (P : Session -> Prop) (e : Exn) (k : A -> M B)
    (R : B -> Session -> Prop) (E : Exn -> Session -> Prop) :
  (forall s, P s -> E e s) -> hoare P (bind (raise e) k) R E.
Proof. intros H s Hs. exact (H s Hs). Qed.

Lemma preserves_bind {A B : Type} (I : Session -> Prop) (m : M A) (k : A -> M B) :
  preserves I m -> (forall a, preserves I (k a)) -> preserves I (bind m k).
Proof. intros Hm Hk. exact (hoare_bind I m k _ _ _ Hm Hk). Qed.

Lemma preserves_ret {A : Type} (I : Session -> Prop) (a : A) : preserves I (ret a).
Proof. intros s H. exact H. Qed.

Lemma preserves_raise {A : Type} (I : Session -> Prop) (e : Exn) :
  preserves I (@raise A e).
Proof. intros s H. exact H. Qed.

Lemma preserves_get (I : Session -> Prop) : preserves I get_simulation.
Proof. intros s H. exact H. Qed.

Lemma preserves_divide (I : Session -> Prop) (a b : Q) : preserves I (divide a b).
Proof.
  intros s H. unfold divide. destruct (Decimal.div a b); exact H.
Qed.

Lemma preserves_select_trades (I : Session -> Prop) : preserves I select_trades.
Proof. intros s H. exact H. Qed.

Lemma preserves_drawdown (I : Session -> Prop) (values : list Q) :
  forall peak max_dd, preserves I (drawdown values peak max_dd).
Proof.
  induction values as [| v rest IH]; intros peak max_dd; cbn [drawdown].
  - apply preserves_ret.
  - apply preserves_bind.
    + destruct (Decimal.gtb _ 0); [apply preserves_divide | apply preserves_ret].
    + intros dd. apply IH.
Qed.

(** One step of a proof that a computation preserves an invariant. *)
Ltac preserve_step lem_update lem_log lem_flush :=
  lazymatch goal with
  | |- preserves _ (bind _ _) => apply preserves_bind; [| intros ?]
  | |- preserves _ (ret _) => apply preserves_ret
  | |- preserves _ (raise _) => apply preserves_raise
  | |- preserves _ get_simulation => apply preserves_get
  | |- preserves _ select_trades => apply preserves_select_trades
  | |- preserves _ (divide _ _) => apply preserves_divide
  | |- preserves _ (drawdown _ _ _) => apply preserves_drawdown
  | |- preserves _ (_add_log _ _) => apply lem_log
  | |- preserves _ db_flush => apply lem_flush
  | |- preserves _ (update _) => apply lem_update
  | |- preserves _ (if ?c then _ else _) => destruct c
  | |- preserves _ (match ?x with _ => _ end) => destruct x
  | |- preserves _ (let '(_, _) := ?p in _) => destruct p
  end.

(** *** The status an attempt ends in *)

Lemma hoare_any {A : Type} (P : Session -> Prop) (m : M A) :
  hoare P m (fun _ _ => True) (fun _ _ => True).
Proof. intros s _. destruct (m s); exact I. Qed.

Lemma finish_completes :
  hoare (fun _ => True) finish
    (fun _ s => status (simulation s) = Completed) (fun _ _ => True).
Proof.
  unfold finish.
  do 8 (eapply hoare_bind; [apply hoare_any | intros ?; cbv beta]).
  eapply hoare_bind with (Q := fun _ s => status (simulation s) = Completed).
  - intros s _. reflexivity.
  - intros _ s H. exact H.
Qed.

Lemma try_completes (env : Env) :
  hoare (fun _ => True) (run_simulation_try env)
    (fun _ s => status (simulation s) = Completed) (fun _ _ => True).
Proof.
  unfold run_simulation_try.
  do 2 (eapply hoare_bind; [apply hoare_any | intros ?; cbv beta]).
  apply finish_completes.
Qed.

(** The flush writes the status of the object. *)
Lemma flushed_status (assigned : bool) (x row : Simulation) :
  status (flushed assigned x row) = status x.
Proof. reflexivity. Qed.

(** An attempt ends [completed] or [failed], whatever was read back from
    the store on the way, and so does the row it has flushed. *)
Lemma run_simulation_final_status (env : Env) (s : Session) :
  (status (simulation (run_simulation env s)) = Completed \/
   status (simulation (run_simulation env s)) = Failed) /\
  status (stored (run_simulation env s))
  = status (simulation (run_simulation env s)).
Proof.
  unfold run_simulation.
  set (loaded := mkSession (simulation s) (trades s) (simulation s) false).
  pose proof (try_completes env loaded I) as H.
  destruct (run_simulation_try env loaded) as [[] s' | e s'].
  - split; [left; exact H | reflexivity].
  - split; [right; reflexivity | reflexivity].
Qed.

(** ** The properties of the specification *)

(** *** The loop's break *)

(** On a day whose re-read status is [stopped] or [paused] the loop ends
    at once: the object is the row read, a warning is logged on it and
    the trades are those there were. *)
Lemma loop_breaks (env : Env) (sim_klines rest : list KlinePoint.t)
    (kline : KlinePoint.t) (idx : nat) (s : Session) :
  db_status env idx = Stopped \/ db_status env idx = Paused ->
  exists m s',
    trading_loop env sim_klines idx (kline :: rest) s = Return tt s' /\
    simulation s'
    = add_entry warning m (set_status (db_status env idx) (stored s)) /\
    trades s' = trades s /\
    stored s' = set_status (db_status env idx) (stored s).
Proof.
  intros [H | H]; cbn [trading_loop];
    unfold bind, db_refresh, get_simulation, _add_log;
    cbn [simulation trades stored status set_status]; rewrite H;
    cbn [Status_eqb]; eexists _, _; repeat split; reflexivity.
Qed.

(** C1 (the code departs from the specification).  The status is read back as
    [stopped] on the first day of one attempt, as [paused] on the third
    day of another: each loop breaks and logs it, the first without a
    trade, and each attempt then goes on to the metrics and ends
    [completed], not in the status it observed. *)
Theorem observed_stop_ends_completed :
  status (simulation (run_simulation stopped_env fresh)) = Completed /\
  trades (run_simulation stopped_env fresh) = [] /\
  logged (mkLog warning MsgStopped) (run_simulation stopped_env fresh) /\
  status (simulation (run_simulation paused_env fresh)) = Completed /\
  logged (mkLog warning MsgPaused) (run_simulation paused_env fresh).
Proof.
  split; [vm_compute; reflexivity |].
  split; [vm_compute; reflexivity |].
  split; [unfold logged; vm_compute; tauto |].
  split; [vm_compute; reflexivity |].
  unfold logged; vm_compute; tauto.
Qed.

(** *** The example of the specification *)



(** The same ledger comes out of a whole attempt, when sixteen days on
    which the oracle holds precede the four of the example. *)
Lemma example_within_an_attempt :
  status (simulation (run_simulation padded_env fresh)) = Completed /\
  trades (run_simulation padded_env fresh) = trades example_run /\
  current_balance (simulation (run_simulation padded_env fresh))
  = current_balance (simulation example_run) /\
  total_profit_loss (simulation (run_simulation padded_env fresh))
  = total_profit_loss (simulation example_run).
Proof.
  split; [vm_compute; reflexivity |].
  split; [vm_compute; reflexivity |].
  split; vm_compute; reflexivity.
Qed.

(** *** The trade executor *)

(** C3 (the code departs from the specification).  Ten shares are held
    at an average cost of 0 and ten more are bought at 10.  Cost,
    commission, cash and shares are booked as specified: the cost is
    100, the commission 0.10, the cash goes down by 100.10 and the
    shares up to 20.  The average cost is not: it becomes 10, where the
    blend of the prior cost basis with the purchase over the new share
    count is [(10 * 0 + 100) / 20 = 5].  In [average_cost or price] the
    price has stood in for the cost, which is zero and not unset. *)
Theorem purchase_ignores_zero_cost :
  average_cost (simulation free_share) = Some 0 /\
  current_shares (simulation free_share) == 10 /\
  exists t : Trade.t,
    trades second_purchase = trades free_share ++ [t] /\
    Trade.quantity t == 10 /\
    Trade.price t == 10 /\
    Trade.commission t == 1 # 10 /\
    Trade.total_amount t == 1001 # 10 /\
    Trade.cash_after t == Trade.cash_before t - Trade.total_amount t /\
    Trade.shares_after t == 20 /\
    current_shares (simulation second_purchase) == 20 /\
    average_cost (simulation second_purchase) = Some 10 /\
    (current_shares (simulation free_share) * 0
     + Trade.quantity t * Trade.price t) / Trade.shares_after t == 5.
Proof.
  split; [vm_compute; reflexivity |].
  split; [vm_compute; reflexivity |].
  assert (H : exists t, trades second_purchase = trades free_share ++ [t]).
  { vm_compute. eexists. reflexivity. }
  destruct H as (t & H). exists t. split; [exact H |].
  vm_compute in H. injection H as <-.
  repeat (split; [vm_compute; reflexivity |]).
  vm_compute; reflexivity.
Qed.

(** C4 (the code departs from the specification).  Ten shares bought at
    price 0 have an average cost of 0; sold at 10 they bring 99.9 net,
    and the profit the formula gives, net of [quantity * average_cost],
    is 99.9: the trade records a loss of 0.1 and counts as a losing one.
    In [average_cost or price] the price has stood in for the cost,
    which is zero and not unset. *)
Lemma sale_of_free_share_pnl :
  average_cost (simulation free_share) = Some 0 /\
  exists t : Trade.t,
    trades sale_of_free_share = trades free_share ++ [t] /\
    Trade.realized_pnl t = Some (- 1 # 10) /\
    Trade.total_amount t - Trade.quantity t * 0 == 999 # 10 /\
    ~ (- 1 # 10 == Trade.total_amount t - Trade.quantity t * 0) /\
    losing_trades (simulation sale_of_free_share) = 1%Z /\
    winning_trades (simulation sale_of_free_share) = 0%Z.
Proof.
  split; [vm_compute; reflexivity |].
  assert (H : exists t, trades sale_of_free_share = trades free_share ++ [t]).
  { vm_compute. eexists. reflexivity. }
  destruct H as (t & H). exists t. split; [exact H |].
  vm_compute in H. injection H as <-.
  split; [vm_compute; reflexivity |].
  split; [vm_compute; reflexivity |].
  split; [vm_compute; discriminate |].
  split; vm_compute; reflexivity.
Qed.

(** *** The stored ledger *)

(** C5 (the code departs from the specification).  One share is bought
    at 105 of a cash of 50,000, and the task commits.  The trade the
    session holds has a total of 105.105 and leaves 49,894.895; its
    row, each column rounded on its own to two decimals, has a total of
    105.11, a cash of 50,000.00 before and of 49,894.90 after: the
    cash after is not the cash before less the total, which is
    49,894.89.  The row of the simulation holds the 49,894.90. *)
Theorem stored_purchase_off_by_a_cent :
  exists (t r : Trade.t) (x : Simulation),
    trades (run_simulation odd_cent_env fresh) = [t] /\
    Trade.total_amount t == 105105 # 1000 /\
    Trade.cash_after t == 49894895 # 1000 /\
    trades_table odd_cent_world = [r] /\
    r = store_trade t /\
    Trade.action r = Buy /\
    Trade.quantity r == 1 /\
    Trade.price r == 105 /\
    Trade.total_amount r == 10511 # 100 /\
    Trade.cash_before r == 50000 /\
    Trade.cash_after r == 4989490 # 100 /\
    Trade.cash_before r - Trade.total_amount r == 4989489 # 100 /\
    ~ Trade.cash_after r == Trade.cash_before r - Trade.total_amount r /\
    simulations odd_cent_world = [x] /\
    status x = Completed /\
    current_balance x == 4989490 # 100.
Proof.
  assert (H : exists t, trades (run_simulation odd_cent_env fresh) = [t]).
  { vm_compute. eexists. reflexivity. }
  destruct H as (t & H).
  assert (H' : exists x, simulations odd_cent_world = [x]).
  { vm_compute. eexists. reflexivity. }
  destruct H' as (x & H').
  exists t, (store_trade t), x. split; [exact H |].
  vm_compute in H. injection H as <-.
  vm_compute in H'. injection H' as <-.
  repeat (split; [vm_compute; first [reflexivity | discriminate] |]).
  vm_compute; reflexivity.
Qed.

(** *** The oracle *)

(** C6 (the code departs from the specification).  The oracle answers
    every day with a purchase of ten shares whose reasoning is [null],
    a malformed answer.  It is not taken for a hold: the engine makes a
    decision of it, and the loop raises on the first day when it slices
    the reasoning for the log.  The run ends [failed], in the object
    and in the store, without a trade; the same days complete when the
    oracle's call raises. *)
Theorem null_reasoning_fails_the_run :
  (exists (d : Decision_of Json) (s : Session),
     _make_trading_decision null_reasoning_env 0 (day 1 100) [day 1 100] fresh
     = Return (Some d) s /\
     d_action d = Buy /\ d_quantity d == 10 /\ d_reasoning d = JNull) /\
  status (simulation (run_simulation null_reasoning_env fresh)) = Failed /\
  error_message (simulation (run_simulation null_reasoning_env fresh))
  = Some NotSubscriptable /\
  status (stored (run_simulation null_reasoning_env fresh)) = Failed /\
  trades (run_simulation null_reasoning_env fresh) = [] /\
  status (simulation (run_simulation silent_env fresh)) = Completed.
Proof.
  split.
  { eexists _, _. split; [vm_compute; reflexivity |].
    repeat split. }
  repeat (split; [vm_compute; reflexivity |]).
  vm_compute; reflexivity.
Qed.

(** *** The historical series *)

(** C8 (the code departs from the specification).  With four points
    fetched the attempt fails for insufficient data.  With twenty
    points fetched, none of them in the period, the loop runs over the
    twenty and trades on each, and the fallback entry is appended to
    the log when the days are chosen.  It is not recorded: the entry is
    appended in place after the flush of the first three entries, the
    first [db.refresh] of the loop reads the log back without it, and
    at the end of the attempt it is neither in the log of the object
    nor in the stored one, which holds the three entries of the
    start. *)
Theorem fallback_entry_is_lost :
  status (simulation (run_simulation example_env fresh)) = Failed /\
  error_message (simulation (run_simulation example_env fresh))
  = Some InsufficientData /\
  (exists s1,
     fetch_and_select past_env fresh = Return past_klines s1 /\
     logged (mkLog info (MsgFallback 20)) s1) /\
  status (simulation (run_simulation past_env fresh)) = Completed /\
  List.length (trades (run_simulation past_env fresh)) = 20%nat /\
  ~ logged (mkLog info (MsgFallback 20)) (run_simulation past_env fresh) /\
  logs (stored (run_simulation past_env fresh))
  = start_entries (simulation fresh).
Proof.
  split; [vm_compute; reflexivity |].
  split; [vm_compute; reflexivity |].
  split.
  { eexists. split; [vm_compute; reflexivity |].
    unfold logged. vm_compute. tauto. }
  split; [vm_compute; reflexivity |].
  split; [vm_compute; reflexivity |].
  split; [| vm_compute; reflexivity].
  unfold logged. vm_compute.
  intros H. repeat (destruct H as [H | H]; [discriminate H |]). exact H.
Qed.

(** *** The lifecycle commands *)

(** C7 (counterexample).  The start of a pending simulation succeeds and
    leaves its row [pending], not [running]; a second start, sent before
    the first task has begun, succeeds too, and the queue then holds two
    tasks for the one simulation. *)
Lemma start_leaves_pending :
  ~ start_as_specified 1 1 one_pending /\
  queue (snd (start_simulation 1 1 (snd (start_simulation 1 1 one_pending))))
  = [1; 1]%Z.
Proof.
  split; [| vm_compute; reflexivity].
  intros H. destruct (H _ _ eq_refl) as (y & Hy & Hst).
  vm_compute in Hy. injection Hy as <-. discriminate Hst.
Qed.

(** C7 (amended).  The start command succeeds only on a simulation that
    is [pending]; it then puts exactly one task for it in the queue and
    changes no row, the status staying [pending] until the task itself
    sets [running]; on any other status, [running] among them, it is
    refused and nothing is queued.  A start repeated while the row is
    still [pending] is accepted again and queues a second task. *)
Theorem start_dispatches_from_pending (simulation_id user : Z) (w : World) :
  match find_simulation simulation_id user w with
  | None => start_simulation simulation_id user w = (NotFound, w)
  | Some x =>
      if Status_eqb (status x) Pending
      then
        let w' := mkWorld (simulations w) (trades_table w) (queue w ++ [id x]) in
        start_simulation simulation_id user w = (OK x, w') /\
        start_simulation simulation_id user w'
        = (OK x, mkWorld (simulations w) (trades_table w)
                   ((queue w ++ [id x]) ++ [id x]))
      else start_simulation simulation_id user w = (BadRequest (status x), w)
  end.
Proof.
  destruct (find_simulation simulation_id user w) as [x |] eqn:Hf.
  - destruct (Status_eqb (status x) Pending) eqn:Hs.
    + assert (Hf' : find_simulation simulation_id user
                      (mkWorld (simulations w) (trades_table w) (queue w ++ [id x]))
                    = Some x) by exact Hf.
      unfold start_simulation. rewrite Hf, Hf', Hs. split; reflexivity.
    + unfold start_simulation. rewrite Hf, Hs. reflexivity.
  - unfold start_simulation. rewrite Hf. reflexivity.
Qed.

(** The task runs the engine on a [pending] row only: any other status
    is left as it is. *)
Lemma task_skips_unless_pending (env : Env) (w : World) (simulation_id : Z)
    (rest : list Z) (row : Simulation) :
  queue w = simulation_id :: rest ->
  find (fun x => (id x =? simulation_id)%Z) (simulations w) = Some row ->
  status row <> Pending ->
  run_trading_simulation env w = mkWorld (simulations w) (trades_table w) rest.
Proof.
  intros Hq Hf Hs. unfold run_trading_simulation. rewrite Hq.
  cbn [simulations trades_table queue]. rewrite Hf.
  destruct (status row); try reflexivity. contradiction.
Qed.

(** So, taken one after the other, the two tasks of a start sent twice
    make one attempt: the second finds the row [completed]. *)
Lemma duplicate_task_does_nothing :
  let w2 := snd (start_simulation 1 1 (snd (start_simulation 1 1 one_pending))) in
  let w3 := run_trading_simulation silent_env w2 in
  let w4 := run_trading_simulation silent_env w3 in
  map status (simulations w3) = [Completed] /\
  simulations w4 = simulations w3 /\
  queue w4 = [].
Proof.
  split; [vm_compute; reflexivity |].
  split; vm_compute; reflexivity.
Qed.



(** *** Creation *)

(** C10.  Whatever the caller passes, a created simulation is [pending],
    holds no share, has an initial balance and a cash balance of 50,000,
    in CNY on the market "cn" and in USD on any other, and a period from
    2026-02-01 00:00:00 to 2026-04-30 23:59:59 UTC. *)
Theorem created_simulation (new_id user : Z) (symbol market agent_name : string)
    (config : option Config) :
  let x := create_simulation new_id user symbol market agent_name config in
  status x = Pending /\
  current_shares x = 0 /\
  initial_balance x = 50000 /\
  current_balance x = initial_balance x /\
  currency x = (if String.eqb market "cn" then "CNY" else "USD")%string /\
  start_date x = mkDateTime 2026 2 1 0 0 0 /\
  end_date x = mkDateTime 2026 4 30 23 59 59.
Proof.
  unfold create_simulation, get_initial_balance.
  destruct (String.eqb market "cn"); cbn; repeat split.
Qed.

(** * Further properties of the code *)

(** ** Order and rounding *)

Module DecimalOrder.
Import Decimal.

Lemma round_half_even_comp (x y : Q) :
  x == y -> round_half_even x = round_half_even y.
Proof.
  intros H. unfold round_half_even.
  assert (Hfl : Qfloor x = Qfloor y).
  { apply Z.le_antisymm; apply Qfloor_resp_le; rewrite H; apply Qle_refl. }
  rewrite Hfl.
  assert (Hc : Qcompare (x - inject_Z (Qfloor y)) (1 # 2)
               = Qcompare (y - inject_Z (Qfloor y)) (1 # 2)).
  { apply Qcompare_comp; [rewrite H |]; reflexivity. }
  rewrite Hc. reflexivity.
Qed.

Lemma round_half_even_mono (x y : Q) :
  x <= y -> (round_half_even x <= round_half_even y)%Z.
Proof.
  intros H.
  pose proof (Qfloor_resp_le x y H) as Hf.
  destruct (Z.eq_dec (Qfloor x) (Qfloor y)) as [E | E].
  - unfold round_half_even. rewrite E.
    destruct (Qcompare (x - inject_Z (Qfloor y)) (1 # 2)) eqn:Hx;
      [apply Qeq_alt in Hx | apply Qlt_alt in Hx | apply Qgt_alt in Hx];
      (destruct (Qcompare (y - inject_Z (Qfloor y)) (1 # 2)) eqn:Hy;
       [apply Qeq_alt in Hy | apply Qlt_alt in Hy | apply Qgt_alt in Hy]);
      try (destruct (Z.even (Qfloor y))); try lia; exfalso; lra.
  - destruct (round_half_even_cases x) as [-> | ->];
      destruct (round_half_even_cases y) as [-> | ->]; lia.
Qed.

(** The shape of the rounding of a positive number, with both bounds on
    the scaled value. *)
Lemma rnd_pos_shape (x : Q) :
  0 < x ->
  exists e : Z,
    rnd x == inject_Z (round_half_even (x * 10 ^ (- e))) * 10 ^ e /\
    10 ^ (e + (prec - 1)) <= x < 10 ^ (e + prec).
Proof.
  intros Hx. unfold rnd. pose proof (Qred_correct x) as Hr.
  assert (Hb : Qeq_bool (Qred x) 0 = false).
  { destruct (Qeq_bool (Qred x) 0) eqn:E; [| reflexivity].
    apply Qeq_bool_iff in E. rewrite Hr in E. lra. }
  rewrite Hb.
  assert (Habs : Qabs (Qred x) == x) by (rewrite Hr; apply Qabs_pos; lra).
  assert (Hpos : 0 < Qabs (Qred x)) by (rewrite Habs; exact Hx).
  pose proof (exponent_spec _ Hpos) as Hspec.
  set (e := exponent (Qabs (Qred x))) in *.
  exists e. split.
  - rewrite Qred_correct.
    rewrite (round_half_even_comp (Qred x * 10 ^ (- e)) (x * 10 ^ (- e)))
      by (rewrite Hr; reflexivity).
    reflexivity.
  - rewrite Habs in Hspec. exact Hspec.
Qed.

Lemma scaled (x : Q) (e : Z) : x * 10 ^ (- e) * 10 ^ e == x.
Proof.
  rewrite <- Qmult_assoc, <- Qpower_plus by discriminate.
  replace (- e + e)%Z with 0%Z by ring. change (10 ^ 0) with 1. ring.
Qed.

(** Rounding keeps the order of non-negative numbers. *)
Lemma rnd_mono (x y : Q) : 0 <= x -> x <= y -> rnd x <= rnd y.
Proof.
  intros Hx Hxy.
  destruct (Qeq_dec x 0) as [E | E].
  { rewrite (rnd_zero x E). apply rnd_nonneg. lra. }
  assert (Hx0 : 0 < x) by lra. assert (Hy0 : 0 < y) by lra.
  destruct (rnd_pos_shape x Hx0) as (ex & Rx & Lx & Ux).
  destruct (rnd_pos_shape y Hy0) as (ey & Ry & Ly & Uy).
  rewrite Rx, Ry.
  assert (Hex : 0 < 10 ^ ex) by apply pow10_pos.
  assert (Hey : 0 < 10 ^ ey) by apply pow10_pos.
  assert (Hle : (ex <= ey)%Z).
  { assert (L : 10 ^ (ex + (prec - 1)) < 10 ^ (ey + prec)) by lra.
    apply Qpower_lt_compat_l_inv in L; [lia | reflexivity]. }
  destruct (Z.eq_dec ex ey) as [<- | Hne].
  - apply Qmult_le_compat_r; [| lra].
    rewrite <- Zle_Qle. apply round_half_even_mono.
    apply Qmult_le_compat_r; [exact Hxy |]. apply Qlt_le_weak, pow10_pos.
  - (* the rounding of [x] stays below the next power of ten, that of
       [y] above its own *)
    apply Qle_trans with (10 ^ (ex + prec)).
    + assert (Hs : x * 10 ^ (- ex) <= inject_Z (10 ^ prec)).
      { apply Qmult_lt_0_le_reg_r with (z := 10 ^ ex); [exact Hex |].
        rewrite scaled. rewrite Zpower_Qpower by (unfold prec; lia).
        change (inject_Z 10) with 10.
        rewrite <- Qpower_plus by discriminate.
        replace (prec + ex)%Z with (ex + prec)%Z by ring. lra. }
      apply round_half_even_mono in Hs. rewrite round_half_even_Z in Hs.
      rewrite Zle_Qle in Hs.
      rewrite Zpower_Qpower in Hs by (unfold prec; lia).
      change (inject_Z 10) with 10 in Hs.
      rewrite (Qpower_plus 10 ex prec) by discriminate.
      rewrite (Qmult_comm (10 ^ ex)).
      apply Qmult_le_compat_r; [exact Hs | lra].
    + apply Qle_trans with (10 ^ (ey + (prec - 1))).
      * apply pow10_le. lia.
      * assert (Hs : inject_Z (10 ^ (prec - 1)) <= y * 10 ^ (- ey)).
        { apply Qmult_lt_0_le_reg_r with (z := 10 ^ ey); [exact Hey |].
          rewrite scaled. rewrite Zpower_Qpower by (unfold prec; lia).
          change (inject_Z 10) with 10.
          rewrite <- Qpower_plus by discriminate.
          replace (prec - 1 + ey)%Z with (ey + (prec - 1))%Z by ring. lra. }
        apply round_half_even_mono in Hs. rewrite round_half_even_Z in Hs.
        rewrite Zle_Qle in Hs.
        rewrite Zpower_Qpower in Hs by (unfold prec; lia).
        change (inject_Z 10) with 10 in Hs.
        rewrite (Qpower_plus 10 ey (prec - 1)) by discriminate.
        rewrite (Qmult_comm (10 ^ ey)).
        apply Qmult_le_compat_r; [exact Hs | lra].
Qed.

Lemma rnd_comp (x y : Q) : x == y -> rnd x = rnd y.
Proof.
  intros H. unfold rnd. rewrite (Qred_complete x y H). reflexivity.
Qed.

(** A result of the context is not rounded again. *)
Lemma rnd_idem (x : Q) : 0 <= x -> rnd (rnd x) == rnd x.
Proof.
  intros Hx. destruct (Qeq_dec x 0) as [E | E].
  { rewrite (rnd_zero x E). reflexivity. }
  assert (Hx0 : 0 < x) by lra.
  destruct (rnd_pos_shape x Hx0) as (e & R & L & U).
  set (m := round_half_even (x * 10 ^ (- e))) in *.
  assert (He : 0 < 10 ^ e) by apply pow10_pos.
  assert (Hm : (0 <= m <= 10 ^ prec)%Z).
  { split.
    - apply round_half_even_nonneg. apply Qmult_le_0_compat; [lra |].
      apply Qlt_le_weak, pow10_pos.
    - assert (Hs : x * 10 ^ (- e) <= inject_Z (10 ^ prec)).
      { apply Qmult_lt_0_le_reg_r with (z := 10 ^ e); [exact He |].
        rewrite scaled. rewrite Zpower_Qpower by (unfold prec; lia).
        change (inject_Z 10) with 10.
        rewrite <- Qpower_plus by discriminate.
        replace (prec + e)%Z with (e + prec)%Z by ring. lra. }
      apply round_half_even_mono in Hs. rewrite round_half_even_Z in Hs.
      exact Hs. }
  destruct (Z.eq_dec m (10 ^ prec)) as [Em | Nm].
  - (* rounded up to the next power of ten *)
    assert (R' : rnd x == inject_Z (10 ^ (prec - 1)) * 10 ^ (e + 1)).
    { rewrite R, Em. rewrite !Zpower_Qpower by (unfold prec; lia).
      change (inject_Z 10) with 10.
      rewrite <- !Qpower_plus by discriminate.
      replace (prec - 1 + (e + 1))%Z with (prec + e)%Z by ring. reflexivity. }
    rewrite (rnd_comp _ _ R'). rewrite rnd_exact; [symmetry; exact R' |].
    vm_compute. reflexivity.
  - rewrite (rnd_comp _ _ R). rewrite rnd_exact; [symmetry; exact R |].
    rewrite Z.abs_eq by lia. lia.
Qed.

Lemma rnd_one : rnd 1 = 1.
Proof. vm_compute. reflexivity. Qed.

(** Half-even rounding is symmetric about zero. *)
Lemma round_half_even_opp (y : Q) :
  round_half_even (- y) = (- round_half_even y)%Z.
Proof.
  unfold round_half_even.
  pose proof (Qfloor_le y) as F1. pose proof (Qlt_floor y) as F2.
  pose proof (Qfloor_le (- y)) as G1. pose proof (Qlt_floor (- y)) as G2.
  set (f := Qfloor y) in *. set (g := Qfloor (- y)) in *.
  rewrite inject_Z_plus in F2, G2.
  change (inject_Z 1) with 1 in F2, G2.
  assert (Hg : (g = - f \/ g = - f - 1)%Z).
  { assert (A : inject_Z g <= inject_Z (- f)) by (rewrite inject_Z_opp; lra).
    assert (B : inject_Z (- f - 2) < inject_Z g).
    { unfold Z.sub. rewrite inject_Z_plus, inject_Z_opp.
      change (inject_Z (- (2))) with (- (2)). lra. }
    rewrite <- Zle_Qle in A. rewrite <- Zlt_Qlt in B. lia. }
  destruct Hg as [Hg | Hg]; rewrite Hg in *; clear Hg;
    [rewrite inject_Z_opp in * |
     unfold Z.sub in *; rewrite inject_Z_plus, inject_Z_opp in *;
     change (inject_Z (- (1))) with (- (1)) in *];
    (destruct (Qcompare (- y - _) (1 # 2)) eqn:Hx;
     [apply Qeq_alt in Hx | apply Qlt_alt in Hx | apply Qgt_alt in Hx]);
    (destruct (Qcompare (y - inject_Z f) (1 # 2)) eqn:Hy;
     [apply Qeq_alt in Hy | apply Qlt_alt in Hy | apply Qgt_alt in Hy]);
    try (exfalso; lra);
    try lia.
  - (* both at the half, with the floors [f] and [- f - 1] *)
    rewrite Z.even_add, Z.even_opp. cbn [Z.even].
    destruct (Z.even f); cbn; lia.
Qed.

Lemma Qabs_opp_eq (y : Q) : Qabs (- y) = Qabs y.
Proof.
  destruct y as [n d]. unfold Qabs, Qopp. cbn. rewrite Z.abs_opp. reflexivity.
Qed.

(** So is the rounding of the context. *)
Lemma rnd_opp (x : Q) : rnd (- x) == - rnd x.
Proof.
  unfold rnd. rewrite Qred_opp.
  assert (Hb : Qeq_bool (- Qred x) 0 = Qeq_bool (Qred x) 0).
  { destruct (Qeq_bool (Qred x) 0) eqn:E.
    - apply Qeq_bool_iff in E. apply Qeq_bool_iff. rewrite E. reflexivity.
    - destruct (Qeq_bool (- Qred x) 0) eqn:E'; [| reflexivity].
      apply Qeq_bool_iff in E'. apply Qeq_bool_neq in E. exfalso. apply E.
      lra. }
  rewrite Hb. destruct (Qeq_bool (Qred x) 0); [reflexivity |].
  rewrite Qabs_opp_eq. rewrite !Qred_correct.
  set (e := exponent (Qabs (Qred x))).
  assert (E : - Qred x * 10 ^ (- e) == - (Qred x * 10 ^ (- e))) by ring.
  rewrite (round_half_even_comp _ _ E).
  rewrite round_half_even_opp, inject_Z_opp.
  generalize (inject_Z (round_half_even (Qred x * 10 ^ (- e)))), (10 ^ e).
  intros a b. rewrite (Qred_correct (a * b)). ring.
Qed.

(** A result of the context is not rounded again, whatever its sign. *)
Lemma rnd_idem_any (x : Q) : rnd (rnd x) == rnd x.
Proof.
  destruct (Qlt_le_dec x 0) as [Hneg | Hpos]; [| apply rnd_idem; exact Hpos].
  assert (E : rnd x == - rnd (- x)).
  { rewrite <- (rnd_comp (- - x) x) by ring. rewrite rnd_opp. reflexivity. }
  rewrite (rnd_comp _ _ E). rewrite rnd_opp. rewrite rnd_idem by lra.
  symmetry. exact E.
Qed.

(** Only zero rounds to zero. *)
Lemma rnd_zero_inv (x : Q) : rnd x == 0 -> x == 0.
Proof.
  intros H. destruct (Qlt_le_dec x 0) as [Hneg | Hpos].
  - pose proof (rnd_neg x Hneg). lra.
  - destruct (Qeq_dec x 0) as [E | E]; [exact E |].
    assert (Hx : 0 < x) by lra. pose proof (rnd_pos x Hx). lra.
Qed.

End DecimalOrder.

Import DecimalOrder.

(** ** The metrics *)

Lemma held_rnd (x : Q) : 0 <= x -> held (Decimal.rnd x).
Proof.
  intros H. split; [apply rnd_nonneg; exact H | apply rnd_idem; exact H].
Qed.

(** The drawdown loop never raises, whatever the session, and never
    lowers the maximum. *)
Lemma drawdown_returns (values : list Q) :
  forall (peak max_dd : Q),
    exists d,
      (forall s, drawdown values peak max_dd s = Return d s) /\ max_dd <= d.
Proof.
  induction values as [| v rest IH]; intros peak max_dd; cbn [drawdown].
  - exists max_dd. split; [reflexivity | apply Qle_refl].
  - unfold bind.
    set (peak' := if Decimal.gtb v peak then v else peak).
    assert (Hdd : exists dd, forall s,
               (if Decimal.gtb peak' 0
                then divide (Decimal.sub peak' v) peak' else ret 0) s
               = Return dd s).
    { destruct (Decimal.gtb peak' 0) eqn:Hg.
      - apply gtb_true in Hg. rewrite divide_nonzero by lra.
        eexists. reflexivity.
      - eexists. reflexivity. }
    destruct Hdd as (dd & Hdd).
    destruct (IH peak' (if Decimal.gtb dd max_dd then dd else max_dd))
      as (d & Hret & Hd).
    exists d. split; [intros s; rewrite Hdd; apply Hret |].
    destruct (Decimal.gtb dd max_dd) eqn:Hg; [| exact Hd].
    apply gtb_true in Hg. lra.
Qed.

(** On values that are not negative the maximum stays within 1. *)
Lemma drawdown_bounded (values : list Q) :
  Forall held values ->
  forall (peak max_dd d : Q) (s : Session),
    held peak -> max_dd <= 1 ->
    drawdown values peak max_dd s = Return d s -> d <= 1.
Proof.
  induction 1 as [| v rest Hv Hrest IH]; intros peak max_dd d s Hp Hm;
    cbn [drawdown].
  - intros [= <-]. exact Hm.
  - unfold bind.
    set (peak' := if Decimal.gtb v peak then v else peak).
    assert (Hp' : held peak')
      by (subst peak'; destruct (Decimal.gtb v peak); assumption).
    assert (Hvp : v <= peak').
    { subst peak'. destruct (Decimal.gtb v peak) eqn:Hg; [apply Qle_refl |].
      apply gtb_false in Hg. exact Hg. }
    assert (Hdd : exists dd,
               (if Decimal.gtb peak' 0
                then divide (Decimal.sub peak' v) peak' else ret 0) s
               = Return dd s /\ dd <= 1).
    { destruct (Decimal.gtb peak' 0) eqn:Hg.
      - apply gtb_true in Hg. rewrite divide_nonzero by lra.
        eexists. split; [reflexivity |].
        destruct Hv as [Hv0 _]. destruct Hp' as [_ Hpr].
        assert (Ha0 : 0 <= Decimal.sub peak' v) by (apply rnd_nonneg; lra).
        assert (Ha : Decimal.sub peak' v <= peak').
        { rewrite <- Hpr at 2. apply rnd_mono; lra. }
        rewrite <- rnd_one. apply rnd_mono.
        + apply Qle_shift_div_l; [exact Hg | lra].
        + apply Qle_shift_div_r; [exact Hg | lra].
      - exists 0. split; [reflexivity | discriminate]. }
    destruct Hdd as (dd & -> & Hdd).
    apply IH; [exact Hp' |].
    destruct (Decimal.gtb dd max_dd); assumption.
Qed.

(** ** The three ends of an execution *)

(** A positive and a negative result exclude each other. *)
Lemma gtb_not_ltb (p : Q) : Decimal.gtb p 0 = true -> Decimal.ltb p 0 = false.
Proof.
  intros H. apply gtb_true in H. apply ltb_false. lra.
Qed.

(** A purchase that cannot be paid at a price the context rounds to
    zero: the cash is negative and the price is zero. *)
Lemma clamp_fails (quantity price cash : Q) :
  let cost := Decimal.mul quantity price in
  Decimal.gtb (Decimal.add cost (Decimal.mul cost (1 # 1000))) cash = true ->
  Decimal.mul price (1001 # 1000) == 0 ->
  cash < 0 /\ price == 0.
Proof.
  intros cost Hg Hz. apply gtb_true in Hg.
  apply rnd_zero_inv in Hz.
  assert (Hp : price == 0) by lra.
  split; [| exact Hp].
  assert (Hc : cost = 0).
  { subst cost. unfold Decimal.mul. apply rnd_zero. rewrite Hp. ring. }
  rewrite Hc in Hg.
  replace (Decimal.add 0 (Decimal.mul 0 (1 # 1000))) with 0 in Hg
    by (vm_compute; reflexivity).
  exact Hg.
Qed.

Lemma divide_zero (a b : Q) : b == 0 -> divide a b = raise DecimalError.
Proof.
  intros H. unfold divide, Decimal.div.
  apply Qeq_bool_iff in H. rewrite H. reflexivity.
Qed.

(** *** Running a computation step by step *)

(** A property of what a computation comes to is shown from its first
    step on: the step is taken, and the property is shown of the rest
    from any session the step can leave. *)

Section Exec.
Context {B : Type}.
Variable Phi : Result B -> Prop.

Lemma exec_ret {A : Type} (a : A) (k : A -> M B) (s : Session) :
  Phi (k a s) -> Phi (bind (ret a) k s).
Proof. exact (fun H => H). Qed.

Lemma exec_assoc {A A' : Type} (m : M A) (k1 : A -> M A') (k2 : A' -> M B)
    (s : Session) :
  Phi (bind m (fun a => bind (k1 a) k2) s) -> Phi (bind (bind m k1) k2 s).
Proof. unfold bind. destruct (m s); exact (fun H => H). Qed.

Lemma exec_get (k : Simulation -> M B) (s : Session) :
  Phi (k (simulation s) s) -> Phi (bind get_simulation k s).
Proof. exact (fun H => H). Qed.

Lemma exec_update (f : Simulation -> Simulation) (k : unit -> M B)
    (s : Session) :
  (forall s1,
     simulation s1 = f (simulation s) -> trades s1 = trades s ->
     stored s1 = stored s -> logs_assigned s1 = logs_assigned s ->
     Phi (k tt s1)) ->
  Phi (bind (update f) k s).
Proof. intros H. apply H; reflexivity. Qed.

Lemma exec_log (l : Level) (m : Message) (k : unit -> M B) (s : Session) :
  (forall s1,
     simulation s1 = add_entry l m (simulation s) -> trades s1 = trades s ->
     stored s1 = stored s ->
     logs_assigned s1
     = match execution_logs (simulation s) with
       | None => true
       | Some _ => logs_assigned s
       end ->
     Phi (k tt s1)) ->
  Phi (bind (_add_log l m) k s).
Proof. intros H. apply H; reflexivity. Qed.

Lemma exec_add (t : Trade.t) (k : unit -> M B) (s : Session) :
  (forall s1,
     simulation s1 = simulation s -> trades s1 = trades s ++ [t] ->
     stored s1 = stored s -> logs_assigned s1 = logs_assigned s ->
     Phi (k tt s1)) ->
  Phi (bind (db_add t) k s).
Proof. intros H. apply H; reflexivity. Qed.

Lemma exec_flush (k : unit -> M B) (s : Session) :
  (forall s1,
     simulation s1 = simulation s -> trades s1 = trades s ->
     stored s1 = flushed (logs_assigned s) (simulation s) (stored s) ->
     logs_assigned s1 = false ->
     Phi (k tt s1)) ->
  Phi (bind db_flush k s).
Proof. intros H. apply H; reflexivity. Qed.
End Exec.

(** A flush leaves the object and the trades; the row is the object
    flushed over it. *)
Lemma flush_runs (s : Session) :
  exists s1,
    db_flush s = Return tt s1 /\
    simulation s1 = simulation s /\ trades s1 = trades s /\
    stored s1 = flushed (logs_assigned s) (simulation s1) (stored s) /\
    logs_assigned s1 = false.
Proof. eexists. repeat split. Qed.

Ltac exec_step :=
  lazymatch goal with
  | |- context [bind (bind ?m ?k1) ?k2 ?s] =>
      pattern (bind (bind m k1) k2 s); apply exec_assoc; cbv beta
  | |- context [bind (ret ?a) ?k ?s] =>
      pattern (bind (ret a) k s); apply exec_ret; cbv beta
  | |- context [bind get_simulation ?k ?s] =>
      pattern (bind get_simulation k s); apply exec_get; cbv beta
  | |- context [bind (update ?f) ?k ?s] =>
      pattern (bind (update f) k s); apply exec_update;
      intros ? ? ? ? ?; cbv beta
  | |- context [bind (_add_log ?l ?m) ?k ?s] =>
      pattern (bind (_add_log l m) k s); apply exec_log;
      intros ? ? ? ? ?; cbv beta
  | |- context [bind (db_add ?t) ?k ?s] =>
      pattern (bind (db_add t) k s); apply exec_add;
      intros ? ? ? ? ?; cbv beta
  | |- context [bind db_flush ?k ?s] =>
      pattern (bind db_flush k s); apply exec_flush;
      intros ? ? ? ? ?; cbv beta
  end.

(** What the sessions passed through hold, in terms of the first. *)
Ltac unwind :=
  repeat match goal with
  | H : simulation ?x = _ |- context [simulation ?x] => rewrite H
  | H : trades ?x = _ |- context [trades ?x] => rewrite H
  | H : stored ?x = _ |- context [stored ?x] => rewrite H
  | H : logs_assigned ?x = _ |- context [logs_assigned ?x] => rewrite H
  end.


Ltac book :=
  constructor; cbn;
  try reflexivity; try (split; reflexivity); try assumption;
  try (symmetry; assumption); try lia; try discriminate;
  try (unfold logs; cbn;
       match goal with
       | |- exists entries, (?l ++ [?a]) ++ [?b] = ?l ++ entries =>
           exists [a; b]; rewrite <- app_assoc; reflexivity
       | |- exists entries, ((?l ++ [?a]) ++ [?b]) ++ [?c] = ?l ++ entries =>
           exists [a; b; c]; rewrite <- !app_assoc; reflexivity
       end).

(** The end of an execution: the trade is added and the session
    flushed. *)
Ltac booked_trade :=
  repeat exec_step;
  match goal with
  | |- context [db_flush ?s0] =>
      let s1 := fresh "s" in
      let E := fresh "E" in
      destruct (flush_runs s0) as (s1 & E & ? & ? & ? & ?);
      eexists _, s1; split; [exact E |]
  end;
  split; [unwind; reflexivity |];
  split; [| split; [unwind; reflexivity | assumption]];
  unwind; book.

(** An execution ends in one of three ways.  It raises, before anything
    is written, when a purchase exceeds a negative cash at the price
    zero; it returns with the session as it was; or it returns with one
    trade more, the simulation booked accordingly and flushed. *)
Lemma execute_trade_cases (s : Session) (d : Decision) (price : Q)
    (date : DateTime) (md : KlinePoint.t) :
  (_execute_trade d price date md s = Raised DecimalError s /\
   d_action d = Buy /\ current_balance (simulation s) < 0 /\ price == 0) \/
  _execute_trade d price date md s = Return tt s \/
  exists (t : Trade.t) (s' : Session),
    _execute_trade d price date md s = Return tt s' /\
    trades s' = trades s ++ [t] /\
    booked d price date md (simulation s) t (simulation s') /\
    stored s'
    = flushed
        match execution_logs (simulation s) with
        | None => true
        | Some _ => logs_assigned s
        end
        (simulation s') (stored s) /\
    logs_assigned s' = false.
Proof.
  unfold _execute_trade.
  destruct (Decimal.leb (d_quantity d) 0) eqn:Hq; [right; left; reflexivity |].
  destruct (d_action d) eqn:Ha.
  - (* buy *)
    unfold buy. exec_step.
    change commission_rate with (1 # 1000).
    change (Decimal.add 1 (1 # 1000)) with (Decimal.add 1 commission_rate).
    rewrite one_plus_rate.
    destruct (Decimal.gtb _ (current_balance (simulation s))) eqn:Hg.
    + destruct (Qeq_dec (Decimal.mul price (1001 # 1000)) 0) as [Hz | Hz].
      * left. rewrite (divide_zero _ _ Hz).
        split; [reflexivity |]. split; [reflexivity |].
        exact (clamp_fails _ _ _ Hg Hz).
      * right. rewrite (divide_nonzero _ _ Hz).
        do 3 exec_step.
        match goal with
        | |- context [if Decimal.leb ?q 0 then _ else _] =>
            destruct (Decimal.leb q 0) eqn:Hpos; [left; reflexivity | right]
        end.
        pose proof Hpos as Hpos'. apply leb_false in Hpos'.
        do 2 exec_step.
        destruct (Decimal.gtb (current_shares (simulation s)) 0) eqn:Hs.
        -- rewrite (blend_divides _ _ _ Hs Hpos). booked_trade.
        -- booked_trade.
    + right. exec_step. rewrite Hq. right.
      pose proof Hq as Hq'. apply leb_false in Hq'.
      do 2 exec_step.
      destruct (Decimal.gtb (current_shares (simulation s)) 0) eqn:Hs.
      * rewrite (blend_divides _ _ _ Hs Hq). booked_trade.
      * booked_trade.
  - (* sell *)
    right. unfold sell. exec_step.
    set (quantity := if Decimal.gtb (d_quantity d) (current_shares (simulation s))
                     then current_shares (simulation s) else d_quantity d).
    destruct (Decimal.leb quantity 0) eqn:Hpos; [left; reflexivity | right].
    pose proof Hpos as Hpos'. apply leb_false in Hpos'.
    change commission_rate with (1 # 1000).
    do 2 exec_step.
    destruct (Decimal.gtb _ 0) eqn:Hw;
      [pose proof (gtb_not_ltb _ Hw) as Hl | destruct (Decimal.ltb _ 0) eqn:Hl];
      booked_trade; unfold won, lost; cbn; rewrite ?Hw, ?Hl; lia.
Qed.

(** ** Invariants of an attempt, in general *)

(** Reading the simulation gives the one of a session that satisfies
    the precondition. *)
Lemma hoare_get {B : Type} (P : Session -> Prop) (k : Simulation -> M B)
    (R : B -> Session -> Prop) (E : Exn -> Session -> Prop) :
  (forall x, (exists s, P s /\ simulation s = x) -> hoare P (k x) R E) ->
  hoare P (bind get_simulation k) R E.
Proof.
  intros H s Hs. unfold bind, get_simulation.
  apply (H (simulation s)); [exists s; auto | exact Hs].
Qed.

(** What holds of the session whenever the bookkeeping updates, the
    log, the flush, the refresh and the executions on the fetched days
    keep it, holds all along an attempt and at its end. *)
Section Attempt.
Variable env : Env.
Variable I : Session -> Prop.
Variable day_ok : KlinePoint.t -> Prop.
Hypothesis I_update : forall f, bookkeeping f -> preserves I (update f).
Hypothesis I_log : forall l m, preserves I (_add_log l m).
Hypothesis I_flush : preserves I db_flush.
Hypothesis I_refresh : forall n, preserves I (db_refresh env n).
Hypothesis I_trade :
  forall d k date,
    day_ok k -> KlinePoint.datetime k = Some date ->
    preserves I (_execute_trade d (KlinePoint.close k) date k).

Ltac attempt_step := preserve_step I_update I_log I_flush.

Lemma attempt_decision (idx : nat) (k : KlinePoint.t) (h : list KlinePoint.t) :
  preserves I (_make_trading_decision env idx k h).
Proof.
  unfold _make_trading_decision. repeat attempt_step; constructor.
Qed.

Lemma attempt_loop (sim_klines : list KlinePoint.t) :
  forall (rest : list KlinePoint.t) (idx : nat),
    Forall day_ok rest ->
    preserves I (trading_loop env sim_klines idx rest).
Proof.
  induction rest as [| kline rest' IH]; intros idx Hp; cbn [trading_loop].
  - apply preserves_ret.
  - inversion Hp as [| ? ? Hk Hrest]; subst.
    apply preserves_bind; [apply I_refresh | intros _].
    apply preserves_bind; [apply preserves_get | intros sim].
    destruct (Status_eqb (status sim) Stopped); [apply I_log |].
    destruct (Status_eqb (status sim) Paused); [apply I_log |].
    do 4 (apply preserves_bind; [apply I_log | intros _]).
    apply preserves_bind; [apply attempt_decision | intros decision].
    apply preserves_bind.
    + destruct decision as [d |]; [| apply I_log].
      apply preserves_bind; [apply I_log | intros _].
      destruct (d_reasoning d); try apply preserves_raise.
      apply preserves_bind; [apply I_log | intros _].
      destruct (KlinePoint.datetime kline) eqn:Hd;
        [apply I_trade; [exact Hk | exact Hd] | apply preserves_raise].
    + intros _. apply preserves_bind; [apply I_log | intros _].
      apply IH. exact Hrest.
Qed.

Lemma attempt_metrics : preserves I _calculate_metrics.
Proof.
  unfold _calculate_metrics. repeat attempt_step; constructor.
Qed.

Lemma attempt_finish : preserves I finish.
Proof.
  unfold finish.
  apply preserves_bind; [apply I_log | intros _].
  apply preserves_bind; [apply attempt_metrics | intros _].
  repeat attempt_step; constructor.
Qed.

Lemma attempt_handler (e : Exn) : preserves I (handler e).
Proof. unfold handler. repeat attempt_step; constructor. Qed.

(** The days [fetch_and_select] returns are chosen for the simulation
    as it stands when they are. *)
Hypothesis I_days :
  forall s l,
    I s -> get_kline env = Klines l ->
    Forall day_ok (fst (select_klines (simulation s) l)).

Lemma attempt_days :
  hoare I (fetch_and_select env)
    (fun sim_klines s => Forall day_ok sim_klines /\ I s) (fun _ => I).
Proof.
  unfold fetch_and_select.
  eapply hoare_bind; [apply I_update; constructor | intros ?; cbv beta].
  apply hoare_get. intros sim (s0 & Hs0 & <-).
  pose proof (fun l => I_days s0 l Hs0) as Hsel.
  do 3 (eapply hoare_bind; [apply I_log | intros ?; cbv beta]).
  eapply hoare_bind; [apply I_flush | intros ?; cbv beta].
  eapply hoare_bind; [apply I_log | intros ?; cbv beta].
  destruct (get_kline env) as [| l] eqn:Hk.
  - apply hoare_bind_raise. auto.
  - specialize (Hsel l). apply hoare_bind_ret.
    destruct (List.length l <? 20)%nat.
    + eapply hoare_bind; [apply I_log | intros ?; cbv beta].
      apply (hoare_raise InsufficientData _ (fun _ => I)).
    + eapply hoare_bind; [apply I_log | intros ?; cbv beta].
      destruct (select_klines (simulation s0) l) as [sim_klines fallback].
      cbn [fst] in Hsel.
      eapply hoare_bind.
      { destruct fallback; [apply I_log | apply (preserves_ret I)]. }
      intros ?; cbv beta.
      do 2 (eapply hoare_bind; [apply I_log | intros ?; cbv beta]).
      intros s Hs. split; [| assumption]. apply Hsel. reflexivity.
Qed.

Lemma attempt_try : preserves I (run_simulation_try env).
Proof.
  unfold run_simulation_try.
  eapply hoare_bind; [apply attempt_days |].
  intros sim_klines. cbv beta.
  eapply hoare_bind with (Q := fun _ => I); [| intros ?; apply attempt_finish].
  intros s [Hpr Hok]. apply (attempt_loop sim_klines sim_klines 0%nat Hpr s Hok).
Qed.

(** The attempt starts from the object as loaded: the store holds what
    the object holds. *)
Lemma attempt_run (s : Session) :
  I (mkSession (simulation s) (trades s) (simulation s) false) ->
  I (run_simulation env s).
Proof.
  intros Hs. unfold run_simulation.
  set (loaded := mkSession (simulation s) (trades s) (simulation s) false) in *.
  pose proof (attempt_try loaded Hs) as H.
  destruct (run_simulation_try env loaded) as [[] s' | e s'].
  - exact (I_flush s' H).
  - pose proof (attempt_handler e s' H) as H'.
    destruct (handler e s') as [[] s'' | e' s'']; exact (I_flush s'' H').
Qed.
End Attempt.

(** ** What an attempt keeps of the simulation *)

Lemma bookkeeping_identity (f : Simulation -> Simulation) :
  bookkeeping f -> forall x, identity (f x) = identity x.
Proof. intros Hf x. destruct Hf; reflexivity. Qed.

Lemma identity_fields (x y : Simulation) :
  identity y = identity x ->
  id y = id x /\ user_id y = user_id x /\ symbol y = symbol x /\
  start_date y = start_date x /\ end_date y = end_date x.
Proof.
  unfold identity. intros H. injection H. intros. repeat split; assumption.
Qed.

Lemma identity_update (c : Simulation) (f : Simulation -> Simulation) :
  bookkeeping f -> preserves (same_identity c) (update f).
Proof.
  intros Hf s [Hs Hr]. split; [| exact Hr].
  cbn. rewrite (bookkeeping_identity f Hf). exact Hs.
Qed.

Lemma identity_log (c : Simulation) (l : Level) (m : Message) :
  preserves (same_identity c) (_add_log l m).
Proof. intros s H. exact H. Qed.

(** A flush writes none of the columns of the identity. *)
Lemma identity_flush (c : Simulation) : preserves (same_identity c) db_flush.
Proof. intros s H. exact H. Qed.

(** A refresh reads them as the row has them. *)
Lemma identity_refresh (c : Simulation) (env : Env) (n : nat) :
  preserves (same_identity c) (db_refresh env n).
Proof. intros s [_ Hr]. split; exact Hr. Qed.

(** The identity through an execution. *)
Lemma identity_trade (c : Simulation) (d : Decision) (price : Q)
    (date : DateTime) (md : KlinePoint.t) :
  preserves (same_identity c) (_execute_trade d price date md).
Proof.
  intros s [Hs Hr].
  destruct (execute_trade_cases s d price date md)
    as [[-> _] | [-> | (t & s' & -> & _ & Hb & Hst & _)]];
    try (split; assumption).
  split.
  - rewrite (booked_identity _ _ _ _ _ _ _ Hb). exact Hs.
  - rewrite Hst. exact Hr.
Qed.

(** The identity all along an attempt, in the object and in the row. *)
Lemma run_simulation_identity (env : Env) (s : Session) :
  same_identity (simulation s) (run_simulation env s).
Proof.
  apply (attempt_run env (same_identity (simulation s)) (fun _ => True)).
  - intros f Hf. apply identity_update. exact Hf.
  - apply identity_log.
  - apply identity_flush.
  - apply identity_refresh.
  - intros d k date _ _. apply identity_trade.
  - intros s' l _ _. apply Forall_forall. intros; exact Logic.I.
  - split; reflexivity.
Qed.

(** X1.  An attempt changes none of the columns a simulation is created
    with: its id and owner, symbol, market, agent and model, initial
    balance and currency, period and configuration are at the end what
    they were, whether the attempt completes or fails. *)
Theorem attempt_keeps_identity (env : Env) (s : Session) :
  identity (simulation (run_simulation env s)) = identity (simulation s).
Proof. exact (proj1 (run_simulation_identity env s)). Qed.

(** The key and the owner of the row the task commits. *)
Lemma run_simulation_id (env : Env) (s : Session) :
  id (stored (run_simulation env s)) = id (simulation s) /\
  user_id (stored (run_simulation env s)) = user_id (simulation s).
Proof.
  pose proof (proj2 (run_simulation_identity env s)) as H.
  apply identity_fields in H. tauto.
Qed.




(** ** The metrics *)

(** The two ends of [_calculate_metrics]. *)
Lemma metrics_cases (s : Session) (ts : list Trade.t) :
  select_trades s = Return ts s ->
  match ts with
  | [] => _calculate_metrics s = Return tt s
  | first :: _ =>
      let x := simulation s in
      let unrealized :=
        if Decimal.gtb (current_shares x) 0 then
          Decimal.sub
            (Decimal.mul (current_shares x) (Trade.price (last ts first)))
            (Decimal.mul (current_shares x)
               (or_price (average_cost x) (Trade.price (last ts first))))
        else 0 in
      let values :=
        map (fun t =>
               Decimal.add (Trade.cash_after t)
                 (Decimal.mul (Trade.shares_after t) (Trade.price t))) ts in
      exists d,
        (forall s1, drawdown values (hd 0 values) 0 s1 = Return d s1) /\
        0 <= d /\
        _calculate_metrics s
        = Return tt
            (mkSession
               (set_max_drawdown (Some d)
                  (set_total_profit_loss
                     (Decimal.add (sum_realized ts) unrealized) x))
               (trades s) (stored s) (logs_assigned s))
  end.
Proof.
  intros Hsel.
  destruct ts as [| first rest];
    unfold _calculate_metrics, bind at 1; rewrite Hsel; [reflexivity |].
  cbv zeta.
  set (values := map _ (first :: rest)).
  destruct (drawdown_returns values (hd 0 values) 0) as (d & Hd & Hpos).
  exists d. split; [exact Hd |]. split; [exact Hpos |].
  cbv [bind get_simulation update]. cbn [simulation trades stored logs_assigned].
  rewrite Hd. reflexivity.
Qed.

(** The value of a portfolio that holds nothing negative. *)
Lemma portfolio_value_held (cash shares price : Q) :
  0 <= cash -> 0 <= shares -> 0 <= price ->
  held (Decimal.add cash (Decimal.mul shares price)).
Proof.
  intros Hc Hs Hp. apply held_rnd.
  assert (0 <= Decimal.mul shares price).
  { apply rnd_nonneg. apply Qmult_le_0_compat; assumption. }
  lra.
Qed.

(** X7.  When no trade of the simulation has left a negative cash or a
    negative number of shares, nor was made at a negative price, the
    maximum drawdown the metrics record lies between 0 and 1. *)
Theorem drawdown_within_unit (s : Session) (ts : list Trade.t) :
  select_trades s = Return ts s ->
  ts <> [] ->
  Forall (fun t => 0 <= Trade.cash_after t /\ 0 <= Trade.shares_after t /\
                   0 <= Trade.price t) ts ->
  exists s' d,
    _calculate_metrics s = Return tt s' /\
    max_drawdown (simulation s') = Some d /\
    0 <= d <= 1.
Proof.
  intros Hsel Hne Hall.
  pose proof (metrics_cases s ts Hsel) as H.
  destruct ts as [| first rest]; [contradiction |].
  cbv zeta in H. destruct H as (d & Hd & Hpos & ->).
  eexists _, d. split; [reflexivity |]. split; [reflexivity |].
  split; [exact Hpos |].
  set (values := map _ (first :: rest)) in Hd.
  assert (Hv : Forall held values).
  { subst values. apply Forall_map. rewrite Forall_forall in *.
    intros t Ht. destruct (Hall t Ht) as (Hc & Hs & Hp).
    apply portfolio_value_held; assumption. }
  apply (drawdown_bounded values Hv (hd 0 values) 0 d s).
  - subst values. cbn [map hd].
    destruct (Forall_inv Hall) as (Hc & Hs & Hp).
    apply portfolio_value_held; assumption.
  - discriminate.
  - apply Hd.
Qed.

(** The purchase and the sale of the example. *)
Lemma drawdown_within_unit_witness :
  exists s' d,
    _calculate_metrics example_run = Return tt s' /\
    max_drawdown (simulation s') = Some d /\
    0 <= d <= 1.
Proof.
  apply (drawdown_within_unit example_run (trades example_run)).
  - vm_compute. reflexivity.
  - vm_compute. discriminate.
  - vm_compute. repeat constructor; discriminate.
Defined.

(** A sum of realized results is a number of the context. *)
Lemma sum_realized_rounded (l : list Trade.t) :
  Decimal.rnd (sum_realized l) == sum_realized l.
Proof.
  unfold sum_realized.
  destruct (rev l) as [| t l'] eqn:Hrev.
  - apply (f_equal (@rev _)) in Hrev. rewrite rev_involutive in Hrev.
    subst l. reflexivity.
  - apply (f_equal (@rev _)) in Hrev. rewrite rev_involutive in Hrev.
    subst l. cbn [rev]. rewrite fold_left_app. cbn [fold_left].
    unfold Decimal.add at 1 3. apply rnd_idem_any.
Qed.

(** X8.  When the simulation holds no share, the total profit the
    metrics record is the sum of the realized results of its trades,
    buys counting for zero; nothing unrealized is added. *)
Theorem closed_position_profit (s : Session) (ts : list Trade.t) :
  select_trades s = Return ts s ->
  ts <> [] ->
  current_shares (simulation s) <= 0 ->
  exists s',
    _calculate_metrics s = Return tt s' /\
    total_profit_loss (simulation s') == sum_realized ts.
Proof.
  intros Hsel Hne Hflat.
  pose proof (metrics_cases s ts Hsel) as H.
  destruct ts as [| first rest]; [contradiction |].
  cbv zeta in H. destruct H as (d & _ & _ & ->).
  eexists. split; [reflexivity |].
  cbn [simulation total_profit_loss set_max_drawdown set_total_profit_loss].
  apply gtb_false in Hflat. rewrite Hflat.
  unfold Decimal.add at 1.
  assert (E : sum_realized (first :: rest) + 0 == sum_realized (first :: rest))
    by ring.
  rewrite (rnd_comp _ _ E). apply sum_realized_rounded.
Qed.

(** Ten shares bought and sold again. *)
Lemma closed_position_profit_witness :
  exists s',
    _calculate_metrics sale_of_free_share = Return tt s' /\
    total_profit_loss (simulation s')
    == sum_realized (trades sale_of_free_share).
Proof.
  apply (closed_position_profit sale_of_free_share (trades sale_of_free_share)).
  - vm_compute. reflexivity.
  - vm_compute. discriminate.
  - vm_compute. discriminate.
Defined.

(** ** What the store keeps of the log *)

Lemma bookkeeping_logs (f : Simulation -> Simulation) :
  bookkeeping f -> forall x, execution_logs (f x) = execution_logs x.
Proof. intros Hf x. destruct Hf; reflexivity. Qed.

Lemma settled_update (l : list LogEntry) (f : Simulation -> Simulation) :
  bookkeeping f -> preserves (log_settled l) (update f).
Proof.
  intros Hf s (Hr & Ha & Ho). repeat split; try assumption.
  cbn. rewrite (bookkeeping_logs f Hf). exact Ho.
Qed.

(** An entry appended to a log that is there is not an assignment. *)
Lemma settled_log (l : list LogEntry) (lv : Level) (m : Message) :
  preserves (log_settled l) (_add_log lv m).
Proof.
  intros s (Hr & Ha & Ho). split; [exact Hr |]. split.
  - cbn. destruct (execution_logs (simulation s)); [exact Ha | contradiction].
  - cbn. discriminate.
Qed.

(** A flush does not write a log that was not assigned. *)
Lemma settled_flush (l : list LogEntry) : preserves (log_settled l) db_flush.
Proof.
  intros s (Hr & Ha & Ho). split; [| split; [reflexivity | exact Ho]].
  cbn. rewrite Ha. exact Hr.
Qed.

(** A refresh gives the object the log of the row. *)
Lemma settled_refresh (l : list LogEntry) (env : Env) (n : nat) :
  preserves (log_settled l) (db_refresh env n).
Proof.
  intros s (Hr & Ha & Ho). split; [exact Hr |]. split; [reflexivity |].
  cbn. rewrite Hr. discriminate.
Qed.

Lemma settled_trade (l : list LogEntry) (d : Decision) (price : Q)
    (date : DateTime) (md : KlinePoint.t) :
  preserves (log_settled l) (_execute_trade d price date md).
Proof.
  intros s (Hr & Ha & Ho).
  destruct (execute_trade_cases s d price date md)
    as [[-> _] | [-> | (t & s' & -> & _ & Hb & Hst & Hfl)]];
    try (repeat split; assumption).
  split; [| split; [exact Hfl | exact (booked_logged _ _ _ _ _ _ _ Hb)]].
  rewrite Hst.
  destruct (execution_logs (simulation s)); [| contradiction].
  rewrite Ha. exact Hr.
Qed.

Lemma Forall_True {A : Type} (l : list A) : Forall (fun _ => True) l.
Proof. apply Forall_forall. intros; exact Logic.I. Qed.

(** The start of an attempt on a simulation without a log: the three
    entries are flushed, and the log is settled from then on. *)
Lemma settled_start (env : Env) (s : Session) :
  execution_logs (simulation s) = None ->
  match fetch_and_select env
          (mkSession (simulation s) (trades s) (simulation s) false) with
  | Return _ s' => log_settled (start_entries (simulation s)) s'
  | Raised _ s' => log_settled (start_entries (simulation s)) s'
  end.
Proof.
  intros Hnone. unfold fetch_and_select.
  do 6 exec_step.
  match goal with
  | |- match ?tail ?s6 with _ => _ end =>
      assert (Ht : preserves (log_settled (start_entries (simulation s))) tail)
  end.
  { repeat (preserve_step
              (settled_update (start_entries (simulation s)))
              (settled_log (start_entries (simulation s)))
              (settled_flush (start_entries (simulation s))));
      constructor. }
  apply Ht. unfold log_settled.
  split; [| split; [assumption |]]; unwind;
    cbn [simulation stored logs_assigned]; cbn; rewrite ?Hnone.
  - reflexivity.
  - discriminate.
Qed.

(** X29.  Of the execution log the store keeps what the first flush of
    the first attempt has written, and nothing after.  For a simulation
    that has no log yet these are the three entries of the start; for
    one that has a log, as when it was paused and resumed, the stored
    log stays what it was.  Every later entry is appended in place to
    the list of the object, is not written by any flush and is dropped
    from the object by the next [db.refresh]; so whatever the attempt
    does and however it ends, the days, the decisions, the trades, the
    results and the failure are absent from the log the task
    commits. *)
Theorem store_keeps_first_flush_of_log (env : Env) (s : Session) :
  execution_logs (stored (run_simulation env s))
  = Some match execution_logs (simulation s) with
         | None => start_entries (simulation s)
         | Some l => l
         end.
Proof.
  destruct (execution_logs (simulation s)) as [l |] eqn:Hlog.
  - (* the log is there: nothing is ever assigned *)
    apply (attempt_run env (log_settled l) (fun _ => True)).
    + apply settled_update.
    + apply settled_log.
    + apply settled_flush.
    + apply settled_refresh.
    + intros d k date _ _. apply settled_trade.
    + intros s' l' _ _. apply Forall_True.
    + split; [exact Hlog |]. split; [reflexivity |].
      cbn [simulation]. rewrite Hlog. discriminate.
  - (* the first attempt: the start is flushed *)
    set (L := start_entries (simulation s)).
    unfold run_simulation.
    set (loaded := mkSession (simulation s) (trades s) (simulation s) false).
    assert (Htry : match run_simulation_try env loaded with
                   | Return _ s' => log_settled L s'
                   | Raised _ s' => log_settled L s'
                   end).
    { unfold run_simulation_try, bind at 1.
      pose proof (settled_start env s Hlog) as H0. fold loaded L in H0.
      destruct (fetch_and_select env loaded) as [sim_klines s1 | e s1];
        [| exact H0].
      apply (preserves_bind (log_settled L)); [| | exact H0].
      - apply (attempt_loop env (log_settled L) (fun _ => True)).
        + apply settled_update.
        + apply settled_log.
        + apply settled_refresh.
        + intros d k date _ _. apply settled_trade.
        + apply Forall_True.
      - intros _. apply attempt_finish;
          [apply settled_update | apply settled_log]. }
    destruct (run_simulation_try env loaded) as [[] s' | e s'].
    + exact (proj1 (settled_flush L s' Htry)).
    + pose proof (attempt_handler (log_settled L) (settled_update L)
                    (settled_log L) e s' Htry) as H.
      destruct (handler e s') as [[] s'' | e' s''];
        exact (proj1 (settled_flush L s'' H)).
Qed.

(** ** Executions at the edges *)

(** X11.  An execution is all or nothing.  Either the session is left
    exactly as it was, whether the call returns or raises; or one trade
    is appended whose snapshots are the shares and the cash of the
    simulation before and after it, and [total_trades] goes up by one.
    Cash or shares never change without a trade being recorded. *)
Theorem execution_is_all_or_nothing (s : Session) (d : Decision) (price : Q)
    (date : DateTime) (md : KlinePoint.t) :
  final (_execute_trade d price date md s) = s \/
  exists (t : Trade.t) (s' : Session),
    _execute_trade d price date md s = Return tt s' /\
    trades s' = trades s ++ [t] /\
    Trade.shares_before t = current_shares (simulation s) /\
    Trade.cash_before t = current_balance (simulation s) /\
    Trade.shares_after t = current_shares (simulation s') /\
    Trade.cash_after t = current_balance (simulation s') /\
    total_trades (simulation s') = (total_trades (simulation s) + 1)%Z.
Proof.
  destruct (execute_trade_cases s d price date md)
    as [[E _] | [E | (t & s' & E & Ht & Hb & _ & _)]].
  - left. rewrite E. reflexivity.
  - left. rewrite E. reflexivity.
  - right. exists t, s'. split; [exact E |]. split; [exact Ht |].
    destruct Hb. repeat split; auto.
Qed.

(** X12.  A sell decision on a simulation that holds no share does
    nothing: no trade, no log entry, cash and counters as they were. *)
Theorem sell_without_shares (s : Session) (d : Decision) (price : Q)
    (date : DateTime) (md : KlinePoint.t) :
  d_action d = Sell ->
  current_shares (simulation s) <= 0 ->
  _execute_trade d price date md s = Return tt s.
Proof.
  intros Ha Hs. unfold _execute_trade. rewrite Ha.
  destruct (Decimal.leb (d_quantity d) 0) eqn:Hq; [reflexivity |].
  apply leb_false in Hq.
  unfold sell. cbv [bind get_simulation].
  assert (Hg : Decimal.gtb (d_quantity d) (current_shares (simulation s)) = true)
    by (apply gtb_true; lra).
  rewrite Hg.
  assert (Hl : Decimal.leb (current_shares (simulation s)) 0 = true)
    by (apply leb_true; exact Hs).
  rewrite Hl. reflexivity.
Qed.

Lemma sell_without_shares_witness :
  _execute_trade (mkDecision Sell 10 (1 # 2) EmptyString 0 0) 100
    (mkDateTime 2026 2 2 0 0 0) (day 2 100) fresh
  = Return tt fresh.
Proof.
  apply sell_without_shares; [reflexivity | vm_compute; discriminate].
Defined.

(** X13.  A buy decision at a positive price on a simulation without
    cash does nothing: the quantity it could afford is not positive. *)
Theorem buy_without_cash (s : Session) (d : Decision) (price : Q)
    (date : DateTime) (md : KlinePoint.t) :
  d_action d = Buy ->
  current_balance (simulation s) <= 0 ->
  0 < price ->
  _execute_trade d price date md s = Return tt s.
Proof.
  intros Ha Hc Hp. unfold _execute_trade. rewrite Ha.
  destruct (Decimal.leb (d_quantity d) 0) eqn:Hq; [reflexivity |].
  pose proof Hq as Hq'. apply leb_false in Hq'.
  unfold buy. cbv [bind get_simulation].
  change commission_rate with (1 # 1000).
  change (Decimal.add 1 (1 # 1000)) with (Decimal.add 1 commission_rate).
  rewrite one_plus_rate.
  assert (Hcost : 0 < Decimal.mul (d_quantity d) price).
  { apply rnd_pos. apply Qmult_lt_0_compat; assumption. }
  assert (Htotal : 0 < Decimal.add (Decimal.mul (d_quantity d) price)
                         (Decimal.mul (Decimal.mul (d_quantity d) price) (1 # 1000))).
  { apply rnd_pos.
    assert (0 <= Decimal.mul (Decimal.mul (d_quantity d) price) (1 # 1000)).
    { apply rnd_nonneg. apply Qmult_le_0_compat; [lra | discriminate]. }
    lra. }
  assert (Hg : Decimal.gtb
                 (Decimal.add (Decimal.mul (d_quantity d) price)
                    (Decimal.mul (Decimal.mul (d_quantity d) price) (1 # 1000)))
                 (current_balance (simulation s)) = true)
    by (apply gtb_true; lra).
  rewrite Hg.
  assert (Hden : 0 < Decimal.mul price (1001 # 1000)).
  { apply rnd_pos. apply Qmult_lt_0_compat; [exact Hp | reflexivity]. }
  rewrite divide_nonzero by lra. cbv [ret].
  assert (Hz : Decimal.leb
                 (Decimal.rnd
                    (Decimal.mul (current_balance (simulation s)) (99 # 100)
                     / Decimal.mul price (1001 # 1000))) 0 = true).
  { apply leb_true. apply rnd_nonpos.
    assert (Hnum : Decimal.mul (current_balance (simulation s)) (99 # 100) <= 0).
    { apply rnd_nonpos.
      setoid_replace 0 with (0 * (99 # 100)) by ring.
      apply Qmult_le_compat_r; [exact Hc | discriminate]. }
    unfold Qdiv.
    setoid_replace 0 with (0 * / Decimal.mul price (1001 # 1000)) by ring.
    apply Qmult_le_compat_r; [exact Hnum |].
    apply Qlt_le_weak, Qinv_lt_0_compat. exact Hden. }
  rewrite Hz. reflexivity.
Qed.

(** The cash spent to the last cent. *)
Lemma buy_without_cash_witness :
  _execute_trade (mkDecision Buy 10 (1 # 2) EmptyString 0 0) 100
    (mkDateTime 2026 2 2 0 0 0) (day 2 100)
    (mkSession (set_current_balance 0 (simulation fresh)) []
       (set_current_balance 0 (simulation fresh)) false)
  = Return tt
      (mkSession (set_current_balance 0 (simulation fresh)) []
         (set_current_balance 0 (simulation fresh)) false).
Proof.
  apply buy_without_cash;
    [reflexivity | vm_compute; discriminate | reflexivity].
Defined.

(** ** The decision *)

(** X14.  A decision is returned only for an answer that parses and
    whose action is, in any case of letters, buy or sell.  Its action is
    that one, its quantity the one of the answer (zero when the answer
    has none), and the tokens and the cost it carries are those the
    call reported.  Whatever the answer, the call does not raise and
    touches neither the trades nor the cash nor the shares. *)
Theorem decision_only_on_request (env : Env) (idx : nat) (k : KlinePoint.t)
    (h : list KlinePoint.t) (s : Session) :
  exists (r : option (Decision_of Json)) (s' : Session),
    _make_trading_decision env idx k h s = Return r s' /\
    trades s' = trades s /\
    current_balance (simulation s') = current_balance (simulation s) /\
    current_shares (simulation s') = current_shares (simulation s) /\
    forall d, r = Some d ->
      exists tokens cost j a,
        llm_chat env idx (simulation s) k (last_n 10 h)
        = ChatJson tokens cost (Some j) /\
        j_action j = Some a /\
        (lower a = "buy"%string /\ d_action d = Buy \/
         lower a = "sell"%string /\ d_action d = Sell) /\
        d_quantity d = get_or (j_quantity_shares j) 0 /\
        d_tokens_used d = tokens /\
        d_llm_cost d = cost /\
        total_tokens_used (simulation s')
        = (total_tokens_used (simulation s) + tokens)%Z.
Proof.
  unfold _make_trading_decision. cbv [bind get_simulation].
  destruct (llm_chat env idx (simulation s) k (last_n 10 h))
    as [| tokens cost parsed] eqn:Hr.
  - exists None, s. repeat split; try reflexivity. discriminate.
  - cbv [update]. cbn [simulation trades stored logs_assigned].
    destruct parsed as [j |].
    + cbv zeta.
      destruct (j_action j) as [a |] eqn:Hj; cbn [get_or].
      * destruct (String.eqb (lower a) "buy") eqn:Hb.
        -- cbn [orb]. rewrite Hb.
           apply String.eqb_eq in Hb. rewrite Hb. cbn [String.eqb Ascii.eqb].
           cbn. eexists _, _. split; [reflexivity |].
           repeat split; try reflexivity.
           intros d [= <-]. exists tokens, cost, j, a.
           repeat split; try reflexivity; try assumption.
           left. split; [exact Hb | reflexivity].
        -- destruct (String.eqb (lower a) "sell") eqn:Hs.
           ++ cbn [orb]. rewrite Hb.
              apply String.eqb_eq in Hs. rewrite Hs.
              cbn. eexists _, _. split; [reflexivity |].
              repeat split; try reflexivity.
              intros d [= <-]. exists tokens, cost, j, a.
              repeat split; try reflexivity; try assumption.
              right. split; [exact Hs | reflexivity].
           ++ cbn [orb].
              destruct (String.eqb (lower a) "hold") eqn:Hh.
              ** rewrite Hh. eexists _, _. split; [reflexivity |].
                 repeat split; try reflexivity. discriminate.
              ** cbn. eexists _, _. split; [reflexivity |].
                 repeat split; try reflexivity. discriminate.
      * cbn. eexists _, _. split; [reflexivity |].
        repeat split; try reflexivity. discriminate.
    + eexists _, _. split; [reflexivity |].
      repeat split; try reflexivity. discriminate.
Qed.

(** ** The days the oracle is shown *)

(** X15.  On the day of index [idx] the oracle is shown at most ten
    points: the days [idx - 9] to [idx] of the loop (from the first day
    on, when there are fewer), the current day last.  The lookback of
    twenty days the loop takes is cut to that. *)
Theorem prompt_window (sim_klines : list KlinePoint.t) (idx : nat)
    (kline : KlinePoint.t) :
  nth_error sim_klines idx = Some kline ->
  let window := last_n 10 (slice (idx - 20) (idx + 1) sim_klines) in
  window = slice (idx - 9) (idx + 1) sim_klines /\
  List.length window = Nat.min 10 (idx + 1) /\
  nth_error window (List.length window - 1) = Some kline.
Proof.
  intros Hk window.
  assert (Hlt : (idx < List.length sim_klines)%nat).
  { apply nth_error_Some. rewrite Hk. discriminate. }
  assert (Hw : window = slice (idx - 9) (idx + 1) sim_klines).
  { subst window. unfold last_n, slice.
    rewrite length_firstn, length_skipn.
    rewrite skipn_firstn_comm, skipn_skipn.
    f_equal; [lia | f_equal; lia]. }
  assert (Hlen : List.length window = Nat.min 10 (idx + 1)).
  { rewrite Hw. unfold slice. rewrite length_firstn, length_skipn. lia. }
  split; [exact Hw |]. split; [exact Hlen |].
  rewrite Hlen. rewrite Hw. unfold slice.
  rewrite nth_error_firstn.
  assert (Hi : (Nat.min 10 (idx + 1) - 1 <? idx + 1 - (idx - 9))%nat = true)
    by (apply Nat.ltb_lt; lia).
  rewrite Hi. rewrite nth_error_skipn.
  replace (idx - 9 + (Nat.min 10 (idx + 1) - 1))%nat with idx by lia.
  exact Hk.
Qed.

(** The twelfth of the twenty flat days. *)
Lemma prompt_window_witness :
  let window := last_n 10 (slice (11 - 20) (11 + 1) flat_klines) in
  window = slice (11 - 9) (11 + 1) flat_klines /\
  List.length window = Nat.min 10 (11 + 1) /\
  nth_error window (List.length window - 1) = Some (day 12 100).
Proof.
  apply (prompt_window flat_klines 11 (day 12 100)). reflexivity.
Defined.

(** ** The store under requests and tasks *)

Lemma find_simulation_some (simulation_id user : Z) (w : World) (x : Simulation) :
  find_simulation simulation_id user w = Some x ->
  In x (simulations w) /\ id x = simulation_id /\ user_id x = user.
Proof.
  unfold find_simulation. intros H. apply find_some in H.
  destruct H as (Hin & Ht). apply andb_true_iff in Ht.
  destruct Ht as (Hi & Hu). apply Z.eqb_eq in Hi, Hu. auto.
Qed.

(** The row a commit writes is the one a query by its key finds. *)
Lemma find_commit (x row : Simulation) (l : list Simulation) :
  find (fun y => (id y =? id x)%Z) l = Some row ->
  find (fun y => (id y =? id x)%Z)
    (map (fun y => if (id y =? id x)%Z then x else y) l)
  = Some x.
Proof.
  induction l as [| y l IH]; cbn [find map]; [discriminate |].
  destruct (id y =? id x)%Z eqn:E.
  - intros _. rewrite Z.eqb_refl. reflexivity.
  - intros H. rewrite E. apply IH. exact H.
Qed.

(** X17.  Two tasks queued for one simulation and run one after the
    other make at most one attempt: whatever the first does, the second
    changes no row and no trade, and only leaves the queue. *)
Theorem second_task_does_nothing (env env' : Env) (w : World) (i : Z)
    (rest : list Z) :
  queue w = i :: i :: rest ->
  let w1 := run_trading_simulation env w in
  let w2 := run_trading_simulation env' w1 in
  simulations w2 = simulations w1 /\
  trades_table w2 = trades_table w1 /\
  queue w2 = rest.
Proof.
  intros Hq. cbv zeta.
  set (w1 := run_trading_simulation env w).
  assert (H1 : queue w1 = i :: rest /\
               match find (fun x => (id x =? i)%Z) (simulations w1) with
               | Some r => Status_eqb (status r) Pending = false
               | None => True
               end).
  { subst w1. unfold run_trading_simulation. rewrite Hq. cbv zeta.
    cbn [simulations trades_table queue].
    destruct (find (fun x => (id x =? i)%Z) (simulations w)) as [row |] eqn:Hrow.
    - destruct (Status_eqb (status row) Pending) eqn:Hp; cbn [negb].
      + (* the first task runs the engine *)
        set (s := run_simulation env
                    (mkSession row (trades_table w) row false)).
        assert (Hid : id (stored s) = i).
        { subst s. rewrite (proj1 (run_simulation_id _ _)). cbn [simulation].
          apply find_some in Hrow. apply Z.eqb_eq. apply Hrow. }
        assert (Hst : Status_eqb (status (stored s)) Pending = false).
        { subst s.
          destruct (run_simulation_final_status env
                      (mkSession row (trades_table w) row false))
            as [[E | E] ->]; rewrite E; reflexivity. }
        unfold commit. cbn [simulations trades_table queue].
        split; [reflexivity |].
        rewrite <- Hid in Hrow |- *.
        rewrite (find_commit _ _ _ Hrow). exact Hst.
      + cbn [simulations queue]. split; [reflexivity |]. rewrite Hrow. exact Hp.
    - cbn [simulations queue]. split; [reflexivity |]. rewrite Hrow. exact Logic.I. }
  destruct H1 as (Hq1 & Hf1).
  unfold run_trading_simulation. rewrite Hq1. cbv zeta.
  cbn [simulations trades_table queue].
  destruct (find (fun x => (id x =? i)%Z) (simulations w1)) as [r |].
  - rewrite Hf1. cbn [negb simulations trades_table queue]. auto.
  - cbn [simulations trades_table queue]. auto.
Qed.

Lemma second_task_does_nothing_witness :
  let w1 := run_trading_simulation silent_env started_twice in
  let w2 := run_trading_simulation eager_env_of_flat w1 in
  simulations w2 = simulations w1 /\
  trades_table w2 = trades_table w1 /\
  queue w2 = [].
Proof.
  apply (second_task_does_nothing silent_env eager_env_of_flat started_twice 1 []).
  reflexivity.
Defined.

From Stdlib Require Import Permutation Sorted.

(** ** Whose simulation it is *)

Lemma find_simulation_none (simulation_id user : Z) (w : World) :
  (forall x, In x (simulations w) -> id x = simulation_id -> user_id x <> user) ->
  find_simulation simulation_id user w = None.
Proof.
  intros H. destruct (find_simulation simulation_id user w) as [x |] eqn:Hx;
    [| reflexivity].
  apply find_simulation_some in Hx. destruct Hx as (Hin & Hi & Hu).
  exfalso. exact (H x Hin Hi Hu).
Qed.

(** X18.  To a user who does not own it a simulation does not exist:
    each lifecycle command, the deletion and the reading of its trades
    answer 404, and the store is left as it was. *)
Theorem strangers_get_not_found (c : Command) (simulation_id user : Z)
    (w : World) :
  (forall x, In x (simulations w) -> id x = simulation_id -> user_id x <> user) ->
  handle c simulation_id user w = (NotFound, w) /\
  delete_simulation simulation_id user w = (Missing, w) /\
  get_simulation_trades simulation_id user w = Missing.
Proof.
  intros H. pose proof (find_simulation_none simulation_id user w H) as Hnone.
  unfold delete_simulation, get_simulation_trades. rewrite Hnone.
  split; [| split; reflexivity].
  destruct c; cbn [handle];
    unfold start_simulation, pause_simulation, resume_simulation, stop_simulation;
    rewrite Hnone; reflexivity.
Qed.

(** The second user asks for the simulation of the first. *)
Lemma strangers_get_not_found_witness :
  handle stop 1 2 two_owners = (NotFound, two_owners) /\
  delete_simulation 1 2 two_owners = (Missing, two_owners) /\
  get_simulation_trades 1 2 two_owners = Missing.
Proof.
  apply strangers_get_not_found.
  intros x [<- | [<- | []]]; cbn; intros; discriminate.
Defined.

(** Rows of one key are one row, when the keys are unique. *)
Lemma same_key_same_row (l : list Simulation) (x y : Simulation) :
  NoDup (map id l) -> In x l -> In y l -> id x = id y -> x = y.
Proof.
  induction l as [| z l IH]; cbn [map]; intros Hnd Hx Hy E; [contradiction |].
  inversion Hnd as [| ? ? Hnot Hnd']; subst.
  destruct Hx as [-> | Hx], Hy as [-> | Hy].
  - reflexivity.
  - exfalso. apply Hnot. rewrite E. apply in_map. exact Hy.
  - exfalso. apply Hnot. rewrite <- E. apply in_map. exact Hx.
  - apply IH; assumption.
Qed.

(** X19.  With unique keys, a lifecycle command or a deletion by one user
    leaves every simulation of every other user in the store, unchanged;
    a deletion also leaves their trades. *)
Theorem requests_touch_own_rows_only (c : Command) (simulation_id user : Z)
    (w : World) (y : Simulation) :
  NoDup (map id (simulations w)) ->
  In y (simulations w) ->
  user_id y <> user ->
  In y (simulations (snd (handle c simulation_id user w))) /\
  In y (simulations (snd (delete_simulation simulation_id user w))) /\
  forall t, In t (trades_table w) -> Trade.simulation_id t = id y ->
            In t (trades_table (snd (delete_simulation simulation_id user w))).
Proof.
  intros Hnd Hy Hu.
  assert (Hother :
    forall x, find_simulation simulation_id user w = Some x -> id y <> id x).
  { intros x Hx E. apply find_simulation_some in Hx.
    destruct Hx as (Hin & _ & Hux).
    pose proof (same_key_same_row _ _ _ Hnd Hy Hin E) as ->. contradiction. }
  assert (Hcommit :
    forall x x', find_simulation simulation_id user w = Some x ->
                 id x' = id x -> In y (simulations (commit x' w))).
  { intros x x' Hx Hid. unfold commit. cbn [simulations].
    apply in_map_iff. exists y. split; [| exact Hy].
    pose proof (Hother x Hx) as Hne. rewrite Hid.
    apply Z.eqb_neq in Hne. rewrite Hne. reflexivity. }
  split; [| split].
  - destruct c; cbn [handle];
      unfold start_simulation, pause_simulation, resume_simulation, stop_simulation;
      destruct (find_simulation simulation_id user w) as [x |] eqn:Hx;
      try exact Hy;
      destruct (negb _); try exact Hy; cbn [snd delay simulations];
      try (apply (Hcommit x _ eq_refl); reflexivity).
  - unfold delete_simulation.
    destruct (find_simulation simulation_id user w) as [x |] eqn:Hx;
      [| exact Hy].
    cbn [snd simulations]. apply filter_In. split; [exact Hy |].
    apply negb_true_iff. apply Z.eqb_neq. apply (Hother x eq_refl).
  - intros t Ht Et. unfold delete_simulation.
    destruct (find_simulation simulation_id user w) as [x |] eqn:Hx;
      [| exact Ht].
    cbn [snd trades_table]. apply filter_In. split; [exact Ht |].
    apply negb_true_iff. apply Z.eqb_neq. rewrite Et. apply (Hother x eq_refl).
Qed.

(** The first user stops and deletes; the second user's simulation
    stays. *)
Lemma requests_touch_own_rows_only_witness :
  let y := create_simulation 2 2 "600519" "cn" "minimax" None in
  In y (simulations (snd (handle stop 1 1 two_owners))) /\
  In y (simulations (snd (delete_simulation 1 1 two_owners))) /\
  forall t, In t (trades_table two_owners) -> Trade.simulation_id t = id y ->
            In t (trades_table (snd (delete_simulation 1 1 two_owners))).
Proof.
  apply (requests_touch_own_rows_only stop 1 1 two_owners).
  - cbn. repeat constructor; cbn; intuition discriminate.
  - right. left. reflexivity.
  - cbn. discriminate.
Defined.

(** X20.  The owner's deletion removes the simulation and its trades:
    afterwards no user finds a simulation of that key, no trade refers
    to it, every other row and every other trade is still there, and the
    queue is as it was. *)
Theorem delete_removes_row_and_trades (simulation_id user : Z) (w : World)
    (x : Simulation) :
  find_simulation simulation_id user w = Some x ->
  let w' := snd (delete_simulation simulation_id user w) in
  fst (delete_simulation simulation_id user w) = Found tt /\
  (forall user', find_simulation simulation_id user' w' = None) /\
  (forall y, In y (simulations w') <->
             In y (simulations w) /\ id y <> simulation_id) /\
  (forall t, In t (trades_table w') <->
             In t (trades_table w) /\ Trade.simulation_id t <> simulation_id) /\
  queue w' = queue w.
Proof.
  intros Hx. cbv zeta. unfold delete_simulation. rewrite Hx. cbn [fst snd].
  apply find_simulation_some in Hx. destruct Hx as (Hin & Hi & Hu).
  rewrite Hi.
  assert (Hrows :
    forall y,
      In y (filter (fun y => negb (id y =? simulation_id)%Z) (simulations w)) <->
      In y (simulations w) /\ id y <> simulation_id).
  { intros y. rewrite filter_In, negb_true_iff, Z.eqb_neq. reflexivity. }
  split; [reflexivity |]. split; [| split; [| split]].
  - intros user'. apply find_simulation_none. cbn [simulations].
    intros y Hy E. apply Hrows in Hy. tauto.
  - cbn [simulations]. exact Hrows.
  - cbn [trades_table]. intros t.
    rewrite filter_In, negb_true_iff, Z.eqb_neq. reflexivity.
  - reflexivity.
Qed.

Lemma delete_removes_row_and_trades_witness :
  let w' := snd (delete_simulation 1 1 two_owners) in
  fst (delete_simulation 1 1 two_owners) = Found tt /\
  (forall user', find_simulation 1 user' w' = None) /\
  (forall y, In y (simulations w') <->
             In y (simulations two_owners) /\ id y <> 1%Z) /\
  (forall t, In t (trades_table w') <->
             In t (trades_table two_owners) /\ Trade.simulation_id t <> 1%Z) /\
  queue w' = queue two_owners.
Proof.
  apply (delete_removes_row_and_trades 1 1 two_owners
           (create_simulation 1 1 "AAPL" "us" "deepseek" None)).
  reflexivity.
Defined.

(** ** The order of the trades *)

Lemma lex_leb_total (a b : list Z) : lex_leb a b = false -> lex_leb b a = true.
Proof.
  revert b. induction a as [| x a IH]; intros [| y b]; cbn [lex_leb];
    try discriminate.
  destruct (x <? y)%Z eqn:E1; [discriminate |].
  destruct (y <? x)%Z eqn:E2; [reflexivity |].
  apply IH.
Qed.

Lemma insert_by_date_perm (t : Trade.t) (l : list Trade.t) :
  Permutation (insert_by_date t l) (t :: l).
Proof.
  induction l as [| u l IH]; cbn [insert_by_date]; [reflexivity |].
  destruct (DateTime_leb _ _); [| reflexivity].
  rewrite IH. apply perm_swap.
Qed.

Lemma order_by_trade_date_perm (l : list Trade.t) :
  Permutation (order_by_trade_date l) l.
Proof.
  unfold order_by_trade_date.
  assert (H : forall acc, Permutation (fold_left (fun acc t => insert_by_date t acc) l acc)
                            (acc ++ l)).
  { induction l as [| t l IH]; intros acc; cbn [fold_left].
    - rewrite app_nil_r. reflexivity.
    - rewrite IH. rewrite insert_by_date_perm.
      cbn [app]. apply Permutation_middle. }
  apply (H []).
Qed.

Lemma insert_by_date_sorted (t : Trade.t) (l : list Trade.t) :
  Sorted (fun a b => DateTime_leb (Trade.trade_date a) (Trade.trade_date b) = true) l ->
  Sorted (fun a b => DateTime_leb (Trade.trade_date a) (Trade.trade_date b) = true)
    (insert_by_date t l).
Proof.
  induction l as [| u l IH]; intros Hs; cbn [insert_by_date].
  - repeat constructor.
  - destruct (DateTime_leb (Trade.trade_date u) (Trade.trade_date t)) eqn:E.
    + inversion Hs as [| ? ? Hs' Hhd]; subst. constructor; [apply IH; exact Hs' |].
      destruct l as [| v l]; cbn [insert_by_date].
      * constructor. exact E.
      * destruct (DateTime_leb (Trade.trade_date v) (Trade.trade_date t)).
        -- constructor. inversion Hhd; assumption.
        -- constructor. exact E.
    + constructor; [exact Hs |]. constructor.
      unfold DateTime_leb in *. apply lex_leb_total. exact E.
Qed.

Lemma order_by_trade_date_sorted (l : list Trade.t) :
  Sorted (fun a b => DateTime_leb (Trade.trade_date a) (Trade.trade_date b) = true)
    (order_by_trade_date l).
Proof.
  unfold order_by_trade_date.
  assert (H : forall acc,
             Sorted (fun a b => DateTime_leb (Trade.trade_date a) (Trade.trade_date b) = true) acc ->
             Sorted (fun a b => DateTime_leb (Trade.trade_date a) (Trade.trade_date b) = true)
               (fold_left (fun acc t => insert_by_date t acc) l acc)).
  { induction l as [| t l IH]; intros acc Hacc; cbn [fold_left]; [exact Hacc |].
    apply IH. apply insert_by_date_sorted. exact Hacc. }
  apply H. constructor.
Qed.

(** X21.  The owner reads all the trades of the simulation and only
    them, each once, from the earliest date to the latest. *)
Theorem owner_reads_the_trades (simulation_id user : Z) (w : World)
    (x : Simulation) :
  find_simulation simulation_id user w = Some x ->
  exists ts,
    get_simulation_trades simulation_id user w = Found ts /\
    Permutation ts
      (filter (fun t => (Trade.simulation_id t =? simulation_id)%Z)
         (trades_table w)) /\
    (forall t, In t ts <->
               In t (trades_table w) /\ Trade.simulation_id t = simulation_id) /\
    Sorted (fun a b => DateTime_leb (Trade.trade_date a) (Trade.trade_date b) = true)
      ts.
Proof.
  intros Hx. unfold get_simulation_trades. rewrite Hx.
  eexists. split; [reflexivity |].
  pose proof (order_by_trade_date_perm
                (filter (fun t => (Trade.simulation_id t =? simulation_id)%Z)
                   (trades_table w))) as Hperm.
  split; [exact Hperm |]. split.
  - intros t. split.
    + intros Ht. apply (Permutation_in _ Hperm) in Ht.
      apply filter_In in Ht. rewrite Z.eqb_eq in Ht. exact Ht.
    + intros Ht. apply (Permutation_in _ (Permutation_sym Hperm)).
      apply filter_In. rewrite Z.eqb_eq. exact Ht.
  - apply order_by_trade_date_sorted.
Qed.

Lemma owner_reads_the_trades_witness :
  exists ts,
    get_simulation_trades 1 1 two_owners = Found ts /\
    Permutation ts
      (filter (fun t => (Trade.simulation_id t =? 1)%Z)
         (trades_table two_owners)) /\
    (forall t, In t ts <->
               In t (trades_table two_owners) /\ Trade.simulation_id t = 1%Z) /\
    Sorted (fun a b => DateTime_leb (Trade.trade_date a) (Trade.trade_date b) = true)
      ts.
Proof.
  apply (owner_reads_the_trades 1 1 two_owners
           (create_simulation 1 1 "AAPL" "us" "deepseek" None)).
  reflexivity.
Defined.

(** ** The listing *)

Lemma insert_by_created_perm (created_at : Simulation -> DateTime)
    (x : Simulation) (l : list Simulation) :
  Permutation (insert_by_created created_at x l) (x :: l).
Proof.
  induction l as [| y l IH]; cbn [insert_by_created]; [reflexivity |].
  destruct (DateTime_leb _ _); [| reflexivity].
  rewrite IH. apply perm_swap.
Qed.

Lemma order_by_created_desc_perm (created_at : Simulation -> DateTime)
    (l : list Simulation) :
  Permutation (order_by_created_desc created_at l) l.
Proof.
  unfold order_by_created_desc.
  assert (H : forall acc,
             Permutation
               (fold_left (fun acc x => insert_by_created created_at x acc) l acc)
               (acc ++ l)).
  { induction l as [| x l IH]; intros acc; cbn [fold_left].
    - rewrite app_nil_r. reflexivity.
    - rewrite IH. rewrite insert_by_created_perm.
      cbn [app]. apply Permutation_middle. }
  apply (H []).
Qed.

Lemma firstn_plus {A : Type} (a b : nat) (l : list A) :
  firstn (a + b) l = firstn a l ++ firstn b (skipn a l).
Proof.
  revert l. induction a as [| a IH]; intros l; [reflexivity |].
  destruct l as [| x l]; cbn [Nat.add firstn skipn app].
  - rewrite firstn_nil. reflexivity.
  - rewrite IH. reflexivity.
Qed.

Lemma page_is_a_window {A : Type} (offset page_size : nat) (l : list A) :
  slice offset (offset + page_size) l = firstn page_size (skipn offset l).
Proof. unfold slice. f_equal. lia. Qed.

(** X22.  A page of the listing, for a page number from 1 and a page
    size from 1 to 100: the total is the number of the user's
    simulations that pass the filters, whatever the page; the items are
    the next [page_size] of them after the pages before, fewer at the
    end; each is a simulation of the user that passes the filters. *)
Theorem listing_page (created_at : Simulation -> DateTime)
    (symbol_ status_ : option string) (page page_size : nat) (user : Z)
    (w : World) :
  (1 <= page)%nat ->
  (1 <= page_size <= 100)%nat ->
  let all := all_items created_at symbol_ status_ user w in
  let offset := ((page - 1) * page_size)%nat in
  exists items,
    list_simulations created_at symbol_ status_ page page_size user w
    = Some (List.length all, items) /\
    List.length items = Nat.min page_size (List.length all - offset) /\
    (forall i, (i < page_size)%nat ->
               nth_error items i = nth_error all (offset + i)) /\
    Forall (fun x => In x (simulations w) /\ user_id x = user /\
                     filters symbol_ (symbol x) = true /\
                     filters status_ (Status_name (status x)) = true) items.
Proof.
  intros Hpage Hsize all offset. unfold list_simulations.
  assert (Hv : (1 <=? page)%nat && (1 <=? page_size)%nat
               && (page_size <=? 100)%nat = true).
  { rewrite !andb_true_iff, !Nat.leb_le. lia. }
  rewrite Hv. cbv zeta. fold all. fold offset.
  eexists. split; [reflexivity |].
  rewrite page_is_a_window. split; [| split].
  - rewrite length_firstn, length_skipn. reflexivity.
  - intros i Hi. rewrite nth_error_firstn.
    apply Nat.ltb_lt in Hi. rewrite Hi. apply nth_error_skipn.
  - apply Forall_forall. intros x Hx.
    assert (Hall : In x all).
    { rewrite <- (firstn_skipn offset all). apply in_or_app. right.
      rewrite <- (firstn_skipn page_size (skipn offset all)).
      apply in_or_app. left. exact Hx. }
    unfold all, all_items in Hall.
    apply (Permutation_in _ (order_by_created_desc_perm created_at _)) in Hall.
    apply filter_In in Hall. destruct Hall as (Hin & Hf).
    apply andb_true_iff in Hf. destruct Hf as (Hf & Hst).
    apply andb_true_iff in Hf. destruct Hf as (Hu & Hsy).
    apply Z.eqb_eq in Hu. auto.
Qed.

Lemma listing_page_witness :
  let all := all_items same_instant None (Some "pending"%string) 1 two_owners in
  let offset := ((1 - 1) * 20)%nat in
  exists items,
    list_simulations same_instant None (Some "pending"%string) 1 20 1 two_owners
    = Some (List.length all, items) /\
    List.length items = Nat.min 20 (List.length all - offset) /\
    (forall i, (i < 20)%nat ->
               nth_error items i = nth_error all (offset + i)) /\
    Forall (fun x => In x (simulations two_owners) /\ user_id x = 1%Z /\
                     filters None (symbol x) = true /\
                     filters (Some "pending"%string) (Status_name (status x))
                     = true) items.
Proof.
  apply (listing_page same_instant None (Some "pending"%string) 1 20 1 two_owners);
    lia.
Defined.

(** X23.  The pages of a listing follow one another without gap or
    overlap: the first [n] pages, put end to end, are the first
    [n * page_size] rows of the whole listing. *)
Theorem pages_tile_the_listing (created_at : Simulation -> DateTime)
    (symbol_ status_ : option string) (page_size : nat) (user : Z)
    (w : World) (n : nat) :
  (1 <= page_size <= 100)%nat ->
  List.concat
    (map (page_items created_at symbol_ status_ page_size user w) (seq 0 n))
  = firstn (n * page_size) (all_items created_at symbol_ status_ user w).
Proof.
  intros Hsize. induction n as [| n IH]; [reflexivity |].
  rewrite seq_S, map_app, concat_app, IH. cbn [Nat.add map List.concat].
  rewrite app_nil_r.
  unfold page_items, list_simulations.
  assert (Hv : (1 <=? S n)%nat && (1 <=? page_size)%nat
               && (page_size <=? 100)%nat = true).
  { rewrite !andb_true_iff, !Nat.leb_le. lia. }
  rewrite Hv. cbv zeta.
  replace (S n - 1)%nat with n by lia.
  rewrite page_is_a_window, <- firstn_plus.
  f_equal. lia.
Qed.

Lemma pages_tile_the_listing_witness :
  List.concat (map (page_items same_instant None None 1 1 two_owners) (seq 0 3))
  = firstn (3 * 1) (all_items same_instant None None 1 two_owners).
Proof.
  apply (pages_tile_the_listing same_instant None None 1 1 two_owners 3). lia.
Defined.

(** ** Credits *)

Lemma set_credits_balance_in (user_id : Z) (new_balance : Q)
    (l : list User.t) (v : User.t) :
  In v (set_credits_balance user_id new_balance l) ->
  (User.id v = user_id /\ User.credits_balance v = new_balance) \/
  (User.id v <> user_id /\ In v l).
Proof.
  unfold set_credits_balance. intros H. apply in_map_iff in H.
  destruct H as (u & Hv & Hu).
  destruct (User.id u =? user_id)%Z eqn:E.
  - left. subst v. cbn. apply Z.eqb_eq in E. auto.
  - right. subst v. apply Z.eqb_neq in E. auto.
Qed.

Lemma last_of_app (user_id : Z) (l : list CreditTransaction.t)
    (t : CreditTransaction.t) :
  last_of user_id (l ++ [t])
  = if (CreditTransaction.user_id t =? user_id)%Z then Some t
    else last_of user_id l.
Proof. unfold last_of. rewrite fold_left_app. reflexivity. Qed.

(** A balance written with its transaction keeps the record. *)
Lemma audited_write (a : Accounts) (t : CreditTransaction.t) :
  audited a ->
  audited
    (mkAccounts
       (set_credits_balance (CreditTransaction.user_id t)
          (CreditTransaction.balance_after t) (users a))
       (credit_transactions a ++ [t])).
Proof.
  intros Ha v t' Hv Ht'. cbn [users credit_transactions] in *.
  rewrite last_of_app in Ht'.
  apply set_credits_balance_in in Hv.
  destruct Hv as [[Hid Hb] | [Hne Hin]].
  - apply Z.eqb_eq in Hid. rewrite Z.eqb_sym in Hid. rewrite Hid in Ht'.
    injection Ht' as <-. symmetry. exact Hb.
  - assert (E : (CreditTransaction.user_id t =? User.id v)%Z = false)
      by (apply Z.eqb_neq; congruence).
    rewrite E in Ht'. exact (Ha v t' Hin Ht').
Qed.

(** X25.  The transactions keep track of the balances: if the last
    transaction of every user records the balance the user has, so it
    does after a deduction, granted or refused, and after a
    recharge. *)
Theorem audit_trail_kept (user_id : Z) (amount : Q) (description : string)
    (reference_type : option string) (reference_id : option Z) (a : Accounts) :
  audited a ->
  audited
    (snd (deduct_credits user_id amount description reference_type
            reference_id a)) /\
  forall t a',
    add_credits user_id amount description a = Some (t, a') -> audited a'.
Proof.
  intros Ha. split.
  - unfold deduct_credits.
    destruct (find (fun u => (User.id u =? user_id)%Z) (users a)) as [u |];
      [| exact Ha].
    destruct (Decimal.ltb (User.credits_balance u) amount); [exact Ha |].
    cbv zeta. cbn [snd].
    exact (audited_write a
             (CreditTransaction.mk user_id "consumption" (Decimal.rnd (- amount))
                (Decimal.sub (User.credits_balance u) amount) description
                reference_type reference_id) Ha).
  - intros t a'. unfold add_credits.
    destruct (find (fun u => (User.id u =? user_id)%Z) (users a)) as [u |];
      [| discriminate].
    cbv zeta. intros [= <- <-].
    exact (audited_write a
             (CreditTransaction.mk user_id "recharge" amount
                (Decimal.add (User.credits_balance u) amount) description
                None None) Ha).
Qed.

(** A new account, charged for a report and recharged. *)
Lemma audit_trail_kept_witness :
  audited
    (snd (deduct_credits 1 5 "report" None None one_user)) /\
  forall t a',
    add_credits 1 5 "report" one_user = Some (t, a') -> audited a'.
Proof.
  apply audit_trail_kept. intros u t _ H. discriminate H.
Defined.

(** No action costs less than nothing. *)
Lemma credit_cost_nonneg (action : string) (model : option string) :
  0 <= get_credit_cost action model.
Proof.
  assert (H : forall k, 0 <= costs_get CREDIT_COSTS k 1).
  { intros k. unfold CREDIT_COSTS. cbn [costs_get].
    repeat (destruct (String.eqb k _); [discriminate |]). discriminate. }
  unfold get_credit_cost. destruct model as [m |]; [| apply H].
  destruct (_ && _); apply H.
Qed.

(** X26.  Charging an action never adds credit: whatever the action and
    the model, a granted deduction of its cost leaves a balance between
    zero and the balance there was. *)
Theorem charge_never_credits (action : string) (model : option string)
    (user_id : Z) (description : string) (reference_type : option string)
    (reference_id : option Z) (a a' : Accounts) (u : User.t)
    (t : CreditTransaction.t) :
  find (fun u => (User.id u =? user_id)%Z) (users a) = Some u ->
  held (User.credits_balance u) ->
  deduct_credits user_id (get_credit_cost action model) description
    reference_type reference_id a = (Some t, a') ->
  0 <= CreditTransaction.balance_after t <= User.credits_balance u.
Proof.
  intros Hu (Hpos & Hheld) Hd.
  pose proof (credit_cost_nonneg action model) as Hcost.
  unfold deduct_credits in Hd. rewrite Hu in Hd.
  destruct (Decimal.ltb (User.credits_balance u) (get_credit_cost action model))
    eqn:Hlt; [discriminate |].
  apply ltb_false in Hlt. cbv zeta in Hd. injection Hd as <- _.
  cbn [CreditTransaction.balance_after]. split.
  - apply rnd_nonneg. lra.
  - rewrite <- Hheld at 2. apply rnd_mono; lra.
Qed.

Lemma charge_never_credits_witness :
  0 <= CreditTransaction.balance_after
         (CreditTransaction.mk 1 "consumption" (- (2)) 98 "chat" None None)
    <= User.credits_balance (User.mk 1 100).
Proof.
  apply (charge_never_credits "ai_chat" (Some "claude"%string) 1 "chat" None None
           one_user
           (mkAccounts [User.mk 1 98]
              [CreditTransaction.mk 1 "consumption" (- (2)) 98 "chat" None None])
           (User.mk 1 100)).
  - reflexivity.
  - split; [discriminate | vm_compute; reflexivity].
  - vm_compute. reflexivity.
Defined.

(** ** Creation, and what follows *)



(** What a granted creation leaves. *)
Lemma creation_shape (new_id user : Z) (symbol market agent_name : string)
    (config : option Config) (b b' : Backend) (x : Simulation) :
  Endpoint.create_simulation new_id user symbol market agent_name config b
  = (Created x, b') ->
  x = create_simulation new_id user symbol market agent_name config /\
  simulations (world b') = simulations (world b) ++ [x] /\
  trades_table (world b') = trades_table (world b) /\
  queue (world b') = queue (world b).
Proof.
  unfold Endpoint.create_simulation. cbv zeta.
  destruct (deduct_credits _ _ _ _ _ _) as [[t |] a']; [| discriminate].
  intros [= <- <-]. cbn [world simulations trades_table queue]. auto.
Qed.

(** A row of a new key, at the end of the table, is the one its key
    finds, before and after a commit of it. *)
Lemma find_new_row (f : Simulation -> bool) (l : list Simulation)
    (x : Simulation) :
  (forall y, In y l -> f y = false) -> f x = true ->
  find f (l ++ [x]) = Some x.
Proof.
  intros Hl Hx. induction l as [| y l IH]; cbn [app find].
  - rewrite Hx. reflexivity.
  - rewrite (Hl y (or_introl eq_refl)). apply IH.
    intros z Hz. apply Hl. right. exact Hz.
Qed.

Lemma commit_new_row (l : list Simulation) (x x' : Simulation) :
  (forall y, In y l -> id y <> id x) -> id x' = id x ->
  map (fun y => if (id y =? id x')%Z then x' else y) (l ++ [x]) = l ++ [x'].
Proof.
  intros Hl Hid. rewrite map_app. cbn [map].
  rewrite Hid, Z.eqb_refl. f_equal.
  rewrite <- (map_id l) at 2. apply map_ext_in. intros y Hy.
  pose proof (Hl y Hy) as Hne. apply Z.eqb_neq in Hne. rewrite Hne. reflexivity.
Qed.

(** X28.  From creation to the end.  A simulation created under a key
    that is not yet in the store is found by its owner and can be
    started: the start answers with it and queues one task.  When no
    other task waits, the run of that task leaves the queue empty and
    the simulation [completed] or [failed], still under its key and its
    owner. *)
Theorem created_started_and_run (env : Env) (new_id user : Z)
    (symbol market agent_name : string) (config : option Config)
    (b b' : Backend) (x : Simulation) :
  (forall y, In y (simulations (world b)) -> id y <> new_id) ->
  Endpoint.create_simulation new_id user symbol market agent_name config b
  = (Created x, b') ->
  let w1 := snd (start_simulation new_id user (world b')) in
  let w2 := run_trading_simulation env w1 in
  start_simulation new_id user (world b')
  = (OK x, mkWorld (simulations (world b') ) (trades_table (world b'))
             (queue (world b) ++ [new_id])) /\
  (queue (world b) = [] ->
   queue w2 = [] /\
   exists y,
     find_simulation new_id user w2 = Some y /\
     (status y = Completed \/ status y = Failed)).
Proof.
  intros Hnew Hc. cbv zeta.
  pose proof (creation_shape new_id user symbol market agent_name config b b' x Hc)
    as (Hx & Hsims & Htr & Hq).
  assert (Hid : id x = new_id /\ user_id x = user /\ status x = Pending).
  { subst x. unfold create_simulation.
    destruct (get_initial_balance market). cbn. auto. }
  destruct Hid as (Hid & Huid & Hst).
  assert (Hfind : find_simulation new_id user (world b') = Some x).
  { unfold find_simulation. rewrite Hsims. apply find_new_row.
    - intros y Hy. apply andb_false_iff. left. apply Z.eqb_neq.
      apply Hnew. exact Hy.
    - rewrite Hid, Huid, !Z.eqb_refl. reflexivity. }
  assert (Hstart :
    start_simulation new_id user (world b')
    = (OK x, mkWorld (simulations (world b')) (trades_table (world b'))
               (queue (world b) ++ [new_id]))).
  { unfold start_simulation. rewrite Hfind, Hst. cbn [Status_eqb negb].
    unfold delay. rewrite Hid, Hq. reflexivity. }
  split; [exact Hstart |].
  intros Hempty. rewrite Hstart. cbn [snd].
  unfold run_trading_simulation. cbn [queue]. rewrite Hempty. cbn [app].
  cbv zeta. cbn [simulations trades_table queue].
  assert (Hrow : find (fun y => (id y =? new_id)%Z) (simulations (world b'))
                 = Some x).
  { rewrite Hsims. apply find_new_row.
    - intros y Hy. apply Z.eqb_neq. apply Hnew. exact Hy.
    - rewrite Hid. apply Z.eqb_refl. }
  rewrite Hrow, Hst. cbn [Status_eqb negb].
  set (s := run_simulation env
              (mkSession x (trades_table (world b')) x false)).
  assert (Hsid : id (stored s) = id x)
    by (subst s; apply run_simulation_id).
  assert (Hsu : user_id (stored s) = user_id x)
    by (subst s; apply run_simulation_id).
  unfold commit. cbn [simulations trades_table queue].
  split; [reflexivity |].
  exists (stored s). split.
  - unfold find_simulation. cbn [simulations]. rewrite Hsims.
    rewrite commit_new_row;
      [| intros y Hy; rewrite Hid; apply Hnew; exact Hy | exact Hsid].
    apply find_new_row.
    + intros y Hy. apply andb_false_iff. left. apply Z.eqb_neq.
      apply Hnew. exact Hy.
    + rewrite Hsid, Hsu, Hid, Huid, !Z.eqb_refl. reflexivity.
  - subst s.
    destruct (run_simulation_final_status env
                (mkSession x (trades_table (world b')) x false)) as [H ->].
    exact H.
Qed.

Lemma created_started_and_run_witness :
  let x := create_simulation 1 1 "AAPL" "us" "deepseek" None in
  let b' := snd (Endpoint.create_simulation 1 1 "AAPL" "us" "deepseek" None
                   empty_backend) in
  let w1 := snd (start_simulation 1 1 (world b')) in
  let w2 := run_trading_simulation silent_env w1 in
  start_simulation 1 1 (world b')
  = (OK x, mkWorld (simulations (world b')) (trades_table (world b'))
             (queue (world empty_backend) ++ [1%Z])) /\
  (queue (world empty_backend) = [] ->
   queue w2 = [] /\
   exists y,
     find_simulation 1 1 w2 = Some y /\
     (status y = Completed \/ status y = Failed)).
Proof.
  apply (created_started_and_run silent_env 1 1 "AAPL" "us" "deepseek" None
           empty_backend).
  - intros y [].
  - vm_compute. reflexivity.
Defined.
